(** * Silver price tracker: a shallow embedding of the page's JavaScript

    The development follows the modules of the repository:
    - [Utils]        (utils.js)        date arithmetic and URL helpers,
    - [DataManager]  (data-manager.js) loading of the static JSON documents,
    - [APIManager]   (api-manager.js)  endpoint selection, path extraction,
                                       the retry loop and the fallback chain,
    - [UIRenderer]   (ui-renderer.js)  what is put into the content element,
    - [SilverGiftApp] (app.js)         the top-level control flow.

    Modelling conventions.
    - A JavaScript number that holds a price is a binary64 float, as in the
      engine.  A number that holds a time or a day count is an integer
      ([Z]), with [None] for NaN.
    - A response of a third-party endpoint is an arbitrary [JSON] value.
      The three documents of the repository itself (apis.json,
      recipients.json, daily-prices.json) carry records with the fields
      the code reads.
    - A string holds the UTF-8 bytes of its text.
    - An object used as a dictionary is a finite map of its own keys; an
      array has its indices and [length].  A lookup [object[key]] and a
      test [key in object] also see the properties that the object
      inherits from its prototype ([constructor], [toString],
      [__proto__], ...): they are listed in [JSProto].
    - The network, the timers and the page are effects on a [World]; what
      the network answers is given by an environment [Env], over which
      every theorem quantifies.  Loops carry fuel, and running out of it
      is an outcome of its own, so that termination is a statement.
    - HTML text is not modelled: a view is the data that the template
      interpolates. *)

From Stdlib Require Import ZArith String Ascii List Floats Bool Lia Sorted.
From stdpp Require Import base option list sorting gmap strings pretty.

Open Scope string_scope.

(** ** JavaScript strings *)

Module JSString.

(** [s.startsWith(p)] *)
Fixpoint starts_with (p s : string) : bool :=
  match p, s with
  | EmptyString, _ => true
  | String a p', String b s' => if Ascii.eqb a b then starts_with p' s' else false
  | String _ _, EmptyString => false
  end.

(** [s.includes(p)] *)
Fixpoint includes (p s : string) : bool :=
  if starts_with p s then true
  else match s with
       | EmptyString => false
       | String _ s' => includes p s'
       end.

(** [s.split(sep)] for a non-empty separator.  [skip] counts the
    characters of a separator occurrence still to be dropped, [cur] is the
    piece read so far, in reverse. *)
Fixpoint split_go (sep : string) (skip : nat) (cur : list ascii) (s : string)
  : list string :=
  match skip with
  | S k =>
      match s with
      | EmptyString => [string_of_list_ascii (rev cur)]
      | String _ s' => split_go sep k cur s'
      end
  | O =>
      match s with
      | EmptyString => [string_of_list_ascii (rev cur)]
      | String c s' =>
          if starts_with sep s
          then string_of_list_ascii (rev cur)
                 :: split_go sep (String.length sep - 1) [] s'
          else split_go sep 0 (c :: cur) s'
      end
  end.

Definition split (sep s : string) : list string := split_go sep 0 [] s.

(** The text that [s.replace(pat, rep)] puts in place of the match, for
    a string pattern: in [rep], [$$] stands for a dollar sign, [$&] for
    the match, [$`] for what precedes the match and [$'] for what follows
    it.  There are no capture groups, so every other character, a dollar
    sign before anything else included, stands for itself. *)
Fixpoint substitution (matched before after rep : string) : string :=
  match rep with
  | EmptyString => EmptyString
  | String c rest =>
      if Ascii.eqb c "$"
      then match rest with
           | String d rest' =>
               if Ascii.eqb d "$"
               then String "$" (substitution matched before after rest')
               else if Ascii.eqb d "&"
               then matched ++ substitution matched before after rest'
               else if Ascii.eqb d "`"
               then before ++ substitution matched before after rest'
               else if Ascii.eqb d "'"
               then after ++ substitution matched before after rest'
               else String c (substitution matched before after rest)
           | EmptyString => String c EmptyString
           end
      else String c (substitution matched before after rest)
  end.

(** [s.replace(pat, rep)] with a string pattern: the first occurrence
    only.  [before] is what was read so far, in reverse. *)
Fixpoint replace_go (pat rep : string) (before : list ascii) (s : string) : string :=
  if starts_with pat s
  then
    let after := string_of_list_ascii (drop (String.length pat) (list_ascii_of_string s)) in
    substitution pat (string_of_list_ascii (rev before)) after rep ++ after
  else match s with
       | EmptyString => EmptyString
       | String c s' => String c (replace_go pat rep (c :: before) s')
       end.

Definition replace (pat rep s : string) : string := replace_go pat rep [] s.

End JSString.

(** ** JSON values and the conversions the code applies to them *)

#[warnings="-register-all"]
Inductive JSON : Type :=
| JNull
| JBool (b : bool)
| JNum (x : float)
| JStr (s : string)
| JArr (items : list JSON)
| JObj (fields : list (string * JSON)).

Module JSNumber.

(** Truthiness of a number: every number but [0], [-0] and [NaN]. *)
Definition truthy (x : float) : bool := negb (is_nan x || is_zero x).

(** The binary64 value nearest to [m * 10^e], for an integer [m]: what
    the engine computes for a decimal literal. *)
Definition of_decimal (neg : bool) (m : Z) (e : Z) : float :=
  match m with
  | Zpos p =>
      if (0 <=? e)%Z
      then SF2Prim (binary_normalize prec emax
                      (if neg then (- (m * 10 ^ e))%Z else (m * 10 ^ e)%Z) 0 false)
      else SF2Prim (SFdiv prec emax (S754_finite neg p 0)
                      (S754_finite false (Z.to_pos (10 ^ (- e))) 0))
  | _ => if neg then neg_zero else zero
  end.

Definition digit_of (c : ascii) : option Z :=
  let n := Z.of_nat (nat_of_ascii c) in
  if ((48 <=? n) && (n <=? 57))%Z then Some (n - 48)%Z else None.

(** Reads a run of decimal digits: the value of [acc] followed by the
    digits, how many digits were read, and the rest. *)
Fixpoint take_digits (cs : list ascii) (acc : Z) (count : nat)
  : Z * nat * list ascii :=
  match cs with
  | c :: cs' =>
      match digit_of c with
      | Some d => take_digits cs' (10 * acc + d)%Z (S count)
      | None => (acc, count, cs)
      end
  | [] => (acc, count, [])
  end.

(** The white space and the line terminators of one byte: the code
    points 9 to 13 and 32. *)
Definition is_whitespace (c : ascii) : bool :=
  let n := nat_of_ascii c in
  ((9 <=? n) && (n <=? 13))%nat || (n =? 32)%nat.

(** U+00A0, in UTF-8. *)
Definition is_whitespace2 (c1 c2 : ascii) : bool :=
  ((nat_of_ascii c1 =? 194) && (nat_of_ascii c2 =? 160))%nat.

(** U+1680, U+2000 to U+200A, U+2028, U+2029, U+202F, U+205F, U+3000 and
    U+FEFF, in UTF-8. *)
Definition is_whitespace3 (c1 c2 c3 : ascii) : bool :=
  let n1 := nat_of_ascii c1 in
  let n2 := nat_of_ascii c2 in
  let n3 := nat_of_ascii c3 in
  ((n1 =? 225) && (n2 =? 154) && (n3 =? 128)
   || (n1 =? 226) && (n2 =? 128)
      && ((128 <=? n3) && (n3 <=? 138) || (n3 =? 168) || (n3 =? 169) || (n3 =? 175))
   || (n1 =? 226) && (n2 =? 129) && (n3 =? 159)
   || (n1 =? 227) && (n2 =? 128) && (n3 =? 128)
   || (n1 =? 239) && (n2 =? 187) && (n3 =? 191))%nat.

(** Skips the leading white space, as [parseFloat] does. *)
Fixpoint skip_whitespace (cs : list ascii) : list ascii :=
  match cs with
  | c1 :: cs1 =>
      if is_whitespace c1 then skip_whitespace cs1
      else
        match cs1 with
        | c2 :: cs2 =>
            if is_whitespace2 c1 c2 then skip_whitespace cs2
            else
              match cs2 with
              | c3 :: cs3 => if is_whitespace3 c1 c2 c3 then skip_whitespace cs3 else cs
              | [] => cs
              end
        | [] => cs
        end
  | [] => []
  end.

Definition take_sign (cs : list ascii) : bool * list ascii :=
  match cs with
  | "-"%char :: cs' => (true, cs')
  | "+"%char :: cs' => (false, cs')
  | _ => (false, cs)
  end.

(** [parseFloat(s)] for a string: leading white space, a sign, then the
    longest prefix that is [Infinity] or a decimal literal; [NaN] when
    there is none. *)
Definition parseFloat_string (s : string) : float :=
  let '(neg, cs) := take_sign (skip_whitespace (list_ascii_of_string s)) in
  if JSString.starts_with "Infinity" (string_of_list_ascii cs)
  then (if neg then neg_infinity else infinity)
  else
    let '(ip, ni, cs1) := take_digits cs 0 0 in
    let '(m, nf, cs2) :=
      match cs1 with
      | "."%char :: r => take_digits r ip 0
      | _ => (ip, 0%nat, cs1)
      end in
    if (ni + nf =? 0)%nat then nan
    else
      let e :=
        match cs2 with
        | c :: r =>
            if Ascii.eqb c "e" || Ascii.eqb c "E"
            then let '(eneg, r') := take_sign r in
                 let '(ev, ne, _) := take_digits r' 0 0 in
                 if (ne =? 0)%nat then 0%Z else if eneg then (- ev)%Z else ev
            else 0%Z
        | [] => 0%Z
        end in
      of_decimal neg m (e - Z.of_nat nf).

(** [parseFloat(value)]: the value is converted to a string first.  A
    number prints and reads back as itself ([-0] prints as ["0"]); an
    array prints its elements joined by commas, so only its first element
    can contribute; [null], booleans and objects print as text that is
    not a number. *)
Fixpoint parseFloat (v : JSON) : float :=
  match v with
  | JNum x => if is_zero x then zero else x
  | JStr s => parseFloat_string s
  | JArr (v0 :: _) => parseFloat v0
  | JArr [] => nan
  | JNull | JBool _ | JObj _ => nan
  end.

End JSNumber.

(** ** What every object inherits *)

Module JSProto.

(** The names of the properties of [Object.prototype].  [__proto__] reads
    the prototype of the object, the others are functions. *)
Definition object_prototype_keys : list string :=
  [ "constructor"; "__defineGetter__"; "__defineSetter__"; "hasOwnProperty";
    "__lookupGetter__"; "__lookupSetter__"; "isPrototypeOf"; "propertyIsEnumerable";
    "toString"; "valueOf"; "__proto__"; "toLocaleString" ].

(** The names of the methods of [Array.prototype]; its [constructor],
    [toString] and [toLocaleString] are in the list above, and its
    [length] is a number. *)
Definition array_prototype_keys : list string :=
  [ "at"; "concat"; "copyWithin"; "fill"; "find"; "findIndex"; "findLast";
    "findLastIndex"; "lastIndexOf"; "pop"; "push"; "reverse"; "shift"; "unshift";
    "slice"; "sort"; "splice"; "includes"; "indexOf"; "join"; "keys"; "entries";
    "values"; "forEach"; "filter"; "flat"; "flatMap"; "map"; "every"; "some";
    "reduce"; "reduceRight"; "toReversed"; "toSorted"; "toSpliced"; "with" ].

Definition mem (key : string) (keys : list string) : bool :=
  existsb (String.eqb key) keys.

(** [key in {}]: an object without own properties has the property. *)
Definition in_object_prototype (key : string) : bool := mem key object_prototype_keys.

(** [key in []], for a key that is not [length]. *)
Definition in_array_prototype (key : string) : bool :=
  mem key array_prototype_keys || mem key object_prototype_keys.

End JSProto.

(** ** Property lookup on a JSON value *)

Module JSObject.

(** The array index that a property key denotes, if it is the canonical
    decimal form of one. *)
Definition array_index (key : string) : option nat :=
  match list_ascii_of_string key with
  | [] => None
  | c :: cs =>
      let '(n, count, rest) := JSNumber.take_digits (c :: cs) 0 0 in
      match rest with
      | [] => if Ascii.eqb c "0" && negb (count =? 1)%nat then None
              else Some (Z.to_nat n)
      | _ => None
      end
  end.

Fixpoint assoc (key : string) (fields : list (string * JSON)) : option JSON :=
  match fields with
  | [] => None
  | (k, v) :: rest => if String.eqb k key then Some v else assoc key rest
  end.

(** The own properties: [Some (value[key])] exactly when [value] is an
    object or an array that has [key] as a property of its own. *)
Definition own (value : JSON) (key : string) : option JSON :=
  match value with
  | JObj fields => assoc key fields
  | JArr items =>
      if String.eqb key "length"
      then Some (JNum (JSNumber.of_decimal false (Z.of_nat (length items)) 0))
      else match array_index key with
           | Some i => items !! i
           | None => None
           end
  | JNull | JBool _ | JNum _ | JStr _ => None
  end.

(** What a lookup can reach from a JSON value: a value of the document,
    or something that the document inherits. *)
Inductive Reached : Type :=
| Data (value : JSON)
| ObjectPrototype                (* [Object.prototype] *)
| ArrayPrototype                 (* [Array.prototype] *)
| Method (name : string).        (* an inherited function *)

(** A property of [Object.prototype] as an object inherits it; [proto]
    is the prototype of the object that is asked. *)
Definition inherited (proto : Reached) (key : string) (found : bool) : option Reached :=
  if String.eqb key "__proto__" then Some proto
  else if found then Some (Method key)
  else None.

(** [Some (value[key])] exactly when
    [value && typeof value === 'object' && key in value]: an own
    property first, then the chain of prototypes.  A function is not of
    type ['object'], and the prototype of [Object.prototype] is [null]. *)
Definition get (value : Reached) (key : string) : option Reached :=
  match value with
  | Data (JObj fields) =>
      match assoc key fields with
      | Some child => Some (Data child)
      | None => inherited ObjectPrototype key (JSProto.in_object_prototype key)
      end
  | Data (JArr items) =>
      match own (JArr items) key with
      | Some child => Some (Data child)
      | None => inherited ArrayPrototype key (JSProto.in_array_prototype key)
      end
  | Data (JNull | JBool _ | JNum _ | JStr _) => None
  | ObjectPrototype => inherited (Data JNull) key (JSProto.in_object_prototype key)
  | ArrayPrototype =>
      if String.eqb key "length" then Some (Data (JNum 0%float))
      else inherited ObjectPrototype key (JSProto.in_array_prototype key)
  | Method _ => None
  end.

(** [parseFloat(value)] of what was reached: a function prints as its
    source text, [Object.prototype] as ["[object Object]"] and
    [Array.prototype] as the empty string, and none of these reads as a
    number. *)
Definition parseFloat (value : Reached) : float :=
  match value with
  | Data v => JSNumber.parseFloat v
  | ObjectPrototype | ArrayPrototype | Method _ => nan
  end.

End JSObject.

(** ** Data model *)

(** An entry of data/apis.json. *)
Module EndpointConfig.
Record t : Type := {
  name : string;
  url : string;
  price_path : string;                 (* "price-path" *)
  time_path : string;                  (* "time-path" *)
  authentication : string;             (* a query parameter name, or "none" *)
  priority : Z;
  description : string;
  rate_conversion : option string;     (* absent in most entries *)
  headers : list (string * string)     (* absent is the empty list *)
}.
End EndpointConfig.

(** An entry of data/daily-prices.json. *)
Module PriceEntry.
Record t : Type := {
  date : string;
  price : float;
  source : option string
}.
End PriceEntry.

(** A value of data/recipients.json. *)
Module RecipientRecord.
Record t : Type := {
  recipientName : string;
  giverName : string;
  giftDate : string;
  initialPrice : float;
  silverAmount : string
}.
End RecipientRecord.

(** What [getCurrentPrice] hands to the renderer.  The object literal of
    the live branch has no [isLastKnown] property: that is [None]. *)
Module PriceSample.
Record t : Type := {
  price : float;
  source : string;
  timestamp : string;
  isLive : bool;
  isLastKnown : option bool;
  reliable : bool
}.
End PriceSample.

(** A same-origin document after [response.json()]. *)
Inductive Document : Type :=
| DNull                                              (* JSON null; also the fallback [null] *)
| DEndpoints (config : list EndpointConfig.t)        (* an array of endpoint entries *)
| DPrices (dailyPrices : list PriceEntry.t)          (* an array of price entries *)
| DRecipients (recipients : gmap string RecipientRecord.t)   (* an object keyed by recipient id *)
| DOther (value : JSON).                             (* anything else that is not an array *)

(** ** The page's view *)

Inductive StatusIcon : Type :=
| IconError                                          (* "No price data available" *)
| IconReliable (source : string)                     (* "Live price from ..." *)
| IconLastKnown (source timeAgo : string)            (* class warning, "Last known price from ..." *)
| IconCached (source : string).                      (* class warning, "Cached price from ..." *)

Inductive PriceBlock : Type :=
| PriceUnavailable                                   (* "Silver price data is temporarily unavailable." *)
| PriceShown (priceLabel priceClass : string) (currentValue totalCurrentValue change : float).

Record GiftContent : Type := {
  statusIcon : StatusIcon;
  config : RecipientRecord.t;
  timeDescription : string;
  block : PriceBlock
}.

Inductive Chart : Type :=
| ChartFallback                                      (* showFallbackChart *)
| ChartNoData                                        (* showNoDataChart *)
| ChartLine (labels : list string) (data : list float).

Inductive View : Type :=
| ViewLoading
| ViewRecipientSelector (options : gmap string string)     (* id |-> recipientName *)
| ViewGiftPage (content : GiftContent) (chart : Chart)
| ViewError (message : string).

(** ** Effects *)

Inductive Error : Type :=
| MissingAPIKey (api_name auth : string)             (* buildAPIUrl *)
| FetchRejected                                      (* fetch rejects: network failure, abort *)
| HTTPStatus (status : Z)                            (* !response.ok *)
| InvalidBody                                        (* response.json() rejects *)
| InvalidData                                        (* 'Invalid JSON data received' *)
| InvalidPrice (price : option float).               (* 'Invalid price: ...' *)

(** What happened, in order.  [Fetch] and [Sleep] are the calls of [fetch]
    and of [setTimeout] in a [new Promise]; [TryAPI] and [Attempt] mark the
    start of an iteration of the loop of [tryAllLiveAPIs] and of
    [tryIndividualAPI]. *)
Inductive Event : Type :=
| TryAPI (api : EndpointConfig.t)
| Attempt (api : EndpointConfig.t) (attempt : nat)
| Fetch (url : string)
| Sleep (ms : Z).

Record World : Type := {
  clock : Z;                   (* milliseconds since the epoch *)
  requests : nat;              (* how many times [fetch] was called *)
  events : list Event;
  contentDiv : View
}.

Record Response (A : Type) : Type := {
  ok : bool;
  status : Z;
  json : option A              (* [None]: the body is not JSON *)
}.
Arguments ok {A} _.
Arguments status {A} _.
Arguments json {A} _.

Inductive FetchResult (A : Type) : Type :=
| Rejected
| Resolved (response : Response A).
Arguments Rejected {A}.
Arguments Resolved {A} _.

(** The page's environment.  The [n]-th call of [fetch] is answered by
    [fetch_api n url] or [fetch_document n url]. *)
Record Env : Type := {
  location_search : list (string * string);     (* what URLSearchParams reads from window.location.search *)
  fetch_api : nat -> string -> FetchResult JSON;
  fetch_document : nat -> string -> FetchResult Document;
  date_parse : string -> option Z;              (* the time value of [new Date(s)]; [None] is NaN *)
  toISOString : Z -> string;
  chart_js_loaded : bool                        (* [typeof Chart !== 'undefined'] *)
}.

Inductive Outcome (A : Type) : Type :=
| Ok (a : A)
| Throw (e : Error)
| OutOfFuel.
Arguments Ok {A} _.
Arguments Throw {A} _.
Arguments OutOfFuel {A}.

Definition M (A : Type) : Type := World -> Outcome A * World.

Module Effects.

Definition ret {A} (a : A) : M A := fun w => (Ok a, w).

Definition bind {A B} (m : M A) (k : A -> M B) : M B :=
  fun w =>
    match m w with
    | (Ok a, w') => k a w'
    | (Throw e, w') => (Throw e, w')
    | (OutOfFuel, w') => (OutOfFuel, w')
    end.

Definition throw {A} (e : Error) : M A := fun w => (Throw e, w).

Definition out_of_fuel {A} : M A := fun w => (OutOfFuel, w).

(** [try { m } catch (error) { handler error }] *)
Definition try_catch {A} (m : M A) (handler : Error -> M A) : M A :=
  fun w =>
    match m w with
    | (Throw e, w') => handler e w'
    | r => r
    end.

Definition emit (e : Event) : M unit :=
  fun w => (Ok tt, {| clock := clock w; requests := requests w;
                      events := events w ++ [e]; contentDiv := contentDiv w |}).

(** [await new Promise(resolve => setTimeout(resolve, ms))] *)
Definition sleep (ms : Z) : M unit :=
  fun w => (Ok tt, {| clock := (clock w + ms)%Z; requests := requests w;
                      events := events w ++ [Sleep ms]; contentDiv := contentDiv w |}).

(** [new Date()] *)
Definition now : M Z := fun w => (Ok (clock w), w).

(** [await fetch(url, ...)] against one of the two oracles *)
Definition fetch {A} (oracle : nat -> string -> FetchResult A) (url : string)
  : M (Response A) :=
  fun w =>
    let w' := {| clock := clock w; requests := S (requests w);
                 events := events w ++ [Fetch url]; contentDiv := contentDiv w |} in
    match oracle (requests w) url with
    | Rejected => (Throw FetchRejected, w')
    | Resolved response => (Ok response, w')
    end.

(** [await response.json()] *)
Definition response_json {A} (response : Response A) : M A :=
  match json response with
  | Some data => ret data
  | None => throw InvalidBody
  end.

(** [this.contentDiv.innerHTML = ...] *)
Definition set_content (v : View) : M unit :=
  fun w => (Ok tt, {| clock := clock w; requests := requests w;
                      events := events w; contentDiv := v |}).

End Effects.

Notation "'let*' x ':=' m 'in' k" := (Effects.bind m (fun x => k))
  (at level 10, x name, m at level 100, k at level 200).

(** ** The query string *)

Module URLSearchParams.

(** [urlParams.has(key)] *)
Definition has (params : list (string * string)) (key : string) : bool :=
  existsb (fun kv => String.eqb (fst kv) key) params.

(** [urlParams.get(key)]: the first value of that name, or [null] *)
Fixpoint get (params : list (string * string)) (key : string) : option string :=
  match params with
  | [] => None
  | (k, v) :: rest => if String.eqb k key then Some v else get rest key
  end.

End URLSearchParams.

(** ** Integer-valued numbers, with NaN *)

Module JSInt.

Definition sub (a b : option Z) : option Z :=
  match a, b with
  | Some x, Some y => Some (x - y)%Z
  | _, _ => None
  end.

(** [Math.abs(a)] *)
Definition abs (a : option Z) : option Z := Z.abs <$> a.

(** [Math.floor(a / d)] *)
Definition floor_div (a : option Z) (d : Z) : option Z := (fun x => x / d)%Z <$> a.

(** [a % d] *)
Definition rem (a : option Z) (d : Z) : option Z := (fun x => Z.rem x d) <$> a.

(** Every comparison with NaN is false. *)
Definition ltb (a : option Z) (b : Z) : bool :=
  match a with Some x => (x <? b)%Z | None => false end.

Definition gtb (a : option Z) (b : Z) : bool :=
  match a with Some x => (b <? x)%Z | None => false end.

Definition eqb (a : option Z) (b : Z) : bool :=
  match a with Some x => (x =? b)%Z | None => false end.

(** The number inside a template literal. *)
Definition to_string (a : option Z) : string :=
  match a with Some x => pretty x | None => "NaN" end.

End JSInt.

(** ** utils.js *)

Module Utils.
Section WithEnv.
Context (env : Env).

(** [`${n} ${unit}${n === 1 ? '' : 's'} ago`] *)
Definition ago (n : option Z) (unit : string) : string :=
  JSInt.to_string n ++ " " ++ unit ++ (if JSInt.eqb n 1 then "" else "s") ++ " ago".

(** [Utils.getTimeAgo(timestamp)], read at the time [now].  A timestamp
    that is [undefined] or [null] is [None]. *)
Definition getTimeAgo (now : Z) (timestamp : option string) : string :=
  match timestamp with
  | None | Some "" => "unknown time"
  | Some ts =>
      let then_ := date_parse env ts in
      let diffMs := JSInt.sub (Some now) then_ in
      if JSInt.ltb diffMs 0 then "recently"
      else
        let diffMinutes := JSInt.floor_div diffMs (1000 * 60) in
        let diffHours := JSInt.floor_div diffMs (1000 * 60 * 60) in
        let diffDays := JSInt.floor_div diffMs (1000 * 60 * 60 * 24) in
        if JSInt.ltb diffMinutes 1 then "just now"
        else if JSInt.ltb diffMinutes 60 then ago diffMinutes "minute"
        else if JSInt.ltb diffHours 24 then ago diffHours "hour"
        else if JSInt.ltb diffDays 7 then ago diffDays "day"
        else if JSInt.ltb diffDays 30 then ago (JSInt.floor_div diffDays 7) "week"
        else if JSInt.ltb diffDays 365 then ago (JSInt.floor_div diffDays 30) "month"
        else ago (JSInt.floor_div diffDays 365) "year"
  end.

(** [Utils.getRecipientFromUrl()] *)
Definition getRecipientFromUrl : option string :=
  URLSearchParams.get (location_search env) "recipient".

(** [Utils.getTimeDifference(giftDate)], read at the time [today] *)
Definition getTimeDifference (today : Z) (giftDate : string) : string :=
  let diffTime := JSInt.abs (JSInt.sub (Some today) (date_parse env giftDate)) in
  let diffDays := JSInt.floor_div diffTime (1000 * 60 * 60 * 24) in
  let years := JSInt.floor_div diffDays 365 in
  let remainingDays := JSInt.rem diffDays 365 in
  if JSInt.gtb years 0 && JSInt.gtb remainingDays 0
  then JSInt.to_string years ++ " " ++ (if JSInt.eqb years 1 then "year" else "years")
       ++ ", " ++ JSInt.to_string remainingDays ++ " "
       ++ (if JSInt.eqb remainingDays 1 then "day" else "days") ++ " ago"
  else if JSInt.gtb years 0
  then JSInt.to_string years ++ " " ++ (if JSInt.eqb years 1 then "year" else "years") ++ " ago"
  else if JSInt.gtb remainingDays 0
  then JSInt.to_string remainingDays ++ " "
       ++ (if JSInt.eqb remainingDays 1 then "day" else "days") ++ " ago"
  else "today".

End WithEnv.
End Utils.

(** ** data-manager.js *)

Module DataManager.
Section WithEnv.
Context (env : Env).

Definition maxRetries : nat := 3.
Definition retryDelay : Z := 500.

(** One pass of the [try] block of [loadWithFallback]. *)
Definition loadOnce (url : string) : M Document :=
  let* response := Effects.fetch (fetch_document env) url in
  if negb (ok response) then Effects.throw (HTTPStatus (status response))
  else
    let* data := Effects.response_json response in
    match data with
    | DNull => Effects.throw InvalidData
    | _ => Effects.ret data
    end.

(** The loop [for (let attempt = 1; attempt <= retries; attempt++)] of
    [loadWithFallback]; [fuel] bounds the number of loop tests. *)
Fixpoint loadLoop (fuel : nat) (url : string) (fallback : Document)
  (retries attempt : nat) : M Document :=
  match fuel with
  | O => Effects.out_of_fuel
  | S fuel' =>
      if (attempt <=? retries)%nat
      then
        Effects.try_catch (loadOnce url)
          (fun error =>
             if (attempt =? retries)%nat then Effects.ret fallback
             else
               let* _ := Effects.sleep (retryDelay * Z.of_nat attempt) in
               loadLoop fuel' url fallback retries (S attempt))
      else Effects.ret fallback
  end.

(** [loadWithFallback(url, fallback, retries)] *)
Definition loadWithFallback (url : string) (fallback : Document) (retries : nat)
  : M Document :=
  loadLoop (S retries) url fallback retries 1.

(** [loadAppData()].  The two loads are started together in the source;
    here the recipients are loaded first. *)
Definition loadAppData : M (gmap string RecipientRecord.t * list PriceEntry.t) :=
  let* recipients := loadWithFallback "data/recipients.json" (DRecipients ∅) maxRetries in
  let* priceData := loadWithFallback "data/daily-prices.json" (DPrices []) maxRetries in
  Effects.ret (match recipients with DRecipients m => m | _ => ∅ end,
               match priceData with DPrices l => l | _ => [] end).

(** [getLastKnownPrice()] *)
Definition getLastKnownPrice : M (option PriceSample.t) :=
  Effects.try_catch
    (let* dailyPrices := loadWithFallback "data/daily-prices.json" (DPrices []) 2 in
     match dailyPrices with
     | DPrices entries =>
         match last entries with
         | Some lastEntry =>
             Effects.ret (Some {|
               PriceSample.price := PriceEntry.price lastEntry;
               PriceSample.source :=
                 match PriceEntry.source lastEntry with
                 | None | Some "" => "historical"
                 | Some s => s
                 end;
               PriceSample.timestamp := PriceEntry.date lastEntry ++ "T12:00:00Z";
               PriceSample.isLive := false;
               PriceSample.isLastKnown := Some true;
               PriceSample.reliable := false |})
         | None => Effects.ret None
         end
     | _ => Effects.ret None
     end)
    (fun error => Effects.ret None).

End WithEnv.
End DataManager.

(** ** api-manager.js *)

Module APIManager.
Section WithEnv.
Context (env : Env).
Import EndpointConfig.

(** [isAPIAvailable(api)] *)
Definition isAPIAvailable (api : EndpointConfig.t) : bool :=
  if String.eqb (authentication api) "none" then true
  else URLSearchParams.has (location_search env) (authentication api).

(** [getFallbackAPIConfig()] *)
Definition getFallbackAPIConfig : list EndpointConfig.t :=
  [ {| name := "gold-api";
       url := "https://api.gold-api.com/price/XAG";
       price_path := "price";
       time_path := "updatedAt";
       authentication := "none";
       priority := 1;
       description := "Fallback API configuration";
       rate_conversion := None;
       headers := [] |} ].

(** [config.sort((a, b) => a.priority - b.priority)].  The sort of the
    language is stable; for a comparator that is a difference of integers
    its result is the one of a stable insertion sort. *)
Fixpoint insert_by_priority (a : EndpointConfig.t) (sorted : list EndpointConfig.t)
  : list EndpointConfig.t :=
  match sorted with
  | [] => [a]
  | b :: rest =>
      if (priority a <=? priority b)%Z then a :: b :: rest
      else b :: insert_by_priority a rest
  end.

Fixpoint sort_by_priority (config : list EndpointConfig.t) : list EndpointConfig.t :=
  match config with
  | [] => []
  | a :: rest => insert_by_priority a (sort_by_priority rest)
  end.

(** [loadAPIConfig()] *)
Definition loadAPIConfig : M (list EndpointConfig.t) :=
  Effects.try_catch
    (let* config := DataManager.loadWithFallback env "data/apis.json" DNull 2 in
     match config with
     | DEndpoints config =>
         let availableAPIs := List.filter isAPIAvailable (sort_by_priority config) in
         Effects.ret (if (0 <? length availableAPIs)%nat then availableAPIs
                      else getFallbackAPIConfig)
     | _ => Effects.ret getFallbackAPIConfig
     end)
    (fun error => Effects.ret getFallbackAPIConfig).

(** [buildAPIUrl(api)] *)
Definition buildAPIUrl (api : EndpointConfig.t) : M string :=
  if negb (String.eqb (authentication api) "none")
  then
    match URLSearchParams.get (location_search env) (authentication api) with
    | None | Some "" => Effects.throw (MissingAPIKey (name api) (authentication api))
    | Some apiKey =>
        Effects.ret (JSString.replace ("{" ++ authentication api ++ "}") apiKey (url api))
    end
  else Effects.ret (url api).

(** What [parseJSONPath] returns: an array of keys, or a member of
    [Object.prototype]. *)
Inductive PathValue : Type :=
| PathKeys (keys : list string)
| PathMember (name : string).

Definition complexPaths : gmap string (list string) :=
  list_to_map
    [ ("Global Quote.05. price", ["Global Quote"; "05. price"]);
      ("Global Quote.07. latest trading day", ["Global Quote"; "07. latest trading day"]);
      ("rates.XAG", ["rates"; "XAG"]);
      ("rates.USDXAG", ["rates"; "USDXAG"]) ].

(** [parseJSONPath(pathString)].  [complexPaths[pathString]] finds an
    entry of the table, or a property that the table inherits: that one
    is truthy too, and is returned as it is. *)
Definition parseJSONPath (pathString : string) : PathValue :=
  match complexPaths !! pathString with
  | Some path => PathKeys path
  | None =>
      if JSProto.in_object_prototype pathString then PathMember pathString
      else if JSString.includes "Global Quote" pathString
      then
        match JSString.split "Global Quote." pathString with
        | [_; part1] => PathKeys ["Global Quote"; part1]
        | _ => PathKeys (JSString.split "." pathString)
        end
      else PathKeys (JSString.split "." pathString)
  end.

(** The loop [for (const key of path)] of [extractPrice]: [None] is the
    early [return null]. *)
Fixpoint walkPath (path : list string) (value : JSObject.Reached)
  : option JSObject.Reached :=
  match path with
  | [] => Some value
  | key :: rest =>
      match JSObject.get value key with
      | Some child => walkPath rest child
      | None => None
      end
  end.

(** [api.rate_conversion === 'invert'] *)
Definition inverts (api : EndpointConfig.t) : bool :=
  match rate_conversion api with
  | Some s => String.eqb s "invert"
  | None => false
  end.

(** [extractPrice(data, api)]; [None] is [null].  A member of
    [Object.prototype] is not iterable: [for (const key of path)] throws
    a [TypeError], and the [catch] returns [null]. *)
Definition extractPrice (data : JSON) (api : EndpointConfig.t) : option float :=
  match parseJSONPath (price_path api) with
  | PathMember _ => None
  | PathKeys path =>
      match walkPath path (JSObject.Data data) with
      | None => None
      | Some value =>
          let price := JSObject.parseFloat value in
          if is_nan price then None
          else Some (if inverts api then (1 / price)%float else price)
      end
  end.

Definition maxAttempts : nat := 3.

(** [price && price >= 10 && price <= 200] *)
Definition acceptable (price : option float) : bool :=
  match price with
  | Some p => JSNumber.truthy p && (10 <=? p)%float && (p <=? 200)%float
  | None => false
  end.

(** The [try] block of [tryIndividualAPI]. *)
Definition attemptOnce (api : EndpointConfig.t) : M PriceSample.t :=
  let* url := buildAPIUrl api in
  let* response := Effects.fetch (fetch_api env) url in
  if negb (ok response) then Effects.throw (HTTPStatus (status response))
  else
    let* data := Effects.response_json response in
    let price := extractPrice data api in
    match price with
    | Some p =>
        if acceptable price
        then
          let* t := Effects.now in
          Effects.ret {| PriceSample.price := p;
                         PriceSample.source := name api;
                         PriceSample.timestamp := toISOString env t;
                         PriceSample.isLive := true;
                         PriceSample.isLastKnown := None;
                         PriceSample.reliable := true |}
        else Effects.throw (InvalidPrice price)
    | None => Effects.throw (InvalidPrice price)
    end.

(** The loop [for (let attempt = 1; attempt <= maxAttempts; attempt++)]
    of [tryIndividualAPI]; [fuel] bounds the number of loop tests. *)
Fixpoint retryLoop (fuel : nat) (api : EndpointConfig.t) (attempt : nat)
  : M (option PriceSample.t) :=
  match fuel with
  | O => Effects.out_of_fuel
  | S fuel' =>
      if (attempt <=? maxAttempts)%nat
      then
        let* _ := Effects.emit (Attempt api attempt) in
        Effects.try_catch
          (let* sample := attemptOnce api in Effects.ret (Some sample))
          (fun error =>
             let* _ := (if (attempt <? maxAttempts)%nat
                        then Effects.sleep (500 * Z.of_nat attempt)
                        else Effects.ret tt) in
             retryLoop fuel' api (S attempt))
      else Effects.ret None
  end.

(** [tryIndividualAPI(api)] *)
Definition tryIndividualAPI (api : EndpointConfig.t) : M (option PriceSample.t) :=
  retryLoop (S maxAttempts) api 1.

(** The loop [for (let i = 0; i < apiConfigs.length; i++)] of
    [tryAllLiveAPIs], over the endpoints from index [i] on. *)
Fixpoint tryAllLoop (apiConfigs : list EndpointConfig.t) : M (option PriceSample.t) :=
  match apiConfigs with
  | [] => Effects.ret None
  | api :: rest =>
      let* _ := Effects.emit (TryAPI api) in
      let* result := Effects.try_catch (tryIndividualAPI api)
                       (fun error => Effects.ret None) in
      match result with
      | Some sample => Effects.ret (Some sample)
      | None =>
          let* _ := (if (0 <? length rest)%nat
                     then Effects.sleep 1000
                     else Effects.ret tt) in
          tryAllLoop rest
      end
  end.

(** [tryAllLiveAPIs()] *)
Definition tryAllLiveAPIs : M (option PriceSample.t) :=
  let* apiConfigs := loadAPIConfig in
  tryAllLoop apiConfigs.

(** [getCurrentPrice()] *)
Definition getCurrentPrice : M (option PriceSample.t) :=
  let* livePrice := tryAllLiveAPIs in
  match livePrice with
  | Some sample => Effects.ret (Some sample)
  | None => DataManager.getLastKnownPrice env
  end.

End WithEnv.
End APIManager.

(** ** ui-renderer.js *)

Module UIRenderer.
Section WithEnv.
Context (env : Env).

(** [currentPriceData?.price], as a condition *)
Definition has_price (currentPriceData : option PriceSample.t) : bool :=
  match currentPriceData with
  | Some sample => JSNumber.truthy (PriceSample.price sample)
  | None => false
  end.

(** [currentPriceData.isLastKnown], as a condition *)
Definition lastKnown (sample : PriceSample.t) : bool :=
  match PriceSample.isLastKnown sample with
  | Some b => b
  | None => false
  end.

(** [createStatusIcon(currentPriceData)] *)
Definition createStatusIcon (now : Z) (currentPriceData : option PriceSample.t)
  : StatusIcon :=
  match currentPriceData with
  | Some sample =>
      if negb (has_price currentPriceData) then IconError
      else if PriceSample.isLive sample then IconReliable (PriceSample.source sample)
      else if lastKnown sample
      then IconLastKnown (PriceSample.source sample)
             (Utils.getTimeAgo env now (Some (PriceSample.timestamp sample)))
      else IconCached (PriceSample.source sample)
  | None => IconError
  end.

(** The two constants of [createGiftContent] that depend on the sample. *)
Definition priceLabel (sample : PriceSample.t) : string :=
  if lastKnown sample then "Last known value" else "Current value".

Definition priceClass (sample : PriceSample.t) : string :=
  if lastKnown sample then "price last-known" else "price".

(** [createGiftContent(config, currentPriceData, timeDescription, ...)].
    The numbers are kept as numbers; the source prints them with
    [toFixed]. *)
Definition createGiftContent (config : RecipientRecord.t)
  (currentPriceData : option PriceSample.t) (timeDescription : string)
  (statusIcon : StatusIcon) : GiftContent :=
  match currentPriceData with
  | Some sample =>
      if negb (has_price currentPriceData)
      then Build_GiftContent statusIcon config timeDescription PriceUnavailable
      else
        let currentValue := PriceSample.price sample in
        let initialValue := RecipientRecord.initialPrice config in
        let change := ((currentValue - initialValue) / initialValue * 100)%float in
        let silverOz := JSNumber.parseFloat_string (RecipientRecord.silverAmount config) in
        let totalCurrentValue := (currentValue * silverOz)%float in
        Build_GiftContent statusIcon config timeDescription
          (PriceShown (priceLabel sample) (priceClass sample)
             currentValue totalCurrentValue change)
  | None => Build_GiftContent statusIcon config timeDescription PriceUnavailable
  end.

(** [createChart(dailyPrices, recipientName)] *)
Definition createChart (dailyPrices : list PriceEntry.t) : Chart :=
  if negb (chart_js_loaded env) then ChartFallback
  else if (length dailyPrices =? 0)%nat then ChartNoData
  else ChartLine (map PriceEntry.date dailyPrices) (map PriceEntry.price dailyPrices).

(** [renderGiftPage(config, dailyPrices, currentPriceData)] *)
Definition renderGiftPage (config : RecipientRecord.t) (dailyPrices : list PriceEntry.t)
  (currentPriceData : option PriceSample.t) : M unit :=
  let* today := Effects.now in
  let timeDescription := Utils.getTimeDifference env today (RecipientRecord.giftDate config) in
  let statusIcon := createStatusIcon today currentPriceData in
  let content := createGiftContent config currentPriceData timeDescription statusIcon in
  Effects.set_content (ViewGiftPage content (createChart dailyPrices)).

(** What the renderer reads of a [config] that is a member of
    [Object.prototype]: every field is [undefined], which a template
    literal prints as "undefined", which is NaN as a number and which
    [parseFloat] reads as NaN. *)
Definition undefined_fields : RecipientRecord.t :=
  {| RecipientRecord.recipientName := "undefined";
     RecipientRecord.giverName := "undefined";
     RecipientRecord.giftDate := "undefined";
     RecipientRecord.initialPrice := nan;
     RecipientRecord.silverAmount := "undefined" |}.

(** [renderGiftPage(config, dailyPrices, currentPriceData)] for such a
    [config]: [new Date(undefined)] is not a date, so that
    [getTimeDifference] says "today". *)
Definition renderGiftPage_member (dailyPrices : list PriceEntry.t)
  (currentPriceData : option PriceSample.t) : M unit :=
  let* today := Effects.now in
  let timeDescription := "today" in
  let statusIcon := createStatusIcon today currentPriceData in
  let content := createGiftContent undefined_fields currentPriceData timeDescription
                   statusIcon in
  Effects.set_content (ViewGiftPage content (createChart dailyPrices)).

(** [showRecipientSelector(recipients)] *)
Definition showRecipientSelector (recipients : gmap string RecipientRecord.t) : M unit :=
  Effects.set_content (ViewRecipientSelector (RecipientRecord.recipientName <$> recipients)).

(** [showError(message)] *)
Definition showError (message : string) : M unit :=
  Effects.set_content (ViewError message).

End WithEnv.
End UIRenderer.

(** ** app.js *)

Module SilverGiftApp.
Section WithEnv.
Context (env : Env).

(** [loadAndRender()].  [recipients[recipientId]] is a record of the
    map, or a property that the map inherits, which is truthy as well;
    it is [undefined] otherwise. *)
Definition loadAndRender : M unit :=
  let recipientId := Utils.getRecipientFromUrl env in
  let* appData := DataManager.loadAppData env in
  let recipients := fst appData in
  let dailyPrices := snd appData in
  match recipientId with
  | None | Some "" => UIRenderer.showRecipientSelector recipients
  | Some id =>
      match recipients !! id with
      | Some config =>
          let* currentPriceData := APIManager.getCurrentPrice env in
          UIRenderer.renderGiftPage env config dailyPrices currentPriceData
      | None =>
          if JSProto.in_object_prototype id
          then
            let* currentPriceData := APIManager.getCurrentPrice env in
            UIRenderer.renderGiftPage_member env dailyPrices currentPriceData
          else UIRenderer.showRecipientSelector recipients
      end
  end.

(** [init()] *)
Definition init : M unit :=
  Effects.try_catch loadAndRender
    (fun error =>
       UIRenderer.showError "Failed to load the application. Please refresh the page.").

End WithEnv.
End SilverGiftApp.

(** * Vocabulary of the specification *)

Open Scope list_scope.

(** ** Reading the events *)

Module Trace.

(** The endpoints that [tryAllLiveAPIs] turned to, in order. *)
Definition tried (evs : list Event) : list EndpointConfig.t :=
  omap (fun e => match e with TryAPI api => Some api | _ => None end) evs.

(** The passes of the retry loop, in order. *)
Definition attempts (evs : list Event) : list (EndpointConfig.t * nat) :=
  omap (fun e => match e with Attempt api n => Some (api, n) | _ => None end) evs.

(** The delays that were waited for, in order. *)
Definition delays (evs : list Event) : list Z :=
  omap (fun e => match e with Sleep ms => Some ms | _ => None end) evs.

(** The addresses that were fetched, in order. *)
Definition fetches (evs : list Event) : list string :=
  omap (fun e => match e with Fetch url => Some url | _ => None end) evs.

(** Events of the network and of the timers only. *)
Definition quiet (evs : list Event) : Prop :=
  tried evs = [] /\ attempts evs = [].

End Trace.

(** What a run from [w] to [w'] added to the events. *)
Definition appended (w w' : World) : list Event :=
  drop (length (events w)) (events w').

(** ** Running a computation

    [wp m Q w]: run from [w], the computation [m] appends some events
    [evs], and [Q evs outcome w'] holds of them, of its outcome and of the
    world it leaves. *)

Definition wp {A} (m : M A) (Q : list Event -> Outcome A -> World -> Prop) (w : World)
  : Prop :=
  exists evs, events (snd (m w)) = events w ++ evs /\ Q evs (fst (m w)) (snd (m w)).

(** The computation returns a value: it neither throws nor runs out of fuel. *)
Definition returns {A} (r : Outcome A) : Prop := exists a, r = Ok a.

(** The document cannot be loaded: every request for it fails, or is
    answered with something that [loadWithFallback] refuses. *)
Definition Unloadable (env : Env) (url : string) : Prop :=
  forall n,
    match fetch_document env n url with
    | Rejected => True
    | Resolved response =>
        ok response = false \/ json response = None \/ json response = Some DNull
    end.

(** ** Path resolution, in the words of the specification *)

(** [Resolves data keys value]: looking the keys up one after the other,
    starting from [data], every key is present and the walk ends on
    [value]. *)
Inductive Resolves : JSON -> list string -> JSON -> Prop :=
| Resolves_nil data : Resolves data [] data
| Resolves_cons data key child keys value :
    JSObject.own data key = Some child ->
    Resolves child keys value ->
    Resolves data (key :: keys) value.

(** Some key is absent along the walk. *)
Definition KeyAbsent (data : JSON) (keys : list string) : Prop :=
  exists before key after value,
    keys = before ++ key :: after /\
    Resolves data before value /\
    JSObject.own value key = None.

(** ** Elapsed time, in the words of the specification *)

Module TimeAgoSpec.

Definition minute : Z := 1000 * 60.
Definition hour : Z := 1000 * 60 * 60.
Definition day : Z := 1000 * 60 * 60 * 24.

Definition count (n : Z) (unit : string) : string :=
  pretty n +:+ " " +:+ unit +:+ (if (n =? 1)%Z then "" else "s") +:+ " ago".

(** The thresholds, in their fixed order: a test on the elapsed
    milliseconds and the description that goes with it. *)
Definition thresholds : list ((Z -> bool) * (Z -> string)) :=
  [ (fun d => (d / minute <? 1)%Z,  fun _ => "just now");
    (fun d => (d / minute <? 60)%Z, fun d => count (d / minute) "minute");
    (fun d => (d / hour <? 24)%Z,   fun d => count (d / hour) "hour");
    (fun d => (d / day <? 7)%Z,     fun d => count (d / day) "day");
    (fun d => (d / day <? 30)%Z,    fun d => count (d / day / 7) "week");
    (fun d => (d / day <? 365)%Z,   fun d => count (d / day / 30) "month") ].

(** The description of the first threshold that matches; years when none
    does. *)
Definition describe (d : Z) : string :=
  match List.find (fun t => fst t d) thresholds with
  | Some t => snd t d
  | None => count (d / day / 365) "year"
  end.

End TimeAgoSpec.

(** ** Order of the endpoints and the accepted band *)

Definition by_priority (a b : EndpointConfig.t) : Prop :=
  (EndpointConfig.priority a <= EndpointConfig.priority b)%Z.

(** The price lies in the closed interval from 10 to 200. *)
Definition InBand (p : float) : Prop :=
  (10 <=? p)%float = true /\ (p <=? 200)%float = true.

(** ** The two shapes of a price sample *)

Definition LiveShape (s : PriceSample.t) : Prop :=
  PriceSample.isLive s = true /\ PriceSample.reliable s = true /\
  PriceSample.isLastKnown s = None.

Definition HistoricalShape (s : PriceSample.t) : Prop :=
  PriceSample.isLive s = false /\ PriceSample.isLastKnown s = Some true /\
  PriceSample.reliable s = false.

(** ** An example page

    Two configured endpoints, a recipient map and a price history, with a
    network that answers ([example_online]) or does not
    ([example_offline]). *)

Module Example.
Import EndpointConfig.

Definition metals : EndpointConfig.t :=
  {| name := "metals"; url := "https://metals.example/latest?key={key}";
     price_path := "rates.XAG"; time_path := "timestamp";
     authentication := "key"; priority := 2; description := "rates per dollar";
     rate_conversion := Some "invert"; headers := [] |}.

Definition quotes : EndpointConfig.t :=
  {| name := "quotes"; url := "https://quotes.example/query";
     price_path := "Global Quote.05. price";
     time_path := "Global Quote.07. latest trading day";
     authentication := "none"; priority := 1; description := "quote service";
     rate_conversion := None; headers := [] |}.

Definition premium : EndpointConfig.t :=
  {| name := "premium"; url := "https://premium.example/xag?token={token}";
     price_path := "price"; time_path := "time";
     authentication := "token"; priority := 0; description := "needs a token";
     rate_conversion := None; headers := [] |}.

Definition history : list PriceEntry.t :=
  [ {| PriceEntry.date := "2025-10-30"; PriceEntry.price := 48.5;
       PriceEntry.source := Some "gold-api" |};
    {| PriceEntry.date := "2025-10-31"; PriceEntry.price := 49.25;
       PriceEntry.source := None |} ].

Definition mary : RecipientRecord.t :=
  {| RecipientRecord.recipientName := "Mary"; RecipientRecord.giverName := "Tom";
     RecipientRecord.giftDate := "2024-11-02"; RecipientRecord.initialPrice := 32.5;
     RecipientRecord.silverAmount := "1" |}.

Definition respond {A} (data : A) : FetchResult A :=
  Resolved {| ok := true; status := 200; json := Some data |}.

Definition documents (n : nat) (url : string) : FetchResult Document :=
  if String.eqb url "data/apis.json" then respond (DEndpoints [metals; premium; quotes])
  else if String.eqb url "data/daily-prices.json" then respond (DPrices history)
  else if String.eqb url "data/recipients.json" then respond (DRecipients {[ "mary" := mary ]})
  else Rejected.

(** The quote service answers with a price outside the band, the rates
    service with a rate whose reciprocal is 32. *)
Definition endpoints (n : nat) (url : string) : FetchResult JSON :=
  if String.eqb url "https://quotes.example/query"
  then respond (JObj [("Global Quote", JObj [("05. price", JStr "5.5000")])])
  else if String.eqb url "https://metals.example/latest?key=K1"
  then respond (JObj [("rates", JObj [("XAG", JNum 0.03125)])])
  else Rejected.

Definition dates (s : string) : option Z :=
  if String.eqb s "2024-11-02" then Some 1730505600000%Z
  else if String.eqb s "2025-10-31T12:00:00Z" then Some 1761912000000%Z
  else None.

Definition example_online : Env :=
  {| location_search := [("recipient", "john"); ("key", "K1")];
     fetch_api := endpoints;
     fetch_document := documents;
     date_parse := dates;
     toISOString := fun t => pretty t;
     chart_js_loaded := true |}.

Definition example_offline : Env :=
  {| location_search := [("recipient", "john"); ("key", "K1")];
     fetch_api := fun _ _ => Rejected;
     fetch_document := documents;
     date_parse := dates;
     toISOString := fun t => pretty t;
     chart_js_loaded := true |}.

(** The page at 2025-11-02T00:00:00Z, nothing done yet. *)
Definition start : World :=
  {| clock := 1762041600000; requests := 0; events := []; contentDiv := ViewLoading |}.

End Example.

(** ** Further code of utils.js *)

Module UtilsFormat.

(** [Utils.getOrdinalSuffix(num)] for an integer [num] *)
Definition getOrdinalSuffix (num : Z) : string :=
  let j := Z.rem num 10 in
  let k := Z.rem num 100 in
  if ((11 <=? k) && (k <=? 13))%Z then pretty num +:+ "th"
  else if (j =? 1)%Z then pretty num +:+ "st"
  else if (j =? 2)%Z then pretty num +:+ "nd"
  else if (j =? 3)%Z then pretty num +:+ "rd"
  else pretty num +:+ "th".

End UtilsFormat.

(** ** Further vocabulary *)

Module Budget.

(** The time spent in timers, in milliseconds. *)
Definition waited (evs : list Event) : Z := foldr Z.add 0%Z (Trace.delays evs).

End Budget.

(** The passes 1, ..., [k] of the retry loop for [api]. *)
Definition passes (api : EndpointConfig.t) (k : nat) : list (EndpointConfig.t * nat) :=
  (fun n => (api, n)) <$> seq 1 k.

(** The passes for endpoints that were given up one after the other. *)
Definition given_up (apis : list EndpointConfig.t) : list (EndpointConfig.t * nat) :=
  flat_map (fun api => passes api 3) apis.

(** A document that the server sent for [url]: the body of a successful
    answer, and not [null]. *)
Definition Served (env : Env) (url : string) (doc : Document) : Prop :=
  exists n response,
    fetch_document env n url = Resolved response /\
    ok response = true /\ json response = Some doc /\ doc <> DNull.

(** ** Further example pages *)

Module Scenario.
Import EndpointConfig.

(** The key of the rates service is in the query string, but empty. *)
Definition empty_key : Env :=
  {| location_search := [("recipient", "mary"); ("key", "")];
     fetch_api := Example.endpoints;
     fetch_document := Example.documents;
     date_parse := Example.dates;
     toISOString := fun t => pretty t;
     chart_js_loaded := true |}.

(** Mary opens her page while the endpoints answer. *)
Definition mary_online : Env :=
  {| location_search := [("recipient", "mary"); ("key", "K1")];
     fetch_api := Example.endpoints;
     fetch_document := Example.documents;
     date_parse := Example.dates;
     toISOString := fun t => pretty t;
     chart_js_loaded := true |}.

(** The page is opened with [?recipient=constructor&key=K1]. *)
Definition constructor_page : Env :=
  {| location_search := [("recipient", "constructor"); ("key", "K1")];
     fetch_api := Example.endpoints;
     fetch_document := Example.documents;
     date_parse := Example.dates;
     toISOString := fun t => pretty t;
     chart_js_loaded := true |}.

(** An endpoint that answers with an object and keeps the price under
    the key "constructor". *)
Definition by_constructor : EndpointConfig.t :=
  {| name := "plain"; url := "https://plain.example/xag";
     price_path := "constructor"; time_path := "time";
     authentication := "none"; priority := 1; description := "price by constructor";
     rate_conversion := None; headers := [] |}.

(** An endpoint whose path goes through [__proto__]. *)
Definition by_proto_length : EndpointConfig.t :=
  {| name := "listed"; url := "https://listed.example/xag";
     price_path := "__proto__.length"; time_path := "time";
     authentication := "none"; priority := 1; description := "price by prototype";
     rate_conversion := None; headers := [] |}.

(** Nothing can be reached, not even the documents of the page. *)
Definition unreachable : Env :=
  {| location_search := [("recipient", "mary")];
     fetch_api := fun _ _ => Rejected;
     fetch_document := fun _ _ => Rejected;
     date_parse := Example.dates;
     toISOString := fun t => pretty t;
     chart_js_loaded := true |}.

End Scenario.

(** * Reasoning rules *)

Section Rules.
Context {A B : Type}.
Implicit Types (Q : list Event -> Outcome A -> World -> Prop).

Lemma wp_mono (m : M A) Q Q' w :
  wp m Q w -> (forall evs r w', Q evs r w' -> Q' evs r w') -> wp m Q' w.
Proof. intros (evs & He & HQ) H. exists evs. auto. Qed.

(** The same, remembering which run the outcome comes from. *)
Lemma wp_mono_run (m : M A) Q Q' w :
  wp m Q w ->
  (forall evs r w', m w = (r, w') -> Q evs r w' -> Q' evs r w') ->
  wp m Q' w.
Proof.
  intros (evs & He & HQ) H. exists evs. split; [done |].
  apply H; [| done]. by destruct (m w).
Qed.

Lemma wp_ret (a : A) Q w : Q [] (Ok a) w -> wp (Effects.ret a) Q w.
Proof. intros H. exists []. simpl. rewrite app_nil_r. auto. Qed.

Lemma wp_throw (e : Error) Q w : Q [] (Throw e) w -> wp (Effects.throw e) Q w.
Proof. intros H. exists []. simpl. rewrite app_nil_r. auto. Qed.

Lemma wp_out_of_fuel Q w : Q [] OutOfFuel w -> wp Effects.out_of_fuel Q w.
Proof. intros H. exists []. simpl. rewrite app_nil_r. auto. Qed.

Lemma wp_bind (m : M B) (k : B -> M A) Q w :
  wp m (fun evs r w1 =>
          match r with
          | Ok b => wp (k b) (fun evs' r' w' => Q (evs ++ evs') r' w') w1
          | Throw e => Q evs (Throw e) w1
          | OutOfFuel => Q evs OutOfFuel w1
          end) w ->
  wp (Effects.bind m k) Q w.
Proof.
  unfold wp, Effects.bind. intros (evs & He & H).
  destruct (m w) as [[b | e |] w1]; simpl in *.
  - destruct H as (evs' & He' & H). exists (evs ++ evs').
    rewrite He', He, app_assoc. auto.
  - exists evs. auto.
  - exists evs. auto.
Qed.

Lemma wp_try_catch (m : M A) (handler : Error -> M A) Q w :
  wp m (fun evs r w1 =>
          match r with
          | Throw e => wp (handler e) (fun evs' r' w' => Q (evs ++ evs') r' w') w1
          | _ => Q evs r w1
          end) w ->
  wp (Effects.try_catch m handler) Q w.
Proof.
  unfold wp, Effects.try_catch. intros (evs & He & H).
  destruct (m w) as [[a | e |] w1]; simpl in *.
  - exists evs. auto.
  - destruct H as (evs' & He' & H). exists (evs ++ evs').
    rewrite He', He, app_assoc. auto.
  - exists evs. auto.
Qed.

End Rules.

Section EffectRules.

Lemma wp_emit (e : Event) Q w :
  Q [e] (Ok tt) {| clock := clock w; requests := requests w;
                   events := events w ++ [e]; contentDiv := contentDiv w |} ->
  wp (Effects.emit e) Q w.
Proof. intros H. exists [e]. auto. Qed.

Lemma wp_sleep (ms : Z) Q w :
  Q [Sleep ms] (Ok tt) {| clock := (clock w + ms)%Z; requests := requests w;
                          events := events w ++ [Sleep ms]; contentDiv := contentDiv w |} ->
  wp (Effects.sleep ms) Q w.
Proof. intros H. exists [Sleep ms]. auto. Qed.

Lemma wp_now Q w : Q [] (Ok (clock w)) w -> wp Effects.now Q w.
Proof. intros H. exists []. simpl. rewrite app_nil_r. auto. Qed.

Lemma wp_set_content (v : View) Q w :
  Q [] (Ok tt) {| clock := clock w; requests := requests w;
                  events := events w; contentDiv := v |} ->
  wp (Effects.set_content v) Q w.
Proof. intros H. exists []. simpl. rewrite app_nil_r. auto. Qed.

Lemma wp_fetch {A} (oracle : nat -> string -> FetchResult A) (url : string) Q w :
  (forall w',
      clock w' = clock w -> requests w' = S (requests w) ->
      events w' = events w ++ [Fetch url] -> contentDiv w' = contentDiv w ->
      match oracle (requests w) url with
      | Rejected => Q [Fetch url] (Throw FetchRejected) w'
      | Resolved response => Q [Fetch url] (Ok response) w'
      end) ->
  wp (Effects.fetch oracle url) Q w.
Proof.
  intros H. exists [Fetch url]. unfold Effects.fetch.
  specialize (H {| clock := clock w; requests := S (requests w);
                   events := events w ++ [Fetch url]; contentDiv := contentDiv w |}
                eq_refl eq_refl eq_refl eq_refl).
  destruct (oracle (requests w) url); simpl; auto.
Qed.

Lemma wp_response_json {A} (response : Response A) Q w :
  match json response with
  | Some data => Q [] (Ok data) w
  | None => Q [] (Throw InvalidBody) w
  end ->
  wp (Effects.response_json response) Q w.
Proof.
  unfold Effects.response_json. destruct (json response); intros H.
  - by apply wp_ret.
  - by apply wp_throw.
Qed.

(** Reading a [wp] back as a statement about one run. *)
Lemma wp_run {A} (m : M A) Q w r w' :
  wp m Q w -> m w = (r, w') ->
  exists evs, events w' = events w ++ evs /\ Q evs r w'.
Proof. intros (evs & He & H) Hrun. rewrite Hrun in *. eauto. Qed.

End EffectRules.

(** * Facts about the events *)

Section TraceFacts.

Lemma tried_app evs evs' :
  Trace.tried (evs ++ evs') = Trace.tried evs ++ Trace.tried evs'.
Proof. apply omap_app. Qed.

Lemma attempts_app evs evs' :
  Trace.attempts (evs ++ evs') = Trace.attempts evs ++ Trace.attempts evs'.
Proof. apply omap_app. Qed.

Lemma delays_app evs evs' :
  Trace.delays (evs ++ evs') = Trace.delays evs ++ Trace.delays evs'.
Proof. apply omap_app. Qed.

Lemma fetches_app evs evs' :
  Trace.fetches (evs ++ evs') = Trace.fetches evs ++ Trace.fetches evs'.
Proof. apply omap_app. Qed.

Lemma returns_ok {A} (a : A) : returns (Ok a).
Proof. by exists a. Qed.

Lemma quiet_nil : Trace.quiet [].
Proof. by split. Qed.

Lemma quiet_fetch url : Trace.quiet [Fetch url].
Proof. by split. Qed.

Lemma quiet_sleep ms : Trace.quiet [Sleep ms].
Proof. by split. Qed.

Lemma quiet_app evs evs' :
  Trace.quiet evs -> Trace.quiet evs' -> Trace.quiet (evs ++ evs').
Proof.
  intros [Ht Ha] [Ht' Ha']. split.
  - by rewrite tried_app, Ht, Ht'.
  - by rewrite attempts_app, Ha, Ha'.
Qed.

End TraceFacts.

Create HintDb trace.
#[local] Hint Resolve returns_ok quiet_nil quiet_fetch quiet_sleep quiet_app : trace.

(** * data-manager.js: what a load does *)

Section DataManagerFacts.
Context (env : Env).

(** One pass issues one request; it yields a document that is not
    [null], or throws. *)
Lemma loadOnce_wp url w :
  wp (DataManager.loadOnce env url)
    (fun evs r w' =>
       evs = [Fetch url] /\ contentDiv w' = contentDiv w /\
       r <> OutOfFuel /\
       (Unloadable env url -> exists e, r = Throw e)) w.
Proof.
  unfold DataManager.loadOnce. apply wp_bind, wp_fetch.
  intros w' _ _ _ Hv.
  pose proof (fun (H : Unloadable env url) => H (requests w)) as Hun.
  destruct (fetch_document env (requests w) url) as [| response].
  { repeat split; eauto. }
  destruct (ok response) eqn:Hok; simpl.
  - apply wp_bind, wp_response_json.
    destruct (json response) as [data |] eqn:Hjson.
    + destruct data; (apply wp_ret || apply wp_throw);
        (split; [done |]; split; [done |]; split; [done |]);
        intros H; destruct (Hun H) as [? | [? | ?]];
        first [congruence | eauto].
    + repeat split; eauto.
  - apply wp_throw. repeat split; eauto.
Qed.

(** With enough fuel the loop returns a document, having touched only
    the network and the timers; the fallback when nothing can be
    loaded. *)
Lemma loadLoop_wp url fallback retries fuel : forall attempt w,
  (0 < fuel)%nat -> (retries < fuel + attempt)%nat ->
  wp (DataManager.loadLoop env fuel url fallback retries attempt)
    (fun evs r w' =>
       returns r /\ Trace.quiet evs /\ contentDiv w' = contentDiv w /\
       (Unloadable env url -> r = Ok fallback)) w.
Proof.
  induction fuel as [| fuel IH]; intros attempt w Hpos Hfuel; [lia |].
  simpl. destruct (attempt <=? retries)%nat eqn:Hle.
  - apply wp_try_catch.
    eapply wp_mono; [apply loadOnce_wp |].
    intros evs r w1 (-> & Hv & Hnf & Hun). destruct r as [d | e |]; [| | done].
    + split_and!; eauto with trace.
      intros H. destruct (Hun H) as [e He]. done.
    + destruct (attempt =? retries)%nat eqn:Heq.
      * apply wp_ret. split_and!; eauto with trace.
      * apply wp_bind, wp_sleep.
        apply Nat.leb_le in Hle. apply Nat.eqb_neq in Heq.
        eapply wp_mono; [apply IH; lia |].
        intros evs r w' (Hr & Hq & Hv' & Hun'). simpl in Hv'.
        split_and!; eauto with trace. congruence.
  - apply wp_ret. split_and!; eauto with trace.
Qed.

Lemma loadWithFallback_wp url fallback retries w :
  wp (DataManager.loadWithFallback env url fallback retries)
    (fun evs r w' =>
       returns r /\ Trace.quiet evs /\ contentDiv w' = contentDiv w /\
       (Unloadable env url -> r = Ok fallback)) w.
Proof. apply loadLoop_wp; lia. Qed.

Lemma loadAppData_wp w :
  wp (DataManager.loadAppData env)
    (fun evs r w' => returns r /\ Trace.quiet evs /\ contentDiv w' = contentDiv w) w.
Proof.
  unfold DataManager.loadAppData.
  apply wp_bind. eapply wp_mono; [apply loadWithFallback_wp |].
  intros evs r w1 ([d ->] & Hq & Hv & _).
  apply wp_bind. eapply wp_mono; [apply loadWithFallback_wp |].
  intros evs' r' w2 ([d' ->] & Hq' & Hv' & _).
  apply wp_ret. rewrite app_nil_r. split_and!; eauto with trace.
  congruence.
Qed.

(** [getLastKnownPrice] always returns, and what it returns has the
    historical shape. *)
Lemma getLastKnownPrice_wp w :
  wp (DataManager.getLastKnownPrice env)
    (fun evs r w' =>
       Trace.quiet evs /\ contentDiv w' = contentDiv w /\
       exists o, r = Ok o /\ forall s, o = Some s -> HistoricalShape s) w.
Proof.
  unfold DataManager.getLastKnownPrice. apply wp_try_catch, wp_bind.
  eapply wp_mono; [apply loadWithFallback_wp |].
  intros evs r w1 ([doc ->] & Hq & Hv & _).
  destruct doc as [| config | entries | recipients | value];
    try (apply wp_ret; rewrite app_nil_r; split_and!; try done;
         eexists; split; [reflexivity | done]).
  destruct (last entries) as [lastEntry |];
    apply wp_ret; rewrite app_nil_r; split_and!; try done;
    (eexists; split; [reflexivity |]); [| done].
  intros s [= <-]. by repeat split.
Qed.

End DataManagerFacts.

(** * Facts about binary64 comparisons *)

Section FloatFacts.

Lemma SFcompare_Lt_Gt x y : SFcompare x y = Some Lt -> SFcompare y x = Some Gt.
Proof.
  destruct x as [[] | [] | | [] m1 e1], y as [[] | [] | | [] m2 e2];
    simpl; try congruence;
    rewrite (Z.compare_antisym e1 e2);
    change (Pos.compare_cont Eq m2 m1) with (Pos.compare_cont (CompOpp Eq) m2 m1);
    rewrite <- (Pos.compare_cont_antisym m1 m2 Eq);
    destruct (e1 ?= e2)%Z; simpl; try congruence;
    destruct (Pos.compare_cont Eq m1 m2); simpl; congruence.
Qed.

(** [x < y] excludes [y <= x]. *)
Lemma ltb_not_leb (x y : float) : (x <? y)%float = true -> (y <=? x)%float = false.
Proof.
  rewrite ltb_spec, leb_spec. unfold SFltb, SFleb. intros H.
  destruct (SFcompare (Prim2SF x) (Prim2SF y)) as [[] |] eqn:Hc; try done.
  by rewrite (SFcompare_Lt_Gt _ _ Hc).
Qed.

End FloatFacts.

(** * api-manager.js: the list of endpoints *)

Section EndpointListFacts.
Context (env : Env).
Import EndpointConfig.

Lemma elem_of_insert_by_priority x a l :
  x ∈ APIManager.insert_by_priority a l <-> x = a \/ x ∈ l.
Proof.
  induction l as [| b l IH]; simpl.
  - rewrite list_elem_of_singleton, elem_of_nil. tauto.
  - destruct (priority a <=? priority b)%Z.
    + apply elem_of_cons.
    + rewrite !elem_of_cons, IH. tauto.
Qed.

Lemma elem_of_sort_by_priority x l : x ∈ APIManager.sort_by_priority l <-> x ∈ l.
Proof.
  induction l as [| a l IH]; simpl; [done |].
  rewrite elem_of_insert_by_priority, IH, elem_of_cons. tauto.
Qed.

Lemma insert_by_priority_sorted a l :
  StronglySorted by_priority l ->
  StronglySorted by_priority (APIManager.insert_by_priority a l).
Proof.
  induction 1 as [| b l Hl IH Hb]; simpl.
  - repeat constructor.
  - destruct (priority a <=? priority b)%Z eqn:Hab.
    + apply Z.leb_le in Hab. constructor; [by constructor |].
      constructor; [done |].
      eapply Forall_impl; [exact Hb |]. unfold by_priority. intros c Hc. lia.
    + apply Z.leb_gt in Hab. constructor; [done |].
      apply Forall_forall. intros c Hc.
      apply elem_of_insert_by_priority in Hc as [-> | Hc].
      * unfold by_priority. lia.
      * by eapply Forall_forall in Hb.
Qed.

(** The sorted list is in ascending order of priority. *)
Lemma sort_by_priority_sorted l :
  StronglySorted by_priority (APIManager.sort_by_priority l).
Proof.
  induction l as [| a l IH]; simpl; [constructor |].
  by apply insert_by_priority_sorted.
Qed.

(** The sorted list holds the same entries, each as often. *)
Lemma insert_by_priority_perm a l : APIManager.insert_by_priority a l ≡ₚ a :: l.
Proof.
  induction l as [| b l IH]; simpl; [done |].
  destruct (priority a <=? priority b)%Z; [done |].
  rewrite IH. apply Permutation_swap.
Qed.

Lemma sort_by_priority_perm l : APIManager.sort_by_priority l ≡ₚ l.
Proof.
  induction l as [| a l IH]; simpl; [done |].
  by rewrite insert_by_priority_perm, IH.
Qed.

(** The sort is stable: entries of one priority keep their order. *)
Lemma insert_by_priority_stable p a l :
  List.filter (fun x => priority x =? p)%Z (APIManager.insert_by_priority a l)
  = List.filter (fun x => priority x =? p)%Z (a :: l).
Proof.
  induction l as [| b l IH]; simpl; [done |].
  destruct (priority a <=? priority b)%Z eqn:Hab; [done |].
  apply Z.leb_gt in Hab. simpl. rewrite IH. simpl.
  destruct (priority a =? p)%Z eqn:Ha, (priority b =? p)%Z eqn:Hb; try done.
  apply Z.eqb_eq in Ha, Hb. lia.
Qed.

Lemma sort_by_priority_stable p l :
  List.filter (fun x => priority x =? p)%Z (APIManager.sort_by_priority l)
  = List.filter (fun x => priority x =? p)%Z l.
Proof.
  induction l as [| a l IH]; simpl; [done |].
  rewrite insert_by_priority_stable. simpl. by rewrite IH.
Qed.

Lemma filter_sorted (f : EndpointConfig.t -> bool) l :
  StronglySorted by_priority l -> StronglySorted by_priority (List.filter f l).
Proof.
  induction 1 as [| a l Hl IH Ha]; simpl; [constructor |].
  destruct (f a); [| done]. constructor; [done |].
  apply Forall_forall. intros c Hc.
  apply list_elem_of_In, filter_In in Hc as [Hc _].
  apply list_elem_of_In in Hc. by eapply Forall_forall in Ha.
Qed.

Lemma elem_of_available x l :
  x ∈ List.filter (APIManager.isAPIAvailable env) l
  <-> x ∈ l /\ APIManager.isAPIAvailable env x = true.
Proof. rewrite !list_elem_of_In. apply filter_In. Qed.

(** [loadAPIConfig] always returns a list that is not empty, in
    ascending order of priority, of available endpoints; it holds every
    available endpoint of the configuration that was loaded. *)
Lemma loadAPIConfig_wp w :
  wp (APIManager.loadAPIConfig env)
    (fun evs r w' =>
       Trace.quiet evs /\ contentDiv w' = contentDiv w /\
       exists apis,
         r = Ok apis /\ apis <> [] /\
         StronglySorted by_priority apis /\
         (forall a, a ∈ apis -> APIManager.isAPIAvailable env a = true) /\
         (forall config w1,
             DataManager.loadWithFallback env "data/apis.json" DNull 2 w
               = (Ok (DEndpoints config), w1) ->
             forall a, a ∈ config -> APIManager.isAPIAvailable env a = true ->
                       a ∈ apis)) w.
Proof.
  assert (Hfb : forall doc w1,
             DataManager.loadWithFallback env "data/apis.json" DNull 2 w = (Ok doc, w1) ->
             (forall config, doc = DEndpoints config ->
                List.filter (APIManager.isAPIAvailable env)
                  (APIManager.sort_by_priority config) = []) ->
             exists apis,
               Ok APIManager.getFallbackAPIConfig = Ok apis /\ apis <> [] /\
               StronglySorted by_priority apis /\
               (forall a, a ∈ apis -> APIManager.isAPIAvailable env a = true) /\
               (forall config w1,
                   DataManager.loadWithFallback env "data/apis.json" DNull 2 w
                     = (Ok (DEndpoints config), w1) ->
                   forall a, a ∈ config -> APIManager.isAPIAvailable env a = true ->
                             a ∈ apis)).
  { intros doc w1 Hrun Hnone. exists APIManager.getFallbackAPIConfig.
    split_and!; [done | done | repeat constructor | |].
    - intros a Ha. apply list_elem_of_singleton in Ha as ->. reflexivity.
    - intros config w2 Hrun' a Ha Hav. rewrite Hrun in Hrun'.
      injection Hrun' as Hdoc _.
      assert (Hin : a ∈ List.filter (APIManager.isAPIAvailable env)
                      (APIManager.sort_by_priority config))
        by (apply elem_of_available; split; [by apply elem_of_sort_by_priority | done]).
      rewrite (Hnone config Hdoc) in Hin. by apply elem_of_nil in Hin. }
  unfold APIManager.loadAPIConfig. apply wp_try_catch, wp_bind.
  eapply wp_mono_run; [apply loadWithFallback_wp |].
  intros evs r w1 Hrun ([doc ->] & Hq & Hv & _).
  destruct doc as [| config | entries | recipients | value];
    try (apply wp_ret; rewrite app_nil_r; split_and!; [done | done |];
         eapply Hfb; [exact Hrun | done]).
  apply wp_ret. rewrite app_nil_r. split_and!; [done | done |].
  destruct (List.filter (APIManager.isAPIAvailable env)
              (APIManager.sort_by_priority config)) as [| a0 avail] eqn:Havail.
  - simpl. eapply Hfb; [exact Hrun |]. congruence.
  - simpl. exists (a0 :: avail). split_and!; [done | done | | |].
    + rewrite <- Havail. apply filter_sorted, sort_by_priority_sorted.
    + intros a Ha. rewrite <- Havail in Ha. by apply elem_of_available in Ha as [_ Ha].
    + intros config' w2 Hrun' a Ha Hav. rewrite Hrun in Hrun'.
      injection Hrun' as <- _. rewrite <- Havail.
      apply elem_of_available. split; [by apply elem_of_sort_by_priority | done].
Qed.

End EndpointListFacts.

(** * api-manager.js: one endpoint, then all of them *)

Section RetryFacts.
Context (env : Env).
Import EndpointConfig.

Lemma acceptable_in_band p : APIManager.acceptable (Some p) = true -> InBand p.
Proof. unfold APIManager.acceptable, InBand. rewrite !andb_true_iff. tauto. Qed.

Lemma buildAPIUrl_wp api w :
  wp (APIManager.buildAPIUrl env api)
    (fun evs r w' => evs = [] /\ w' = w /\ r <> OutOfFuel) w.
Proof.
  unfold APIManager.buildAPIUrl.
  destruct (negb (authentication api =? "none")%string);
    [destruct (URLSearchParams.get _ _) as [[| c s] |] |];
    (apply wp_ret || apply wp_throw); done.
Qed.

(** One pass of the [try] block: at most one request and no delay; a
    sample it returns is live and its price lies in the band. *)
Lemma attemptOnce_wp api w :
  wp (APIManager.attemptOnce env api)
    (fun evs r w' =>
       Trace.quiet evs /\ Trace.delays evs = [] /\
       (length (Trace.fetches evs) <= 1)%nat /\ contentDiv w' = contentDiv w /\
       match r with
       | Ok s => LiveShape s /\ InBand (PriceSample.price s)
       | Throw _ => True
       | OutOfFuel => False
       end) w.
Proof.
  unfold APIManager.attemptOnce. apply wp_bind.
  eapply wp_mono; [apply buildAPIUrl_wp |].
  intros evs r w1 (-> & -> & Hnf). destruct r as [url | e |]; [| | done].
  2: { split_and!; eauto with trace; simpl; lia. }
  apply wp_bind, wp_fetch. intros w' _ _ _ Hv.
  destruct (fetch_api env (requests w) url) as [| response].
  { split_and!; eauto with trace; simpl; lia. }
  destruct (ok response); simpl.
  2: { apply wp_throw. split_and!; eauto with trace; simpl; lia. }
  apply wp_bind, wp_response_json.
  destruct (json response) as [data |].
  2: { split_and!; eauto with trace; simpl; lia. }
  destruct (APIManager.extractPrice data api) as [p |] eqn:Hprice.
  2: { apply wp_throw. split_and!; eauto with trace; simpl; lia. }
  destruct (APIManager.acceptable (Some p)) eqn:Hacc.
  2: { apply wp_throw. split_and!; eauto with trace; simpl; lia. }
  apply wp_bind, wp_now, wp_ret.
  split; [eauto with trace |]. split; [done |]. split; [simpl; lia |]. split; [done |].
  split; [by repeat split | by apply acceptable_in_band].
Qed.

(** The retry loop, entered at pass [attempt] with enough fuel, makes
    the passes [attempt], [attempt + 1], ... and waits [500 * n] after
    every failed pass [n] but the last one; it returns a live sample in
    the band, or nothing once every pass up to [maxAttempts] has
    failed. *)
Lemma retryLoop_wp api fuel : forall attempt w,
  (0 < fuel)%nat -> (S APIManager.maxAttempts < fuel + attempt)%nat ->
  wp (APIManager.retryLoop env fuel api attempt)
    (fun evs r w' =>
       exists k : nat,
         Trace.tried evs = [] /\
         Trace.attempts evs = (fun n => (api, n)) <$> seq attempt k /\
         Trace.delays evs = (fun n => 500 * Z.of_nat n)%Z <$> seq attempt (k - 1) /\
         (length (Trace.fetches evs) <= k)%nat /\
         contentDiv w' = contentDiv w /\
         match r with
         | Ok (Some s) =>
             (1 <= k)%nat /\ (attempt + k <= S APIManager.maxAttempts)%nat /\
             LiveShape s /\ InBand (PriceSample.price s)
         | Ok None => (attempt + k = Nat.max attempt (S APIManager.maxAttempts))%nat
         | _ => False
         end) w.
Proof.
  induction fuel as [| fuel IH]; intros attempt w Hpos Hfuel; [lia |].
  simpl. destruct (attempt <=? APIManager.maxAttempts)%nat eqn:Hle.
  2: { apply Nat.leb_gt in Hle. apply wp_ret. exists 0%nat.
       split_and!; try done; simpl; lia. }
  apply Nat.leb_le in Hle.
  apply wp_bind, wp_emit, wp_try_catch, wp_bind.
  eapply wp_mono; [apply attemptOnce_wp |].
  intros evs r w1 ([Ht Ha] & Hd & Hf & Hv & Hr). simpl in Hv.
  destruct r as [s | e |]; [| | done].
  - apply wp_ret. exists 1%nat. rewrite app_nil_r. simpl.
    rewrite Ht, Ha, Hd. split_and!; try done; try lia; tauto.
  - apply wp_bind.
    destruct (attempt <? APIManager.maxAttempts)%nat eqn:Hlt.
    + apply Nat.ltb_lt in Hlt. apply wp_sleep.
      eapply wp_mono; [apply IH; lia |].
      intros evs' r' w' (k & Ht' & Ha' & Hd' & Hf' & Hv' & Hr'). exists (S k).
      rewrite !tried_app, !attempts_app, !delays_app, !fetches_app, !length_app. simpl.
      rewrite Ht, Ha, Hd, Ht', Ha', Hd'. simpl in Hv'. simpl.
      assert (Hk : (1 <= k)%nat).
      { destruct r' as [[s |] | |]; try done; [tauto | lia]. }
      destruct k as [| k]; [lia |]. simpl. rewrite Nat.sub_0_r.
      split_and!; try done; try congruence; try lia.
      destruct r' as [[s |] | |]; try done; [| lia].
      destruct Hr' as (? & ? & ? & ?). split_and!; try done; lia.
    + apply Nat.ltb_ge in Hlt. apply wp_ret.
      eapply wp_mono; [apply IH; lia |].
      intros evs' r' w' (k & Ht' & Ha' & Hd' & Hf' & Hv' & Hr'). exists (S k).
      rewrite !tried_app, !attempts_app, !delays_app, !fetches_app, !length_app. simpl.
      rewrite Ht, Ha, Hd, Ht', Ha', Hd'. simpl.
      assert (Hk : k = 0%nat).
      { destruct r' as [[s |] | |]; try done; lia. }
      subst k. simpl. split_and!; try done; try congruence; try lia.
      destruct r' as [[s |] | |]; try done; lia.
Qed.

Lemma tryIndividualAPI_wp api w :
  wp (APIManager.tryIndividualAPI env api)
    (fun evs r w' =>
       exists k : nat,
         Trace.tried evs = [] /\
         Trace.attempts evs = (fun n => (api, n)) <$> seq 1 k /\
         Trace.delays evs = (fun n => 500 * Z.of_nat n)%Z <$> seq 1 (k - 1) /\
         (length (Trace.fetches evs) <= k)%nat /\
         contentDiv w' = contentDiv w /\
         (k <= APIManager.maxAttempts)%nat /\
         match r with
         | Ok (Some s) => (1 <= k)%nat /\ LiveShape s /\ InBand (PriceSample.price s)
         | Ok None => k = APIManager.maxAttempts
         | _ => False
         end) w.
Proof.
  unfold APIManager.tryIndividualAPI.
  eapply wp_mono; [apply retryLoop_wp; unfold APIManager.maxAttempts; lia |].
  intros evs r w' (k & Ht & Ha & Hd & Hf & Hv & Hr). exists k.
  unfold APIManager.maxAttempts in *.
  split_and!; try done; destruct r as [[s |] | |]; try done; try lia; tauto.
Qed.

(** The loop over the endpoints turns to them in the order of the list,
    stops at the first that yields a sample, and makes passes of the
    retry loop only for endpoints it has turned to. *)
Lemma tryAllLoop_wp apis : forall w,
  wp (APIManager.tryAllLoop env apis)
    (fun evs r w' =>
       Trace.tried evs `prefix_of` apis /\
       (forall a n, (a, n) ∈ Trace.attempts evs -> a ∈ Trace.tried evs) /\
       contentDiv w' = contentDiv w /\
       match r with
       | Ok (Some s) => LiveShape s /\ InBand (PriceSample.price s)
       | Ok None => Trace.tried evs = apis
       | _ => False
       end) w.
Proof.
  induction apis as [| api rest IH]; intros w; simpl.
  { apply wp_ret. split_and!; try done. intros a n Hin. by apply elem_of_nil in Hin. }
  apply wp_bind, wp_emit, wp_bind, wp_try_catch.
  eapply wp_mono; [apply tryIndividualAPI_wp |].
  intros evs r w1 (k & Ht & Ha & Hd & _ & Hv & Hk & Hr). simpl in Hv.
  assert (Hmem : forall a n, (a, n) ∈ Trace.attempts evs -> a = api).
  { intros a n Hin. rewrite Ha in Hin.
    apply list_elem_of_fmap in Hin as (m & Heq & _). congruence. }
  destruct r as [[s |] | |]; try done.
  - apply wp_ret. rewrite app_nil_r. simpl. rewrite Ht.
    split_and!; try done; try tauto.
    + apply prefix_cons, prefix_nil.
    + intros a n Hin. apply Hmem in Hin as ->. apply elem_of_cons. by left.
  - apply wp_bind.
    assert (Hrest : forall w2, contentDiv w2 = contentDiv w ->
              wp (APIManager.tryAllLoop env rest)
                (fun evs' r' w' =>
                   Trace.tried evs' `prefix_of` rest /\
                   (forall a n, (a, n) ∈ Trace.attempts evs' -> a ∈ Trace.tried evs') /\
                   contentDiv w' = contentDiv w /\
                   match r' with
                   | Ok (Some s) => LiveShape s /\ InBand (PriceSample.price s)
                   | Ok None => Trace.tried evs' = rest
                   | _ => False
                   end) w2).
    { intros w2 Hw2. eapply wp_mono; [apply IH |].
      intros evs' r' w' (Hp & Hm & Hv' & Hr'). split_and!; try done. congruence. }
    assert (Hjoin : forall pause evs' r' w',
              Trace.tried pause = [] -> Trace.attempts pause = [] ->
              Trace.tried evs' `prefix_of` rest /\
              (forall a n, (a, n) ∈ Trace.attempts evs' -> a ∈ Trace.tried evs') /\
              contentDiv w' = contentDiv w /\
              match r' with
              | Ok (Some s) => LiveShape s /\ InBand (PriceSample.price s)
              | Ok None => Trace.tried evs' = rest
              | _ => False
              end ->
              Trace.tried ([TryAPI api] ++ evs ++ pause ++ evs')
                `prefix_of` api :: rest /\
              (forall a n,
                  (a, n) ∈ Trace.attempts ([TryAPI api] ++ evs ++ pause ++ evs') ->
                  a ∈ Trace.tried ([TryAPI api] ++ evs ++ pause ++ evs')) /\
              contentDiv w' = contentDiv w /\
              match r' with
              | Ok (Some s) => LiveShape s /\ InBand (PriceSample.price s)
              | Ok None =>
                  Trace.tried ([TryAPI api] ++ evs ++ pause ++ evs') = api :: rest
              | _ => False
              end).
    { intros pause evs' r' w' Hpt Hpa (Hp & Hm & Hv' & Hr').
      rewrite !tried_app, !attempts_app, Ht, Hpt, Hpa. simpl.
      rewrite ?app_nil_r. split_and!; try done.
      - by apply prefix_cons.
      - intros a n Hin. apply elem_of_app in Hin as [Hin | Hin].
        + apply Hmem in Hin as ->. apply elem_of_cons. by left.
        + apply elem_of_cons. right. by eapply Hm.
      - destruct r' as [[s |] | |]; try done. congruence. }
    destruct (0 <? length rest)%nat.
    + apply wp_sleep. eapply wp_mono; [apply Hrest; simpl; congruence |].
      intros evs' r' w'. by apply Hjoin.
    + apply wp_ret. eapply wp_mono; [apply Hrest; simpl; congruence |].
      intros evs' r' w'. by apply Hjoin.
Qed.

End RetryFacts.

(** * api-manager.js: the orchestrator *)

Section OrchestratorFacts.
Context (env : Env).
Import EndpointConfig.

Lemma run_eq {A} (m : M A) w : m w = (fst (m w), snd (m w)).
Proof. by destruct (m w). Qed.

Lemma appended_app w w' evs : events w' = events w ++ evs -> appended w w' = evs.
Proof. unfold appended. intros ->. by rewrite drop_app_length. Qed.

(** Reading a [wp] back in terms of the appended events. *)
Lemma wp_appended {A} (m : M A) Q w r w' :
  wp m Q w -> m w = (r, w') -> Q (appended w w') r w'.
Proof.
  intros Hwp Hrun. destruct (wp_run _ _ _ _ _ Hwp Hrun) as (evs & He & HQ).
  by rewrite (appended_app _ _ _ He).
Qed.

Lemma tryAllLiveAPIs_wp w :
  wp (APIManager.tryAllLiveAPIs env)
    (fun evs r w' =>
       contentDiv w' = contentDiv w /\
       (forall a n, (a, n) ∈ Trace.attempts evs -> a ∈ Trace.tried evs) /\
       (exists apis,
           Trace.tried evs `prefix_of` apis /\
           StronglySorted by_priority apis /\
           (forall a, a ∈ apis -> APIManager.isAPIAvailable env a = true) /\
           (forall config w1,
               DataManager.loadWithFallback env "data/apis.json" DNull 2 w
                 = (Ok (DEndpoints config), w1) ->
               forall a, a ∈ config -> APIManager.isAPIAvailable env a = true ->
                         a ∈ apis)) /\
       match r with
       | Ok (Some s) => LiveShape s /\ InBand (PriceSample.price s)
       | Ok None => True
       | _ => False
       end) w.
Proof.
  unfold APIManager.tryAllLiveAPIs. apply wp_bind.
  eapply wp_mono; [apply loadAPIConfig_wp |].
  intros evs r w1 ([Ht Ha] & Hv & apis & -> & Hne & Hsorted & Hav & Hall).
  eapply wp_mono; [apply tryAllLoop_wp |].
  intros evs' r' w' (Hp & Hm & Hv' & Hr').
  rewrite tried_app, attempts_app, Ht, Ha. simpl.
  split_and!; [congruence | done | by exists apis |].
  destruct r' as [[s |] | |]; done.
Qed.

(** [getCurrentPrice] always returns; a sample it returns has one of
    the two shapes, and a live one lies in the band. *)
Lemma getCurrentPrice_wp w :
  wp (APIManager.getCurrentPrice env)
    (fun evs r w' =>
       contentDiv w' = contentDiv w /\
       exists o, r = Ok o /\
         forall s, o = Some s ->
           (LiveShape s /\ InBand (PriceSample.price s)) \/ HistoricalShape s) w.
Proof.
  unfold APIManager.getCurrentPrice. apply wp_bind.
  eapply wp_mono; [apply tryAllLiveAPIs_wp |].
  intros evs r w1 (Hv & _ & _ & Hr). destruct r as [[s |] | |]; try done.
  - apply wp_ret. split; [done |]. eexists. split; [reflexivity |].
    intros s' [= <-]. by left.
  - eapply wp_mono; [apply getLastKnownPrice_wp |].
    intros evs' r' w' (_ & Hv' & o & -> & Ho). split; [congruence |].
    exists o. split; [done |]. intros s Hs. right. by apply Ho.
Qed.

(** When no endpoint yields a sample, [getCurrentPrice] is
    [getLastKnownPrice], run where the endpoints left off. *)
Lemma getCurrentPrice_fallback w w1 :
  APIManager.tryAllLiveAPIs env w = (Ok None, w1) ->
  APIManager.getCurrentPrice env w = DataManager.getLastKnownPrice env w1.
Proof. unfold APIManager.getCurrentPrice, Effects.bind. by intros ->. Qed.

(** In a list in ascending order, an entry of lower priority stands
    before any entry of higher priority. *)
Lemma lower_priority_first (apis tried : list EndpointConfig.t) A B j :
  StronglySorted by_priority apis -> tried `prefix_of` apis ->
  A ∈ apis -> (priority A < priority B)%Z -> tried !! j = Some B ->
  exists i, (i < j)%nat /\ tried !! i = Some A.
Proof.
  intros Hsorted [rest ->] HA Hlt Hj.
  rewrite <- (take_drop_middle _ _ _ Hj), <- !app_assoc in Hsorted, HA.
  apply StronglySorted_app in Hsorted as (_ & _ & Hsorted).
  apply StronglySorted_cons in Hsorted as [HB _].
  apply elem_of_app in HA as [HA | HA].
  - apply elem_of_take in HA as (i & Hi & Hij). by exists i.
  - apply elem_of_cons in HA as [-> | HA]; [lia |].
    eapply Forall_forall in HB; [| exact HA]. unfold by_priority in HB. lia.
Qed.

End OrchestratorFacts.

(** * The claims about the endpoints *)

Section EndpointClaims.
Import EndpointConfig.

(** C1.  The orchestrator turns to the endpoints in ascending order of
    priority.  For every environment and every run of [tryAllLiveAPIs],
    the endpoints it turned to are in ascending order of their priority
    field; and whenever the configuration that was loaded holds two
    available endpoints [A] and [B] with [A] of lower priority, every
    turn to [B] comes after a turn to [A]. *)
Theorem attempts_in_ascending_priority env w r w' :
  APIManager.tryAllLiveAPIs env w = (r, w') ->
  StronglySorted by_priority (Trace.tried (appended w w')) /\
  forall config w1 A B j,
    DataManager.loadWithFallback env "data/apis.json" DNull 2 w
      = (Ok (DEndpoints config), w1) ->
    A ∈ config -> B ∈ config ->
    APIManager.isAPIAvailable env A = true ->
    APIManager.isAPIAvailable env B = true ->
    (priority A < priority B)%Z ->
    Trace.tried (appended w w') !! j = Some B ->
    exists i, (i < j)%nat /\ Trace.tried (appended w w') !! i = Some A.
Proof.
  intros Hrun.
  destruct (wp_appended _ _ _ _ _ (tryAllLiveAPIs_wp env w) Hrun)
    as (_ & _ & (apis & Hp & Hsorted & _ & Hall) & _).
  split.
  - destruct Hp as [rest ->]. by apply StronglySorted_app_1_l in Hsorted.
  - intros config w1 A B j Hload HA HB HavA HavB Hlt Hj.
    eapply lower_priority_first; eauto.
Qed.

Lemma attempts_in_ascending_priority_witness :
  exists i, (i < 1)%nat /\
    Trace.tried (appended Example.start
                   (snd (APIManager.tryAllLiveAPIs Example.example_online Example.start)))
      !! i = Some Example.quotes.
Proof.
  refine (proj2 (attempts_in_ascending_priority Example.example_online Example.start
                   _ _ (run_eq _ _))
            [Example.metals; Example.premium; Example.quotes]
            (snd (DataManager.loadWithFallback Example.example_online
                    "data/apis.json" DNull 2 Example.start))
            Example.quotes Example.metals 1%nat _ _ _ _ _ _ _).
  - vm_compute. reflexivity.
  - apply elem_of_cons. right. apply elem_of_cons. right. apply elem_of_cons. by left.
  - apply elem_of_cons. by left.
  - vm_compute. reflexivity.
  - vm_compute. reflexivity.
  - vm_compute. reflexivity.
  - vm_compute. reflexivity.
Defined.

(** C2.  An endpoint that needs a key which the query string does not
    carry is skipped: [isAPIAvailable] is false for it, [loadAPIConfig]
    never returns it, and [tryAllLiveAPIs] neither turns to it nor makes
    a pass of the retry loop (hence a request) for it. *)
Theorem endpoint_without_key_is_skipped env api :
  authentication api <> "none" ->
  URLSearchParams.has (location_search env) (authentication api) = false ->
  APIManager.isAPIAvailable env api = false /\
  (forall w apis w', APIManager.loadAPIConfig env w = (Ok apis, w') -> api ∉ apis) /\
  (forall w r w',
      APIManager.tryAllLiveAPIs env w = (r, w') ->
      (api ∉ Trace.tried (appended w w')) /\
      forall n, (api, n) ∉ Trace.attempts (appended w w')).
Proof.
  intros Hauth Hkey.
  assert (Hno : APIManager.isAPIAvailable env api = false).
  { unfold APIManager.isAPIAvailable.
    destruct (String.eqb_spec (authentication api) "none"); done. }
  split; [done |]. split.
  - intros w apis w' Hrun Hin.
    destruct (wp_appended _ _ _ _ _ (loadAPIConfig_wp env w) Hrun)
      as (_ & _ & apis' & [= <-] & _ & _ & Hav & _).
    apply Hav in Hin. congruence.
  - intros w r w' Hrun.
    destruct (wp_appended _ _ _ _ _ (tryAllLiveAPIs_wp env w) Hrun)
      as (_ & Hm & (apis & [rest ->] & _ & Hav & _) & _).
    assert (Hnot : api ∉ Trace.tried (appended w w')).
    { intros Hin. assert (Hin' : api ∈ Trace.tried (appended w w') ++ rest)
        by (apply elem_of_app; by left).
      apply Hav in Hin'. congruence. }
    split; [done |]. intros n Hin. by apply Hm in Hin.
Qed.

Lemma endpoint_without_key_is_skipped_witness :
  APIManager.isAPIAvailable Example.example_online Example.premium = false /\
  (forall w apis w',
      APIManager.loadAPIConfig Example.example_online w = (Ok apis, w') ->
      Example.premium ∉ apis) /\
  (forall w r w',
      APIManager.tryAllLiveAPIs Example.example_online w = (r, w') ->
      (Example.premium ∉ Trace.tried (appended w w')) /\
      forall n, (Example.premium, n) ∉ Trace.attempts (appended w w')).
Proof.
  apply (endpoint_without_key_is_skipped Example.example_online Example.premium).
  - vm_compute. discriminate.
  - vm_compute. reflexivity.
Defined.

End EndpointClaims.

(** * The claims about the price *)

Section PriceClaims.
Import EndpointConfig.

(** C3.  A price outside the band is rejected.  When the endpoint answers
    and the extracted price is strictly below 10 or strictly above 200, the
    pass of [tryIndividualAPI] throws ['Invalid price'] and yields no
    sample; consequently every sample that [tryIndividualAPI],
    [tryAllLiveAPIs] or (marked live) [getCurrentPrice] returns has its
    price in the closed interval from 10 to 200. *)
Theorem price_outside_band_is_rejected env :
  (forall api w url response data p,
      APIManager.buildAPIUrl env api w = (Ok url, w) ->
      fetch_api env (requests w) url = Resolved response ->
      ok response = true -> json response = Some data ->
      APIManager.extractPrice data api = Some p ->
      (p <? 10)%float = true \/ (200 <? p)%float = true ->
      exists w', APIManager.attemptOnce env api w = (Throw (InvalidPrice (Some p)), w')) /\
  (forall api w s w',
      APIManager.tryIndividualAPI env api w = (Ok (Some s), w') ->
      InBand (PriceSample.price s)) /\
  (forall w s w',
      APIManager.tryAllLiveAPIs env w = (Ok (Some s), w') ->
      PriceSample.isLive s = true /\ InBand (PriceSample.price s)) /\
  (forall w s w',
      APIManager.getCurrentPrice env w = (Ok (Some s), w') ->
      PriceSample.isLive s = true -> InBand (PriceSample.price s)).
Proof.
  split_and!.
  - intros api w url response data p Hurl Hfetch Hok Hjson Hprice Hout.
    assert (Hacc : APIManager.acceptable (Some p) = false).
    { unfold APIManager.acceptable.
      destruct Hout as [Hlow | Hhigh].
      - rewrite (ltb_not_leb _ _ Hlow). by rewrite andb_false_r.
      - rewrite (ltb_not_leb _ _ Hhigh). by rewrite andb_false_r. }
    unfold APIManager.attemptOnce, Effects.bind. rewrite Hurl.
    unfold Effects.fetch. rewrite Hfetch, Hok. simpl.
    unfold Effects.response_json. rewrite Hjson. simpl.
    rewrite Hprice, Hacc. eexists. reflexivity.
  - intros api w s w' Hrun.
    destruct (wp_appended _ _ _ _ _ (tryIndividualAPI_wp env api w) Hrun)
      as (k & _ & _ & _ & _ & _ & _ & _ & _ & Hband). done.
  - intros w s w' Hrun.
    destruct (wp_appended _ _ _ _ _ (tryAllLiveAPIs_wp env w) Hrun)
      as (_ & _ & _ & (Hlive & _) & Hband). done.
  - intros w s w' Hrun Hlive.
    destruct (wp_appended _ _ _ _ _ (getCurrentPrice_wp env w) Hrun)
      as (_ & o & [= <-] & Hshape).
    destruct (Hshape s eq_refl) as [[_ Hband] | (Hhist & _)]; [done | congruence].
Qed.

Lemma price_outside_band_is_rejected_witness :
  (exists w',
      APIManager.attemptOnce Example.example_online Example.quotes Example.start
      = (Throw (InvalidPrice (Some 5.5%float)), w')) /\
  InBand 32.
Proof.
  destruct (price_outside_band_is_rejected Example.example_online) as (Hout & _ & Hlive & _).
  split.
  - apply (Hout Example.quotes Example.start "https://quotes.example/query"
             {| ok := true; status := 200;
                json := Some (JObj [("Global Quote", JObj [("05. price", JStr "5.5000")])]) |}
             (JObj [("Global Quote", JObj [("05. price", JStr "5.5000")])]) 5.5%float).
    + vm_compute. reflexivity.
    + vm_compute. reflexivity.
    + reflexivity.
    + reflexivity.
    + vm_compute. reflexivity.
    + left. vm_compute. reflexivity.
  - refine (proj2 (Hlive Example.start
                     {| PriceSample.price := 32; PriceSample.source := "metals";
                        PriceSample.timestamp := "1762041602500";
                        PriceSample.isLive := true; PriceSample.isLastKnown := None;
                        PriceSample.reliable := true |}
                     (snd (APIManager.tryAllLiveAPIs Example.example_online Example.start))
                     _)).
    vm_compute. reflexivity.
Defined.

(** C4.  The fallback to the history.  Suppose no endpoint yields a
    sample, and let [doc] be what the load of daily-prices.json returns
    next.  If [doc] is an array with a last entry, [getCurrentPrice]
    returns a sample with that entry's price, source and date, not live,
    marked last known.  If [doc] is an empty array, or not an array, or
    the document cannot be loaded, [getCurrentPrice] returns no sample. *)
Theorem last_known_price_when_no_endpoint_succeeds env w w1 doc w2 :
  APIManager.tryAllLiveAPIs env w = (Ok None, w1) ->
  DataManager.loadWithFallback env "data/daily-prices.json" (DPrices []) 2 w1
    = (Ok doc, w2) ->
  (forall entries lastEntry,
      doc = DPrices entries -> last entries = Some lastEntry ->
      exists s,
        APIManager.getCurrentPrice env w = (Ok (Some s), w2) /\
        PriceSample.price s = PriceEntry.price lastEntry /\
        PriceSample.isLive s = false /\
        PriceSample.isLastKnown s = Some true /\
        PriceSample.timestamp s = (PriceEntry.date lastEntry +:+ "T12:00:00Z") /\
        (forall src, PriceEntry.source lastEntry = Some src -> src <> "" ->
                     PriceSample.source s = src)) /\
  (doc = DPrices [] -> APIManager.getCurrentPrice env w = (Ok None, w2)) /\
  ((forall entries, doc <> DPrices entries) ->
   APIManager.getCurrentPrice env w = (Ok None, w2)) /\
  (Unloadable env "data/daily-prices.json" ->
   APIManager.getCurrentPrice env w = (Ok None, w2)).
Proof.
  intros Hlive Hload.
  rewrite (getCurrentPrice_fallback env w w1 Hlive).
  assert (Hun : Unloadable env "data/daily-prices.json" -> doc = DPrices []).
  { intros H.
    destruct (wp_appended _ _ _ _ _
                (loadWithFallback_wp env "data/daily-prices.json" (DPrices []) 2 w1) Hload)
      as (_ & _ & _ & Hfb).
    specialize (Hfb H). congruence. }
  unfold DataManager.getLastKnownPrice, Effects.try_catch, Effects.bind.
  rewrite Hload. split_and!.
  - intros entries lastEntry -> Hlast. rewrite Hlast. eexists.
    split; [reflexivity |]. simpl. split_and!; try done.
    intros src -> Hsrc. by destruct src.
  - by intros ->.
  - intros Hnot. destruct doc; try done. by destruct (Hnot dailyPrices).
  - intros H. by rewrite (Hun H).
Qed.

Lemma last_known_price_when_no_endpoint_succeeds_witness :
  exists s,
    APIManager.getCurrentPrice Example.example_offline Example.start
      = (Ok (Some s),
         snd (APIManager.getCurrentPrice Example.example_offline Example.start)) /\
    PriceSample.price s = 49.25%float /\
    PriceSample.isLive s = false /\
    PriceSample.isLastKnown s = Some true.
Proof.
  destruct (last_known_price_when_no_endpoint_succeeds Example.example_offline
              Example.start
              (snd (APIManager.tryAllLiveAPIs Example.example_offline Example.start))
              (DPrices Example.history)
              (snd (APIManager.getCurrentPrice Example.example_offline Example.start)))
    as (Hlast & _).
  - vm_compute. reflexivity.
  - vm_compute. reflexivity.
  - destruct (Hlast Example.history
                {| PriceEntry.date := "2025-10-31"; PriceEntry.price := 49.25;
                   PriceEntry.source := None |} eq_refl eq_refl)
      as (s & Hrun & Hprice & Hlive & Hknown & _).
    exists s. by split_and!.
Defined.

(** C9.  The two shapes of a sample.  A sample that [getCurrentPrice]
    returns is either live (live, reliable, no last-known mark) or
    historical (not live, marked last known, not reliable), never both;
    and the label that [createGiftContent] prints is "Last known value"
    exactly when the last-known mark holds, "Current value" otherwise. *)
Theorem price_sample_has_one_of_two_shapes env :
  (forall w s w',
      APIManager.getCurrentPrice env w = (Ok (Some s), w') ->
      (LiveShape s /\ ~ HistoricalShape s) \/ (HistoricalShape s /\ ~ LiveShape s)) /\
  (forall s, UIRenderer.priceLabel s = "Last known value"
             <-> PriceSample.isLastKnown s = Some true) /\
  (forall s, PriceSample.isLastKnown s <> Some true ->
             UIRenderer.priceLabel s = "Current value") /\
  (forall config s timeDescription statusIcon,
      UIRenderer.has_price (Some s) = true ->
      exists value total change,
        block (UIRenderer.createGiftContent config (Some s) timeDescription statusIcon)
        = PriceShown (UIRenderer.priceLabel s) (UIRenderer.priceClass s)
            value total change).
Proof.
  split_and!.
  - intros w s w' Hrun.
    destruct (wp_appended _ _ _ _ _ (getCurrentPrice_wp env w) Hrun)
      as (_ & o & [= <-] & Hshape).
    destruct (Hshape s eq_refl) as [[Hlive _] | Hhist].
    + left. split; [done |]. intros (Hno & _). destruct Hlive as (Hyes & _). congruence.
    + right. split; [done |]. intros (Hyes & _). destruct Hhist as (Hno & _). congruence.
  - intros s. unfold UIRenderer.priceLabel, UIRenderer.lastKnown.
    destruct (PriceSample.isLastKnown s) as [[] |]; split; congruence.
  - intros s Hnot. unfold UIRenderer.priceLabel, UIRenderer.lastKnown.
    destruct (PriceSample.isLastKnown s) as [[] |]; congruence.
  - intros config s timeDescription statusIcon Hprice.
    unfold UIRenderer.createGiftContent. rewrite Hprice. simpl. eauto.
Qed.

Lemma price_sample_has_one_of_two_shapes_witness :
  exists value total change,
    block (UIRenderer.createGiftContent Example.mary
             (Some {| PriceSample.price := 49.25; PriceSample.source := "historical";
                      PriceSample.timestamp := "2025-10-31T12:00:00Z";
                      PriceSample.isLive := false; PriceSample.isLastKnown := Some true;
                      PriceSample.reliable := false |})
             "1 year ago" (IconLastKnown "historical" "1 day ago"))
    = PriceShown "Last known value" "price last-known" value total change.
Proof.
  destruct (price_sample_has_one_of_two_shapes Example.example_offline)
    as (_ & _ & _ & Hlabel).
  apply (Hlabel Example.mary
           {| PriceSample.price := 49.25; PriceSample.source := "historical";
              PriceSample.timestamp := "2025-10-31T12:00:00Z";
              PriceSample.isLive := false; PriceSample.isLastKnown := Some true;
              PriceSample.reliable := false |}).
  vm_compute. reflexivity.
Defined.

End PriceClaims.

(** * The claim about retries *)

Section RetryClaims.
Context (env : Env).

Lemma retryLoop_unfold api fuel attempt :
  APIManager.retryLoop env (S fuel) api attempt
  = if (attempt <=? APIManager.maxAttempts)%nat
    then
      let* _ := Effects.emit (Attempt api attempt) in
      Effects.try_catch
        (let* sample := APIManager.attemptOnce env api in Effects.ret (Some sample))
        (fun error =>
           let* _ := (if (attempt <? APIManager.maxAttempts)%nat
                      then Effects.sleep (500 * Z.of_nat attempt)
                      else Effects.ret tt) in
           APIManager.retryLoop env fuel api (S attempt))
    else Effects.ret None.
Proof. reflexivity. Qed.

(** A run that did not run out of fuel is the same with more fuel. *)
Lemma retryLoop_more_fuel api fuel : forall attempt w r w',
  APIManager.retryLoop env fuel api attempt w = (r, w') -> r <> OutOfFuel ->
  APIManager.retryLoop env (S fuel) api attempt w = (r, w').
Proof.
  induction fuel as [| fuel IH]; intros attempt w r w' Hrun Hr.
  { simpl in Hrun. injection Hrun as <- _. done. }
  rewrite retryLoop_unfold in Hrun. rewrite retryLoop_unfold.
  destruct (attempt <=? APIManager.maxAttempts)%nat; [| done].
  unfold Effects.bind, Effects.try_catch, Effects.emit in Hrun |- *.
  destruct (APIManager.attemptOnce env api _) as [[s | e |] w1]; try done.
  destruct (attempt <? APIManager.maxAttempts)%nat;
    unfold Effects.sleep, Effects.ret in Hrun |- *;
    cbv beta iota in Hrun |- *; by apply IH.
Qed.

Lemma retryLoop_enough_fuel api fuel : forall extra attempt w r w',
  APIManager.retryLoop env fuel api attempt w = (r, w') -> r <> OutOfFuel ->
  APIManager.retryLoop env (extra + fuel) api attempt w = (r, w').
Proof.
  induction extra as [| extra IH]; intros attempt w r w' Hrun Hr; [done |].
  simpl. apply retryLoop_more_fuel; [| done]. by apply IH.
Qed.

(** A sample that the loop returns is the sample of one of its passes. *)
Lemma retryLoop_sample_origin api fuel : forall attempt w s w',
  APIManager.retryLoop env fuel api attempt w = (Ok (Some s), w') ->
  exists w1 w2, APIManager.attemptOnce env api w1 = (Ok s, w2).
Proof.
  induction fuel as [| fuel IH]; intros attempt w s w' Hrun; [done |].
  rewrite retryLoop_unfold in Hrun.
  destruct (attempt <=? APIManager.maxAttempts)%nat; [| done].
  unfold Effects.bind, Effects.try_catch, Effects.emit in Hrun.
  destruct (APIManager.attemptOnce env api _) as [[s0 | e |] w1] eqn:Hpass; try done.
  - injection Hrun as -> ->. eauto.
  - destruct (attempt <? APIManager.maxAttempts)%nat;
      unfold Effects.sleep, Effects.ret in Hrun; cbv beta iota in Hrun;
      by eapply IH.
Qed.

(** When an endpoint yields nothing, the loop over the endpoints goes on
    with the next one, after a pause of one second if there is one. *)
Lemma tryAllLoop_moves_on api rest w0 w1 :
  APIManager.tryIndividualAPI env api (snd (Effects.emit (TryAPI api) w0)) = (Ok None, w1) ->
  APIManager.tryAllLoop env (api :: rest) w0
  = APIManager.tryAllLoop env rest
      (if (0 <? length rest)%nat then snd (Effects.sleep 1000 w1) else w1).
Proof.
  intros Hrun.
  change (APIManager.tryAllLoop env (api :: rest) w0)
    with ((let* _ := Effects.emit (TryAPI api) in
           let* result := Effects.try_catch (APIManager.tryIndividualAPI env api)
                            (fun error => Effects.ret None) in
           match result with
           | Some sample => Effects.ret (Some sample)
           | None =>
               let* _ := (if (0 <? length rest)%nat
                          then Effects.sleep 1000
                          else Effects.ret tt) in
               APIManager.tryAllLoop env rest
           end) w0).
  unfold Effects.bind at 1 2. unfold Effects.try_catch.
  change (Effects.emit (TryAPI api) w0)
    with (Ok tt, snd (Effects.emit (TryAPI api) w0)).
  cbv beta iota. rewrite Hrun. unfold Effects.bind.
  by destruct (0 <? length rest)%nat.
Qed.

(** C8.  The retry loop is bounded.  For every endpoint and every world,
    [tryIndividualAPI] returns (it neither throws nor runs out of fuel,
    and more fuel gives the same run); it makes the passes 1, ..., [k] with
    [k <= 3] and at most [k] requests; the delay after the failed pass
    [n] is [500 * n] milliseconds, so the delays are strictly increasing;
    a sample it returns is the sample of one of its passes, so it returns
    nothing when every pass fails, and that only after 3 passes; the loop
    over the endpoints then goes on with the next endpoint. *)
Theorem retry_loop_is_bounded api w :
  exists r w' k,
    APIManager.tryIndividualAPI env api w = (Ok r, w') /\
    (forall fuel, (S APIManager.maxAttempts <= fuel)%nat ->
                  APIManager.retryLoop env fuel api 1 w = (Ok r, w')) /\
    (k <= 3)%nat /\
    Trace.attempts (appended w w') = (fun n => (api, n)) <$> seq 1 k /\
    (length (Trace.fetches (appended w w')) <= k)%nat /\
    Trace.delays (appended w w') = (fun n => 500 * Z.of_nat n)%Z <$> seq 1 (k - 1) /\
    StronglySorted Z.lt (Trace.delays (appended w w')) /\
    (r = None -> k = 3%nat) /\
    (forall s, r = Some s ->
               exists w1 w2, APIManager.attemptOnce env api w1 = (Ok s, w2)) /\
    (r = None ->
     forall rest w0,
       w = snd (Effects.emit (TryAPI api) w0) ->
       APIManager.tryAllLoop env (api :: rest) w0
       = APIManager.tryAllLoop env rest
           (if (0 <? length rest)%nat then snd (Effects.sleep 1000 w') else w')).
Proof.
  destruct (APIManager.tryIndividualAPI env api w) as [r w'] eqn:Hrun.
  destruct (wp_appended _ _ _ _ _ (tryIndividualAPI_wp env api w) Hrun)
    as (k & _ & Ha & Hd & Hf & _ & Hk & Hr).
  unfold APIManager.maxAttempts in Hk, Hr.
  destruct r as [o | |]; try done.
  exists o, w', k. split_and!; try done.
  - intros fuel Hfuel.
    replace fuel with ((fuel - S APIManager.maxAttempts) + S APIManager.maxAttempts)%nat
      by lia.
    by apply retryLoop_enough_fuel.
  - rewrite Hd.
    destruct k as [| [| [| [| k]]]]; [| | | | lia]; simpl; repeat constructor; lia.
  - intros ->. done.
  - intros s ->. by eapply retryLoop_sample_origin.
  - intros -> rest w0 ->. by apply tryAllLoop_moves_on.
Qed.

End RetryClaims.

(** * The claims about elapsed time *)

Section TimeClaims.

Lemma append_nonempty (a b : string) c : (a +:+ String c b) <> "".
Proof. by destruct a. Qed.

Lemma ago_nonempty n unit : Utils.ago n unit <> "".
Proof. unfold Utils.ago. apply append_nonempty. Qed.

(** C5.  A gift made 365 days ago.  When the whole-day difference between
    the current time and the gift date is 365 (the gift date lies 365 days
    and [r] milliseconds, less than a day, before the current time),
    [getTimeDifference] returns "1 year ago". *)
Theorem gift_of_365_days_ago_reads_one_year env today giftDate t r :
  date_parse env giftDate = Some t ->
  (today - t = 365 * 86400000 + r)%Z -> (0 <= r < 86400000)%Z ->
  Utils.getTimeDifference env today giftDate = "1 year ago".
Proof.
  intros Hparse Hdiff Hr. unfold Utils.getTimeDifference. rewrite Hparse. cbv zeta.
  assert (Hdays : JSInt.floor_div (JSInt.abs (JSInt.sub (Some today) (Some t)))
                    (1000 * 60 * 60 * 24) = Some 365%Z).
  { unfold JSInt.floor_div, JSInt.abs, JSInt.sub. simpl. f_equal.
    rewrite Hdiff, Z.abs_eq by lia. symmetry. apply (Z.div_unique _ _ 365 r); lia. }
  rewrite Hdays. reflexivity.
Qed.

Lemma gift_of_365_days_ago_reads_one_year_witness :
  Utils.getTimeDifference Example.example_online 1762041600000 "2024-11-02" = "1 year ago".
Proof.
  apply (gift_of_365_days_ago_reads_one_year Example.example_online
           1762041600000 "2024-11-02" 1730505600000 0).
  - reflexivity.
  - reflexivity.
  - lia.
Defined.

Lemma div_ltb d u c : (0 < u)%Z -> (d / u <? c)%Z = (d <? u * c)%Z.
Proof.
  intros Hu. destruct (Z.ltb_spec (d / u) c), (Z.ltb_spec d (u * c)); try done.
  - pose proof (Z.div_le_lower_bound d u c Hu). lia.
  - pose proof (Z.div_lt_upper_bound d u c Hu). lia.
Qed.

(** The thresholds cut the elapsed time into consecutive intervals. *)
Lemma describe_by_interval d :
  (0 <= d)%Z ->
  let minute := TimeAgoSpec.minute in
  let hour := TimeAgoSpec.hour in
  let day := TimeAgoSpec.day in
  ((d < minute)%Z -> TimeAgoSpec.describe d = "just now") /\
  ((minute <= d < hour)%Z ->
   TimeAgoSpec.describe d = TimeAgoSpec.count (d / minute) "minute") /\
  ((hour <= d < day)%Z ->
   TimeAgoSpec.describe d = TimeAgoSpec.count (d / hour) "hour") /\
  ((day <= d < 7 * day)%Z ->
   TimeAgoSpec.describe d = TimeAgoSpec.count (d / day) "day") /\
  ((7 * day <= d < 30 * day)%Z ->
   TimeAgoSpec.describe d = TimeAgoSpec.count (d / day / 7) "week") /\
  ((30 * day <= d < 365 * day)%Z ->
   TimeAgoSpec.describe d = TimeAgoSpec.count (d / day / 30) "month") /\
  ((365 * day <= d)%Z ->
   TimeAgoSpec.describe d = TimeAgoSpec.count (d / day / 365) "year").
Proof.
  intros Hd minute hour day.
  unfold TimeAgoSpec.describe, TimeAgoSpec.thresholds. cbn [List.find fst snd].
  rewrite !div_ltb by done.
  subst minute hour day. unfold TimeAgoSpec.minute, TimeAgoSpec.hour, TimeAgoSpec.day.
  split_and!; intros Hrange;
    repeat match goal with
           | |- context [(?a <? ?b)%Z] => destruct (Z.ltb_spec a b)
           end; try lia; reflexivity.
Qed.

(** C10.  [getTimeAgo] is total.  It returns a description that is not
    empty for every input; "unknown time" for a timestamp that is missing
    or empty; "recently" for a timestamp strictly in the future; and for a
    timestamp in the past the description of the first threshold that
    matches, in the order minutes, hours, days, weeks, months, years. *)
Theorem time_ago_is_total env now timestamp :
  Utils.getTimeAgo env now timestamp <> "" /\
  (timestamp = None \/ timestamp = Some "" ->
   Utils.getTimeAgo env now timestamp = "unknown time") /\
  (forall ts t,
      timestamp = Some ts -> ts <> "" -> date_parse env ts = Some t -> (now < t)%Z ->
      Utils.getTimeAgo env now timestamp = "recently") /\
  (forall ts t,
      timestamp = Some ts -> ts <> "" -> date_parse env ts = Some t -> (t <= now)%Z ->
      Utils.getTimeAgo env now timestamp = TimeAgoSpec.describe (now - t)).
Proof.
  split_and!.
  - unfold Utils.getTimeAgo. destruct timestamp as [[| c s] |]; try done.
    repeat match goal with
           | |- context [if ?b then _ else _] => destruct b
           end; try done; apply ago_nonempty.
  - by intros [-> | ->].
  - intros ts t -> Hts Hparse Hfuture. unfold Utils.getTimeAgo.
    destruct ts as [| c s]; [done |]. rewrite Hparse. simpl.
    by destruct (Z.ltb_spec (now - t) 0); [| lia].
  - intros ts t -> Hts Hparse Hpast. unfold Utils.getTimeAgo.
    destruct ts as [| c s]; [done |]. rewrite Hparse.
    unfold JSInt.sub, JSInt.ltb at 1.
    destruct (Z.ltb_spec (now - t) 0); [lia |].
    unfold TimeAgoSpec.describe, TimeAgoSpec.thresholds, TimeAgoSpec.count,
      TimeAgoSpec.minute, TimeAgoSpec.hour, TimeAgoSpec.day, Utils.ago,
      JSInt.ltb, JSInt.floor_div, JSInt.eqb, JSInt.to_string.
    simpl.
    repeat match goal with
           | |- context [if (?a <? ?b)%Z then _ else _] => destruct (a <? b)%Z
           end; reflexivity.
Qed.

Lemma time_ago_is_total_witness :
  Utils.getTimeAgo Example.example_online 1762041600000 (Some "2025-10-31T12:00:00Z")
  = "1 day ago".
Proof.
  destruct (time_ago_is_total Example.example_online 1762041600000
              (Some "2025-10-31T12:00:00Z")) as (_ & _ & _ & Hpast).
  rewrite (Hpast "2025-10-31T12:00:00Z" 1761912000000%Z eq_refl).
  - vm_compute. reflexivity.
  - discriminate.
  - reflexivity.
  - lia.
Defined.

End TimeClaims.

(** * The claim about path extraction *)

Section PathClaims.
Import EndpointConfig.

Lemma get_own data key child :
  JSObject.own data key = Some child ->
  JSObject.get (JSObject.Data data) key = Some (JSObject.Data child).
Proof.
  destruct data as [| b | x | s | items | fields]; try done.
  - intros Hown. unfold JSObject.get. by rewrite Hown.
  - simpl. by intros ->.
Qed.

(** A walk along own keys is a walk of [walkPath]. *)
Lemma walkPath_resolves keys : forall data value,
  Resolves data keys value ->
  APIManager.walkPath keys (JSObject.Data data) = Some (JSObject.Data value).
Proof.
  induction keys as [| key keys IH]; intros data value Hres.
  - by inversion Hres.
  - inversion Hres as [| ? ? child ? ? Hown Hrest]; subst.
    cbn [APIManager.walkPath app]. rewrite (get_own _ _ _ Hown). by apply IH.
Qed.

(** A key that is not an own key leads nowhere, or to an inherited
    function, unless it is [__proto__]. *)
Lemma get_not_own data key :
  JSObject.own data key = None -> key <> "__proto__" ->
  JSObject.get (JSObject.Data data) key = None \/
  JSObject.get (JSObject.Data data) key = Some (JSObject.Method key).
Proof.
  intros Hown Hkey.
  assert (Hin : forall proto found,
             JSObject.inherited proto key found = None \/
             JSObject.inherited proto key found = Some (JSObject.Method key)).
  { intros proto found. unfold JSObject.inherited.
    destruct (String.eqb_spec key "__proto__"); [done |].
    destruct found; [by right | by left]. }
  destruct data as [| b | x | s | items | fields]; try (by left).
  - unfold JSObject.get. rewrite Hown. apply Hin.
  - simpl in Hown |- *. rewrite Hown. apply Hin.
Qed.

(** From a function the walk goes no further. *)
Lemma walkPath_method keys name :
  APIManager.walkPath keys (JSObject.Method name) = None \/
  APIManager.walkPath keys (JSObject.Method name) = Some (JSObject.Method name).
Proof. destruct keys; [by right | by left]. Qed.

Lemma walkPath_app before : forall after data value,
  Resolves data before value ->
  APIManager.walkPath (before ++ after) (JSObject.Data data)
  = APIManager.walkPath after (JSObject.Data value).
Proof.
  induction before as [| key before IH]; intros after data value Hres.
  - by inversion Hres.
  - inversion Hres as [| ? ? child ? ? Hown Hrest]; subst.
    cbn [APIManager.walkPath app]. rewrite (get_own _ _ _ Hown). by apply IH.
Qed.

(** When an own key is missing, the walk ends on nothing or on a
    function, unless the path goes through [__proto__]. *)
Lemma walkPath_absent keys data :
  ("__proto__" ∉ keys) -> KeyAbsent data keys ->
  APIManager.walkPath keys (JSObject.Data data) = None \/
  exists name, APIManager.walkPath keys (JSObject.Data data) = Some (JSObject.Method name).
Proof.
  intros Hproto (before & key & after & value & -> & Hres & Hown).
  rewrite (walkPath_app _ _ _ _ Hres). cbn [APIManager.walkPath].
  assert (Hkey : key <> "__proto__").
  { intros ->. apply Hproto. apply elem_of_app. right. apply elem_of_cons. by left. }
  destruct (get_not_own _ _ Hown Hkey) as [-> | ->]; [by left |].
  destruct (walkPath_method after key) as [-> | ->]; [by left | right; eauto].
Qed.

(** Along own keys, a key is missing or the walk ends on a value. *)
Lemma own_walk_cases keys : forall data,
  KeyAbsent data keys \/ exists value, Resolves data keys value.
Proof.
  induction keys as [| key keys IH]; intros data.
  - right. exists data. constructor.
  - destruct (JSObject.own data key) as [child |] eqn:Hown.
    + destruct (IH child) as [(before & k & after & value & -> & Hres & Hnone) | [value Hres]].
      * left. exists (key :: before), k, after, value.
        split_and!; [done | by econstructor | done].
      * right. exists value. by econstructor.
    + left. exists [], key, keys, data. split_and!; [done | constructor | done].
Qed.

(** C7.  Path extraction, where the code departs from it.  For the path
    "constructor" and the answer [{"constructor": 42}], the key of the
    path is present and its value reads as the number 42, yet
    [parseJSONPath] returns a member of [Object.prototype] instead of
    keys and [extractPrice] returns nothing.  For the path
    "__proto__.length" and the answer [[]], the key [__proto__] is absent
    from the answer, yet [extractPrice] returns the number 0. *)
Theorem inherited_path_departs_from_the_walk :
  (Resolves (JObj [("constructor", JNum 42)]) ["constructor"] (JNum 42) /\
   is_nan (JSNumber.parseFloat (JNum 42)) = false /\
   APIManager.parseJSONPath (price_path Scenario.by_constructor)
   = APIManager.PathMember "constructor" /\
   APIManager.extractPrice (JObj [("constructor", JNum 42)]) Scenario.by_constructor
   = None) /\
  (KeyAbsent (JArr []) ["__proto__"; "length"] /\
   APIManager.parseJSONPath (price_path Scenario.by_proto_length)
   = APIManager.PathKeys ["__proto__"; "length"] /\
   APIManager.extractPrice (JArr []) Scenario.by_proto_length = Some 0%float).
Proof.
  split; split_and!.
  - eapply Resolves_cons; [reflexivity | constructor].
  - vm_compute. reflexivity.
  - vm_compute. reflexivity.
  - vm_compute. reflexivity.
  - exists [], "__proto__", ["length"], (JArr []). split_and!; [done | constructor | done].
  - vm_compute. reflexivity.
  - vm_compute. reflexivity.
Qed.

End PathClaims.

(** * The claim about the recipient *)

Section RecipientClaims.

Lemma renderGiftPage_wp env config dailyPrices currentPriceData w :
  wp (UIRenderer.renderGiftPage env config dailyPrices currentPriceData)
    (fun evs r w' =>
       r = Ok tt /\ exists content chart, contentDiv w' = ViewGiftPage content chart) w.
Proof.
  unfold UIRenderer.renderGiftPage. apply wp_bind, wp_now, wp_set_content.
  split; [done |]. simpl. eauto.
Qed.

Lemma renderGiftPage_member_wp env dailyPrices currentPriceData w :
  wp (UIRenderer.renderGiftPage_member env dailyPrices currentPriceData)
    (fun evs r w' =>
       r = Ok tt /\ exists content chart, contentDiv w' = ViewGiftPage content chart) w.
Proof.
  unfold UIRenderer.renderGiftPage_member. apply wp_bind, wp_now, wp_set_content.
  split; [done |]. simpl. eauto.
Qed.

(** [loadAndRender] never throws, and what it puts on the page is the
    selector or the gift page, never the error view. *)
Lemma loadAndRender_wp env w :
  wp (SilverGiftApp.loadAndRender env)
    (fun evs r w' =>
       r = Ok tt /\
       ((exists options, contentDiv w' = ViewRecipientSelector options) \/
        (exists content chart, contentDiv w' = ViewGiftPage content chart))) w.
Proof.
  assert (Hselect : forall recipients w1,
            wp (UIRenderer.showRecipientSelector recipients)
              (fun evs r w' =>
                 r = Ok tt /\
                 ((exists options, contentDiv w' = ViewRecipientSelector options) \/
                  (exists content chart, contentDiv w' = ViewGiftPage content chart))) w1).
  { intros recipients w1. apply wp_set_content. split; [done |]. left. simpl. eauto. }
  unfold SilverGiftApp.loadAndRender. apply wp_bind.
  eapply wp_mono; [apply loadAppData_wp |].
  intros evs r w1 ([[recipients dailyPrices] ->] & _ & _). simpl.
  destruct (Utils.getRecipientFromUrl env) as [[| c id] |];
    try (eapply wp_mono; [apply Hselect |]; by intros evs' r' w' [-> H]).
  destruct (recipients !! String c id) as [config |].
  - apply wp_bind. eapply wp_mono; [apply getCurrentPrice_wp |].
    intros evs' r' w2 (_ & o & -> & _).
    eapply wp_mono; [apply renderGiftPage_wp |].
    intros evs'' r'' w' [-> H]. split; [done |]. by right.
  - destruct (JSProto.in_object_prototype (String c id));
      [| eapply wp_mono; [apply Hselect |]; by intros evs' r' w' [-> H]].
    apply wp_bind. eapply wp_mono; [apply getCurrentPrice_wp |].
    intros evs' r' w2 (_ & o & -> & _).
    eapply wp_mono; [apply renderGiftPage_member_wp |].
    intros evs'' r'' w' [-> H]. split; [done |]. by right.
Qed.

(** C6.  An unknown recipient, where the code departs from the selection
    list.  The page is opened with [?recipient=constructor] and the
    recipient map that is loaded holds "mary" only, so that "constructor"
    is absent from it.  [init] nevertheless asks the endpoints for a
    price and ends with a gift page, not with the selection list: the
    lookup [recipients[recipientId]] finds the [constructor] that every
    object inherits. *)
Theorem inherited_recipient_gets_gift_page :
  Utils.getRecipientFromUrl Scenario.constructor_page = Some "constructor" /\
  fst (DataManager.loadAppData Scenario.constructor_page Example.start)
  = Ok ({[ "mary" := Example.mary ]}, Example.history) /\
  ({[ "mary" := Example.mary ]} : gmap string RecipientRecord.t) !! "constructor" = None /\
  fst (SilverGiftApp.init Scenario.constructor_page Example.start) = Ok tt /\
  (exists content chart,
      contentDiv (snd (SilverGiftApp.init Scenario.constructor_page Example.start))
      = ViewGiftPage content chart) /\
  (forall options,
      contentDiv (snd (SilverGiftApp.init Scenario.constructor_page Example.start))
      <> ViewRecipientSelector options) /\
  Trace.tried
    (appended Example.start
       (snd (SilverGiftApp.init Scenario.constructor_page Example.start)))
  = [Example.quotes; Example.metals].
Proof.
  assert (Hview : exists content chart,
             contentDiv (snd (SilverGiftApp.init Scenario.constructor_page Example.start))
             = ViewGiftPage content chart).
  { eexists _, _. vm_compute. reflexivity. }
  split_and!; try (vm_compute; reflexivity); [done |].
  intros options. destruct Hview as (content & chart & ->). discriminate.
Qed.

End RecipientClaims.

(** * Further properties: loading a document *)

Section LoadFacts.
Context (env : Env).

Lemma waited_app evs evs' :
  Budget.waited (evs ++ evs') = (Budget.waited evs + Budget.waited evs')%Z.
Proof.
  unfold Budget.waited. rewrite delays_app.
  induction (Trace.delays evs) as [| d ds IH]; simpl; [done |]. rewrite IH. lia.
Qed.

Lemma waited_fetch url : Budget.waited [Fetch url] = 0%Z.
Proof. reflexivity. Qed.

Lemma waited_sleep ms : Budget.waited [Sleep ms] = ms.
Proof. unfold Budget.waited. simpl. lia. Qed.

(** The sum of the delays [500 * 1], ..., [500 * m]. *)
Lemma sum_of_delays m first :
  foldr Z.add 0%Z ((fun n => 500 * Z.of_nat n)%Z <$> seq first m)
  = (250 * Z.of_nat m * (2 * Z.of_nat first + Z.of_nat m - 1))%Z.
Proof.
  revert first. induction m as [| m IH]; intros first; simpl; [lia |].
  rewrite IH. lia.
Qed.

Lemma loadLoop_unfold fuel url fallback retries attempt :
  DataManager.loadLoop env (S fuel) url fallback retries attempt
  = if (attempt <=? retries)%nat
    then
      Effects.try_catch (DataManager.loadOnce env url)
        (fun error =>
           if (attempt =? retries)%nat then Effects.ret fallback
           else
             let* _ := Effects.sleep (DataManager.retryDelay * Z.of_nat attempt) in
             DataManager.loadLoop env fuel url fallback retries (S attempt))
    else Effects.ret fallback.
Proof. reflexivity. Qed.

(** One pass: one request, no delay; what it yields was served. *)
Lemma loadOnce_served url w :
  wp (DataManager.loadOnce env url)
    (fun evs r w' =>
       evs = [Fetch url] /\ requests w' = S (requests w) /\ clock w' = clock w /\
       match r with
       | Ok d => Served env url d
       | Throw _ => True
       | OutOfFuel => False
       end /\
       (Unloadable env url -> exists e, r = Throw e)) w.
Proof.
  unfold DataManager.loadOnce. apply wp_bind, wp_fetch.
  intros w' Hc Hr _ _.
  pose proof (fun (H : Unloadable env url) => H (requests w)) as Hun.
  destruct (fetch_document env (requests w) url) as [| response] eqn:Hfetch.
  { split_and!; eauto. }
  destruct (ok response) eqn:Hok; simpl.
  - apply wp_bind, wp_response_json.
    destruct (json response) as [data |] eqn:Hjson.
    + assert (Hbad : Unloadable env url -> data = DNull).
      { intros H. destruct (Hun H) as [? | [? | ?]]; congruence. }
      destruct data; (apply wp_ret || apply wp_throw);
        (split; [done |]; split; [done |]; split; [done |]; split);
        try done; try (by exists (requests w), response);
        try (intros H; specialize (Hbad H); done); eauto.
    + split_and!; eauto.
  - apply wp_throw. split_and!; eauto.
Qed.

(** The loop makes the passes [attempt], [attempt + 1], ..., one request
    each, and waits [500 * n] after every failed pass [n] but the last. *)
Lemma loadLoop_bound url fallback retries fuel : forall attempt w,
  (0 < fuel)%nat -> (retries < fuel + attempt)%nat ->
  wp (DataManager.loadLoop env fuel url fallback retries attempt)
    (fun evs r w' =>
       exists k : nat,
         Trace.fetches evs = replicate k url /\
         Trace.delays evs = (fun n => 500 * Z.of_nat n)%Z <$> seq attempt (k - 1) /\
         (attempt + k <= Nat.max attempt (S retries))%nat /\
         (attempt <= retries -> 1 <= k)%nat /\
         requests w' = (requests w + k)%nat /\
         clock w' = (clock w + Budget.waited evs)%Z /\
         exists d,
           r = Ok d /\ (d = fallback \/ Served env url d) /\
           (Unloadable env url ->
            d = fallback /\ (attempt + k = Nat.max attempt (S retries))%nat)) w.
Proof.
  induction fuel as [| fuel IH]; intros attempt w Hpos Hfuel; [lia |].
  simpl. destruct (attempt <=? retries)%nat eqn:Hle.
  2: { apply Nat.leb_gt in Hle. apply wp_ret. exists 0%nat.
       split_and!; try done; try lia; try (unfold Budget.waited; simpl; lia).
       exists fallback. split_and!; try done; [by left | intros _; split; [done | lia]]. }
  apply Nat.leb_le in Hle. apply wp_try_catch.
  eapply wp_mono; [apply loadOnce_served |].
  intros evs r w1 (-> & Hreq & Hclock & Hr & Hun). destruct r as [d | e |]; [| | done].
  - exists 1%nat.
    split_and!; try done; try lia; try (unfold Budget.waited; simpl; lia).
    exists d. split_and!; try done; [by right |].
    intros H. destruct (Hun H) as [e He]. done.
  - destruct (attempt =? retries)%nat eqn:Heq.
    + apply Nat.eqb_eq in Heq. apply wp_ret. exists 1%nat.
      split_and!; try done; try lia; try (unfold Budget.waited; simpl; lia).
      exists fallback. split_and!; try done; [by left | intros _; split; [done | lia]].
    + apply Nat.eqb_neq in Heq. apply wp_bind, wp_sleep.
      eapply wp_mono; [apply IH; lia |].
      intros evs' r' w' (k & Hf & Hd & Hk & Hk1 & Hreq' & Hclock' & d & -> & Hd' & Hun').
      simpl in Hreq', Hclock'. unfold DataManager.retryDelay in *. exists (S k).
      specialize (Hk1 ltac:(lia)).
      rewrite !fetches_app, !delays_app, !waited_app. simpl.
      rewrite Hf, Hd. destruct k as [| k]; [lia |]. simpl. rewrite Nat.sub_0_r.
      split_and!; try done; try lia;
        try (rewrite waited_fetch, waited_sleep, Hclock', Hclock; lia).
      exists d. split_and!; try done.
      intros H. destruct (Hun' H) as [-> Hall]. split; [done | lia].
Qed.

End LoadFacts.

Section LoadProperties.

(** X1.  [loadWithFallback] is bounded: it always returns a document,
    after [k <= retries] requests, all for the same address, having waited
    [500 * n] milliseconds after each failed pass [n] but the last; with
    [retries = 0] it makes no request. *)
Theorem load_with_fallback_is_bounded env url fallback retries w :
  exists d w' k,
    DataManager.loadWithFallback env url fallback retries w = (Ok d, w') /\
    (k <= retries)%nat /\
    Trace.fetches (appended w w') = replicate k url /\
    Trace.delays (appended w w') = (fun n => 500 * Z.of_nat n)%Z <$> seq 1 (k - 1) /\
    requests w' = (requests w + k)%nat /\
    clock w' = (clock w + Budget.waited (appended w w'))%Z.
Proof.
  destruct (DataManager.loadWithFallback env url fallback retries w) as [r w'] eqn:Hrun.
  assert (Hwp := loadLoop_bound env url fallback retries (S retries) 1 w
                   ltac:(lia) ltac:(lia)).
  destruct (wp_appended _ _ _ _ _ Hwp Hrun)
    as (k & Hf & Hd & Hk & _ & Hreq & Hclock & d & -> & _).
  exists d, w', k. split_and!; try done. lia.
Qed.

(** X2.  What [loadWithFallback] returns is the fallback, or a document
    that the server sent with a successful status and that is not [null]:
    it never hands on the body of a failed answer. *)
Theorem load_with_fallback_returns_served_or_fallback env url fallback retries w d w' :
  DataManager.loadWithFallback env url fallback retries w = (Ok d, w') ->
  d = fallback \/ Served env url d.
Proof.
  intros Hrun.
  assert (Hwp := loadLoop_bound env url fallback retries (S retries) 1 w
                   ltac:(lia) ltac:(lia)).
  destruct (wp_appended _ _ _ _ _ Hwp Hrun)
    as (k & _ & _ & _ & _ & _ & _ & d' & [= <-] & Hd & _).
  done.
Qed.

Lemma load_with_fallback_returns_served_or_fallback_witness :
  DPrices Example.history = DPrices []
  \/ Served Example.example_online "data/daily-prices.json" (DPrices Example.history).
Proof.
  apply (load_with_fallback_returns_served_or_fallback Example.example_online
           "data/daily-prices.json" (DPrices []) 2 Example.start (DPrices Example.history)
           (snd (DataManager.loadWithFallback Example.example_online
                   "data/daily-prices.json" (DPrices []) 2 Example.start))).
  vm_compute. reflexivity.
Defined.

(** X3.  The first good answer ends the load: when the answer to the next
    request is successful and its body is a document that is not [null],
    [loadWithFallback] (with at least one try) returns that document after
    this one request, without any delay. *)
Theorem load_with_fallback_first_success env url fallback retries w response d :
  (1 <= retries)%nat ->
  fetch_document env (requests w) url = Resolved response ->
  ok response = true -> json response = Some d -> d <> DNull ->
  exists w',
    DataManager.loadWithFallback env url fallback retries w = (Ok d, w') /\
    appended w w' = [Fetch url] /\ clock w' = clock w.
Proof.
  intros Hretries Hfetch Hok Hjson Hd.
  unfold DataManager.loadWithFallback. rewrite loadLoop_unfold.
  destruct (Nat.leb_spec 1 retries); [| lia].
  unfold Effects.try_catch, DataManager.loadOnce, Effects.bind, Effects.fetch.
  rewrite Hfetch, Hok. simpl. unfold Effects.response_json. rewrite Hjson.
  eexists. split; [by destruct d |]. split; [| done].
  unfold appended. simpl. by rewrite drop_app_length.
Qed.

Lemma load_with_fallback_first_success_witness :
  exists w',
    DataManager.loadWithFallback Example.example_online "data/daily-prices.json"
      (DPrices []) 2 Example.start = (Ok (DPrices Example.history), w') /\
    appended Example.start w' = [Fetch "data/daily-prices.json"] /\
    clock w' = clock Example.start.
Proof.
  apply (load_with_fallback_first_success Example.example_online
           "data/daily-prices.json" (DPrices []) 2 Example.start
           {| ok := true; status := 200; json := Some (DPrices Example.history) |}).
  - lia.
  - reflexivity.
  - reflexivity.
  - reflexivity.
  - discriminate.
Defined.

(** X4.  A document that cannot be loaded costs exactly [retries]
    requests and [250 * retries * (retries - 1)] milliseconds of waiting,
    and yields the fallback. *)
Theorem unloadable_document_costs env url fallback retries w :
  Unloadable env url -> (1 <= retries)%nat ->
  exists w',
    DataManager.loadWithFallback env url fallback retries w = (Ok fallback, w') /\
    Trace.fetches (appended w w') = replicate retries url /\
    Budget.waited (appended w w')
    = (250 * Z.of_nat retries * (Z.of_nat retries - 1))%Z.
Proof.
  intros Hun Hretries.
  destruct (DataManager.loadWithFallback env url fallback retries w) as [r w'] eqn:Hrun.
  assert (Hwp := loadLoop_bound env url fallback retries (S retries) 1 w
                   ltac:(lia) ltac:(lia)).
  destruct (wp_appended _ _ _ _ _ Hwp Hrun)
    as (k & Hf & Hd & _ & _ & _ & _ & d & -> & _ & Hall).
  destruct (Hall Hun) as [-> Hk]. assert (k = retries) as -> by lia.
  exists w'. split_and!; try done.
  unfold Budget.waited. rewrite Hd, sum_of_delays.
  replace (Z.of_nat (retries - 1)) with (Z.of_nat retries - 1)%Z by lia.
  change (Z.of_nat 1) with 1%Z. ring.
Qed.

Lemma unloadable_document_costs_witness :
  exists w',
    DataManager.loadWithFallback Scenario.unreachable "data/recipients.json"
      (DRecipients ∅) 3 Example.start = (Ok (DRecipients ∅), w') /\
    Trace.fetches (appended Example.start w') = replicate 3 "data/recipients.json" /\
    Budget.waited (appended Example.start w') = 1500%Z.
Proof.
  apply (unloadable_document_costs Scenario.unreachable "data/recipients.json"
           (DRecipients ∅) 3 Example.start).
  - intros n. exact I.
  - lia.
Defined.

End LoadProperties.

(** * Further properties: the address of an endpoint *)

Section AddressFacts.
Import EndpointConfig.

Lemma has_get params key :
  URLSearchParams.has params key = true <-> exists v, URLSearchParams.get params key = Some v.
Proof.
  induction params as [| [k v] params IH]; simpl.
  - split; [done | by intros [v Hv]].
  - destruct (String.eqb k key); simpl; [| exact IH].
    split; [by exists v | done].
Qed.

Lemma starts_with_app p t : JSString.starts_with p (p +:+ t) = true.
Proof.
  induction p as [| c p IH]; simpl; [done |]. by rewrite Ascii.eqb_refl.
Qed.

Lemma starts_with_inv p : forall s,
  JSString.starts_with p s = true -> exists t, s = p +:+ t.
Proof.
  induction p as [| c p IH]; intros s Hs; simpl in *; [by exists s |].
  destruct s as [| b s]; [done |].
  destruct (Ascii.eqb_spec c b) as [-> |]; [| done].
  destruct (IH s Hs) as [t ->]. by exists t.
Qed.

Lemma string_drop_app (p t : string) :
  string_of_list_ascii (drop (String.length p) (list_ascii_of_string (p +:+ t))) = t.
Proof.
  induction p as [| c p IH]; simpl; [apply string_of_list_ascii_of_string |]. exact IH.
Qed.

Lemma string_of_list_ascii_snoc cur c s :
  (string_of_list_ascii (cur ++ [c]) +:+ s)
  = (string_of_list_ascii cur +:+ String c s).
Proof.
  induction cur as [| a cur IH]; [done |].
  change (String a (string_of_list_ascii (cur ++ [c]) +:+ s)
          = String a (string_of_list_ascii cur +:+ String c s)).
  by rewrite IH.
Qed.

Lemma append_empty_r s : (s +:+ "") = s.
Proof.
  induction s as [| c s IH]; [done |].
  change (String c (s +:+ "") = String c s). by rewrite IH.
Qed.

Lemma replace_go_unfold pat rep before s :
  JSString.replace_go pat rep before s
  = if JSString.starts_with pat s
    then
      JSString.substitution pat (string_of_list_ascii (rev before))
        (string_of_list_ascii (drop (String.length pat) (list_ascii_of_string s))) rep
      +:+ string_of_list_ascii (drop (String.length pat) (list_ascii_of_string s))
    else match s with
         | EmptyString => EmptyString
         | String c s' => String c (JSString.replace_go pat rep (c :: before) s')
         end.
Proof. by destruct s. Qed.

(** Without the pattern, [replace] changes nothing. *)
Lemma replace_go_absent pat rep : forall s before,
  JSString.includes pat s = false -> JSString.replace_go pat rep before s = s.
Proof.
  induction s as [| c s IH]; intros before; rewrite replace_go_unfold;
    cbn [JSString.includes].
  - by destruct (JSString.starts_with pat "").
  - destruct (JSString.starts_with pat (String c s)); [done |].
    intros Hs. by rewrite IH.
Qed.

Lemma replace_absent pat rep s :
  JSString.includes pat s = false -> JSString.replace pat rep s = s.
Proof. apply replace_go_absent. Qed.

(** [replace] rewrites the first occurrence: the one that no earlier
    position of the text starts. *)
Lemma replace_go_first pat rep post : forall pre before,
  (forall a c b, pre = a +:+ String c b ->
                 JSString.starts_with pat (String c b +:+ pat +:+ post) = false) ->
  JSString.replace_go pat rep before (pre +:+ pat +:+ post)
  = (pre +:+ JSString.substitution pat (string_of_list_ascii (rev before) +:+ pre) post rep
         +:+ post).
Proof.
  induction pre as [| c pre IH]; intros before Hfree.
  - change ("" +:+ pat +:+ post) with (pat +:+ post).
    rewrite replace_go_unfold, starts_with_app, string_drop_app, append_empty_r.
    reflexivity.
  - change (String c pre +:+ pat +:+ post) with (String c (pre +:+ pat +:+ post)).
    rewrite replace_go_unfold.
    change (String c (pre +:+ pat +:+ post)) with (String c pre +:+ pat +:+ post) at 1.
    rewrite (Hfree "" c pre eq_refl).
    rewrite IH by (intros a c' b ->; by apply (Hfree (String c a) c' b)).
    cbn [rev]. by rewrite string_of_list_ascii_snoc.
Qed.

Lemma replace_first pat rep pre post :
  (forall a c b, pre = a +:+ String c b ->
                 JSString.starts_with pat (String c b +:+ pat +:+ post) = false) ->
  JSString.replace pat rep (pre +:+ pat +:+ post)
  = (pre +:+ JSString.substitution pat pre post rep +:+ post).
Proof. intros Hfree. unfold JSString.replace. by rewrite replace_go_first. Qed.

(** A replacement without a dollar sign stands for itself. *)
Lemma substitution_literal matched before after : forall rep,
  JSString.includes "$" rep = false ->
  JSString.substitution matched before after rep = rep.
Proof.
  induction rep as [| c rep IH]; [done |].
  cbn [JSString.includes JSString.starts_with JSString.substitution].
  rewrite Ascii.eqb_sym. destruct (Ascii.eqb c "$"); [by destruct rep |].
  intros Hrep. by rewrite IH.
Qed.

(** A text without an opening brace holds no start of a placeholder. *)
Lemma no_brace_no_start name post : forall pre,
  JSString.includes "{" pre = false ->
  forall a c b, pre = a +:+ String c b ->
    JSString.starts_with ("{" +:+ name +:+ "}")
      (String c b +:+ ("{" +:+ name +:+ "}") +:+ post) = false.
Proof.
  induction pre as [| c0 pre IH]; intros Hpre a c b Heq.
  - by destruct a.
  - cbn [JSString.includes JSString.starts_with] in Hpre.
    destruct (Ascii.eqb_spec "{" c0) as [| Hc0]; [by destruct pre |].
    destruct a as [| a0 a]; cbn [String.append] in Heq; injection Heq as Hc Hb.
    + subst c0 pre.
      change (JSString.starts_with (String "{" (name +:+ "}"))
                (String c (b +:+ ("{" +:+ name +:+ "}") +:+ post)) = false).
      cbn [JSString.starts_with]. by destruct (Ascii.eqb_spec "{" c).
    + by eapply IH.
Qed.

End AddressFacts.

Section AddressProperties.
Import EndpointConfig.

(** X5.  Availability and the address agree, up to an empty key.  For an
    endpoint that [isAPIAvailable] accepts, [buildAPIUrl] returns the
    address unless the endpoint needs a key and the query string carries
    that key with an empty value; for an endpoint that [isAPIAvailable]
    refuses, [buildAPIUrl] throws. *)
Theorem available_endpoint_has_an_address env api w :
  (APIManager.isAPIAvailable env api = true ->
   (exists address, APIManager.buildAPIUrl env api w = (Ok address, w)) \/
   (authentication api <> "none" /\
    URLSearchParams.get (location_search env) (authentication api) = Some "" /\
    APIManager.buildAPIUrl env api w
    = (Throw (MissingAPIKey (name api) (authentication api)), w))) /\
  (APIManager.isAPIAvailable env api = false ->
   APIManager.buildAPIUrl env api w
   = (Throw (MissingAPIKey (name api) (authentication api)), w)).
Proof.
  unfold APIManager.isAPIAvailable, APIManager.buildAPIUrl.
  destruct (String.eqb_spec (authentication api) "none") as [Hnone | Hauth]; simpl.
  - split; [| done]. intros _. left. by eexists.
  - split.
    + intros Hhas. apply has_get in Hhas as [[| c key] Hget]; rewrite Hget.
      * right. done.
      * left. by eexists.
    + intros Hhas.
      destruct (URLSearchParams.get _ _) as [[| c key] |] eqn:Hget; try done.
      assert (URLSearchParams.has (location_search env) (authentication api) = true)
        by (apply has_get; eauto).
      congruence.
Qed.

Lemma available_endpoint_has_an_address_witness :
  (exists address,
      APIManager.buildAPIUrl Example.example_online Example.metals Example.start
      = (Ok address, Example.start)) \/
  (authentication Example.metals <> "none" /\
   URLSearchParams.get (location_search Example.example_online)
     (authentication Example.metals) = Some "" /\
   APIManager.buildAPIUrl Example.example_online Example.metals Example.start
   = (Throw (MissingAPIKey (name Example.metals) (authentication Example.metals)),
      Example.start)).
Proof.
  apply (available_endpoint_has_an_address Example.example_online Example.metals
           Example.start).
  reflexivity.
Defined.

(** X6.  Only the first placeholder receives the key.  When the address
    template is [pre], the placeholder, [post], with no opening brace in
    [pre], and the query string carries a key that is not empty,
    [buildAPIUrl] returns [pre], the text that [replace] makes of the key,
    [post]: whatever [post] holds, a second placeholder included, is left
    as it is.  In the key, [$$] gives a dollar sign, [$&] the placeholder,
    [$`] gives [pre] and [$'] gives [post]; a key without a dollar sign
    is put in as it is. *)
Theorem key_replaces_first_placeholder env api w pre post key :
  authentication api <> "none" ->
  url api = pre +:+ ("{" +:+ authentication api +:+ "}") +:+ post ->
  JSString.includes "{" pre = false ->
  URLSearchParams.get (location_search env) (authentication api) = Some key ->
  key <> "" ->
  APIManager.buildAPIUrl env api w
  = (Ok (pre +:+ JSString.substitution ("{" +:+ authentication api +:+ "}") pre post key
             +:+ post), w) /\
  (JSString.includes "$" key = false ->
   APIManager.buildAPIUrl env api w = (Ok (pre +:+ key +:+ post), w)).
Proof.
  intros Hauth Hurl Hpre Hget Hkey.
  assert (Hbuild : APIManager.buildAPIUrl env api w
                   = (Ok (pre +:+ JSString.substitution
                                    ("{" +:+ authentication api +:+ "}") pre post key
                              +:+ post), w)).
  { unfold APIManager.buildAPIUrl.
    destruct (String.eqb_spec (authentication api) "none"); [done |]. simpl.
    rewrite Hget. destruct key as [| c key]; [done |].
    unfold Effects.ret. do 2 f_equal. rewrite Hurl.
    apply replace_first. by apply no_brace_no_start. }
  split; [done |]. intros Hplain. by rewrite Hbuild, substitution_literal.
Qed.

Lemma key_replaces_first_placeholder_witness :
  APIManager.buildAPIUrl Example.example_online Example.metals Example.start
  = (Ok "https://metals.example/latest?key=K1", Example.start).
Proof.
  refine (proj2 (key_replaces_first_placeholder Example.example_online Example.metals
                   Example.start "https://metals.example/latest?key=" "" "K1"
                   _ _ _ _ _) _).
  - discriminate.
  - reflexivity.
  - reflexivity.
  - reflexivity.
  - discriminate.
  - reflexivity.
Defined.

(** X7.  A template without the placeholder ignores the key: when the
    address of an endpoint that needs a key does not contain its
    placeholder, [buildAPIUrl] returns the address unchanged (for a key
    that is not empty). *)
Theorem template_without_placeholder_is_unchanged env api w key :
  authentication api <> "none" ->
  JSString.includes ("{" +:+ authentication api +:+ "}") (url api) = false ->
  URLSearchParams.get (location_search env) (authentication api) = Some key ->
  key <> "" ->
  APIManager.buildAPIUrl env api w = (Ok (url api), w).
Proof.
  intros Hauth Hurl Hget Hkey. unfold APIManager.buildAPIUrl.
  destruct (String.eqb_spec (authentication api) "none"); [done |]. simpl.
  rewrite Hget. destruct key as [| c key]; [done |].
  unfold Effects.ret. do 2 f_equal. by apply replace_absent.
Qed.

Lemma template_without_placeholder_is_unchanged_witness :
  APIManager.buildAPIUrl Example.example_online
    {| name := "plain"; url := "https://plain.example/xag"; price_path := "price";
       time_path := "time"; authentication := "key"; priority := 5;
       description := "no placeholder"; rate_conversion := None; headers := [] |}
    Example.start
  = (Ok "https://plain.example/xag", Example.start).
Proof.
  apply (template_without_placeholder_is_unchanged Example.example_online
           {| name := "plain"; url := "https://plain.example/xag"; price_path := "price";
              time_path := "time"; authentication := "key"; priority := 5;
              description := "no placeholder"; rate_conversion := None; headers := [] |}
           Example.start "K1").
  - discriminate.
  - reflexivity.
  - reflexivity.
  - discriminate.
Defined.

End AddressProperties.

(** * Further properties: passes without a request *)

Section EmptyKey.
Import EndpointConfig.

Lemma attemptOnce_without_address env api e w :
  APIManager.buildAPIUrl env api w = (Throw e, w) ->
  APIManager.attemptOnce env api w = (Throw e, w).
Proof. intros H. unfold APIManager.attemptOnce, Effects.bind. by rewrite H. Qed.

(** X8.  An empty key costs three passes and no request.  When the query
    string carries the key of an endpoint with an empty value, the
    endpoint counts as available, yet [tryIndividualAPI] makes its three
    passes without a single request, waits 500 and 1000 milliseconds in
    between, and returns nothing. *)
Theorem empty_key_costs_three_passes env api w :
  authentication api <> "none" ->
  URLSearchParams.get (location_search env) (authentication api) = Some "" ->
  APIManager.isAPIAvailable env api = true /\
  exists w',
    APIManager.tryIndividualAPI env api w = (Ok None, w') /\
    appended w w' = [Attempt api 1; Sleep 500; Attempt api 2; Sleep 1000; Attempt api 3].
Proof.
  intros Hauth Hget. split.
  { unfold APIManager.isAPIAvailable.
    destruct (String.eqb_spec (authentication api) "none"); [done |].
    apply has_get. eauto. }
  assert (Hpass : forall w0,
             APIManager.attemptOnce env api w0
             = (Throw (MissingAPIKey (name api) (authentication api)), w0)).
  { intros w0. apply attemptOnce_without_address. unfold APIManager.buildAPIUrl.
    destruct (String.eqb_spec (authentication api) "none"); [done |]. simpl.
    by rewrite Hget. }
  unfold APIManager.tryIndividualAPI.
  do 4 (rewrite retryLoop_unfold; unfold APIManager.maxAttempts;
        cbn [Nat.leb Nat.ltb];
        unfold Effects.bind, Effects.try_catch, Effects.emit, Effects.sleep, Effects.ret;
        rewrite ?Hpass; cbv beta iota).
  eexists. split; [reflexivity |].
  unfold appended. cbn [events]. rewrite <- !app_assoc. by rewrite drop_app_length.
Qed.

Lemma empty_key_costs_three_passes_witness :
  APIManager.isAPIAvailable Scenario.empty_key Example.metals = true /\
  exists w',
    APIManager.tryIndividualAPI Scenario.empty_key Example.metals Example.start
    = (Ok None, w') /\
    appended Example.start w'
    = [Attempt Example.metals 1; Sleep 500; Attempt Example.metals 2; Sleep 1000;
       Attempt Example.metals 3].
Proof.
  apply (empty_key_costs_three_passes Scenario.empty_key Example.metals Example.start).
  - discriminate.
  - reflexivity.
Defined.

End EmptyKey.

(** * Further properties: the cost of asking the endpoints *)

Section BudgetFacts.
Context (env : Env).
Import EndpointConfig.

(** Two facts about the same run hold together. *)
Lemma wp_and {A} (m : M A) Q Q' w :
  wp m Q w -> wp m Q' w -> wp m (fun evs r w' => Q evs r w' /\ Q' evs r w') w.
Proof.
  intros (evs & He & H) (evs' & He' & H'). exists evs. split; [done |].
  rewrite He in He'. apply app_inv_head in He' as <-. done.
Qed.

(** A sample of a pass names the endpoint of the pass. *)
Lemma attemptOnce_source api w s w' :
  APIManager.attemptOnce env api w = (Ok s, w') -> PriceSample.source s = name api.
Proof.
  unfold APIManager.attemptOnce, Effects.bind. intros Hrun.
  destruct (APIManager.buildAPIUrl env api w) as [[url | e |] w1]; try done.
  destruct (Effects.fetch (fetch_api env) url w1) as [[response | e |] w2]; try done.
  destruct (negb (ok response)); [done |].
  destruct (Effects.response_json response w2) as [[data | e |] w3]; try done.
  destruct (APIManager.extractPrice data api) as [p |]; [| done].
  destruct (APIManager.acceptable (Some p)); [| done].
  unfold Effects.now, Effects.ret in Hrun. by injection Hrun as <- _.
Qed.

Lemma tryIndividualAPI_cost api w :
  wp (APIManager.tryIndividualAPI env api)
    (fun evs r w' =>
       exists k : nat,
         Trace.tried evs = [] /\ Trace.attempts evs = passes api k /\
         (length (Trace.fetches evs) <= k)%nat /\ (1 <= k <= 3)%nat /\
         (Budget.waited evs <= 1500)%Z /\
         match r with
         | Ok (Some s) => PriceSample.source s = name api
         | Ok None => k = 3%nat /\ Budget.waited evs = 1500%Z
         | _ => False
         end) w.
Proof.
  eapply wp_mono_run; [apply tryIndividualAPI_wp |].
  intros evs r w' Hrun (k & Ht & Ha & Hd & Hf & _ & Hk & Hr). exists k.
  unfold APIManager.maxAttempts in Hk, Hr.
  assert (Hk1 : (1 <= k)%nat) by (destruct r as [[s |] | |]; try done; [tauto | lia]).
  assert (Hw : Budget.waited evs
               = (250 * Z.of_nat (k - 1) * (2 * Z.of_nat 1 + Z.of_nat (k - 1) - 1))%Z).
  { unfold Budget.waited. rewrite Hd. apply sum_of_delays. }
  split_and!; try done.
  - rewrite Hw. destruct k as [| [| [| [| k]]]]; simpl; lia.
  - destruct r as [[s |] | |]; try done.
    + unfold APIManager.tryIndividualAPI in Hrun.
      destruct (retryLoop_sample_origin env _ _ _ _ _ _ Hrun) as (w1 & w2 & Hpass).
      by eapply attemptOnce_source.
    + subst k. split; [done |]. rewrite Hw. simpl. lia.
Qed.

(** The events of one turn of the loop over the endpoints. *)
Ltac turn_events api :=
  rewrite ?tried_app, ?attempts_app, ?fetches_app, ?waited_app, ?length_app;
  change (Trace.tried [TryAPI api]) with [api];
  change (Trace.attempts [TryAPI api]) with (@nil (EndpointConfig.t * nat));
  change (Trace.fetches [TryAPI api]) with (@nil string);
  change (Budget.waited [TryAPI api]) with 0%Z;
  change (Trace.tried [Sleep 1000]) with (@nil EndpointConfig.t);
  change (Trace.attempts [Sleep 1000]) with (@nil (EndpointConfig.t * nat));
  change (Trace.fetches [Sleep 1000]) with (@nil string);
  change (Budget.waited [Sleep 1000]) with 1000%Z.

Lemma given_up_cons api apis : given_up (api :: apis) = passes api 3 ++ given_up apis.
Proof. reflexivity. Qed.

(** The loop over the endpoints: every endpoint that did not yield a
    sample was given three passes, and one second goes by between two
    endpoints. *)
Lemma tryAllLoop_cost apis : forall w,
  wp (APIManager.tryAllLoop env apis)
    (fun evs r w' =>
       let n := length (Trace.tried evs) in
       Trace.tried evs `prefix_of` apis /\
       (apis <> [] -> (1 <= n)%nat) /\
       (length (Trace.fetches evs) <= 3 * n)%nat /\
       (Budget.waited evs <= 2500 * Z.of_nat n)%Z /\
       ((1 <= n)%nat -> (Budget.waited evs + 1000 <= 2500 * Z.of_nat n)%Z) /\
       match r with
       | Ok (Some s) =>
           exists before api k,
             Trace.tried evs = before ++ [api] /\ (1 <= k <= 3)%nat /\
             Trace.attempts evs = given_up before ++ passes api k /\
             PriceSample.source s = name api
       | Ok None =>
           Trace.tried evs = apis /\ Trace.attempts evs = given_up apis /\
           ((1 <= n)%nat -> (Budget.waited evs + 1000 = 2500 * Z.of_nat n)%Z)
       | _ => False
       end) w.
Proof.
  induction apis as [| api rest IH]; intros w.
  { apply wp_ret. simpl. split_and!; try done; try lia;
      try (unfold Budget.waited; simpl; lia). }
  change (APIManager.tryAllLoop env (api :: rest))
    with (let* _ := Effects.emit (TryAPI api) in
          let* result := Effects.try_catch (APIManager.tryIndividualAPI env api)
                           (fun error => Effects.ret None) in
          match result with
          | Some sample => Effects.ret (Some sample)
          | None =>
              let* _ := (if (0 <? length rest)%nat
                         then Effects.sleep 1000
                         else Effects.ret tt) in
              APIManager.tryAllLoop env rest
          end).
  apply wp_bind, wp_emit, wp_bind, wp_try_catch.
  eapply wp_mono; [apply tryIndividualAPI_cost |].
  intros evs r w1 (k & Ht & Ha & Hf & Hk & Hw & Hr).
  destruct r as [[s |] | |]; try done.
  - apply wp_ret. rewrite app_nil_r.
    turn_events api. rewrite Ht, Ha. cbn [length app].
    split_and!; try done; try lia.
    + apply prefix_cons, prefix_nil.
    + exists [], api, k. split_and!; try done; lia.
  - destruct Hr as [-> Hw3]. apply wp_bind.
    destruct rest as [| next rest].
    + apply wp_ret, wp_ret. rewrite !app_nil_r.
      turn_events api. rewrite Ht, Ha. cbn [length app].
      split_and!; try done; try lia.
    + apply wp_sleep. eapply wp_mono; [apply IH |].
      intros evs' r' w' (Hp & Hn & Hf' & Hw' & Hw1 & Hr').
      specialize (Hn ltac:(done)). specialize (Hw1 Hn).
      turn_events api. rewrite Ht, Ha. cbn [length app].
      split_and!; try done; try lia.
      * by apply prefix_cons.
      * destruct r' as [[s |] | |]; try done.
        -- destruct Hr' as (before & last & j & Hb & Hj & Hatt & Hs).
           exists (api :: before), last, j. rewrite Hb, Hatt, given_up_cons.
           split_and!; try done; try lia.
        -- destruct Hr' as (Hall & Hatt & Hexact). specialize (Hexact Hn).
           rewrite Hall, Hatt. split_and!; try done. intros _.
           rewrite Hall in Hexact. simpl length in *. lia.
Qed.

(** Loading the configuration: at most two requests, at most half a
    second of waiting, and a list that is not empty. *)
Lemma loadAPIConfig_cost w :
  wp (APIManager.loadAPIConfig env)
    (fun evs r w' =>
       Trace.quiet evs /\ (length (Trace.fetches evs) <= 2)%nat /\
       (0 <= Budget.waited evs <= 500)%Z /\
       exists apis, r = Ok apis /\ apis <> [] /\
         (forall a, a ∈ apis -> APIManager.isAPIAvailable env a = true)) w.
Proof.
  assert (Hcost : wp (APIManager.loadAPIConfig env)
                    (fun evs _ _ =>
                       (length (Trace.fetches evs) <= 2)%nat /\
                       (0 <= Budget.waited evs <= 500)%Z) w).
  { unfold APIManager.loadAPIConfig. apply wp_try_catch, wp_bind.
    eapply wp_mono;
      [apply (loadLoop_bound env "data/apis.json" DNull 2 3 1); lia |].
    intros evs r w1 (k & Hf & Hd & Hk & _ & _ & _ & d & -> & _).
    assert (Hevs : (length (Trace.fetches (evs ++ [])) <= 2)%nat /\
                   (0 <= Budget.waited (evs ++ []) <= 500)%Z).
    { rewrite app_nil_r. unfold Budget.waited. rewrite Hf, Hd, length_replicate.
      destruct k as [| [| [| k]]]; simpl in *; lia. }
    destruct d as [| config | entries | recipients | value]; by apply wp_ret. }
  eapply wp_mono; [exact (wp_and _ _ _ _ (loadAPIConfig_wp env w) Hcost) |].
  intros evs r w' [(Hq & _ & apis & Hr & Hne & _ & Hav & _) (Hf & Hw)].
  split; [done |]. split; [done |]. split; [done |]. by exists apis.
Qed.

(** The orchestrator: the load of the configuration, then the loop. *)
Lemma tryAllLiveAPIs_cost w :
  wp (APIManager.tryAllLiveAPIs env)
    (fun evs r w' =>
       let n := length (Trace.tried evs) in
       (1 <= n)%nat /\
       (length (Trace.fetches evs) <= 2 + 3 * n)%nat /\
       (Budget.waited evs + 500 <= 2500 * Z.of_nat n)%Z /\
       match r with
       | Ok (Some s) =>
           exists before api k,
             Trace.tried evs = before ++ [api] /\ (1 <= k <= 3)%nat /\
             Trace.attempts evs = given_up before ++ passes api k /\
             PriceSample.source s = name api
       | Ok None =>
           Trace.attempts evs = given_up (Trace.tried evs) /\
           (2500 * Z.of_nat n <= Budget.waited evs + 1000)%Z
       | _ => False
       end) w.
Proof.
  unfold APIManager.tryAllLiveAPIs. apply wp_bind.
  eapply wp_mono; [apply loadAPIConfig_cost |].
  intros evs r w1 ([Ht Ha] & Hf & Hw & apis & -> & Hne & _).
  eapply wp_mono; [apply tryAllLoop_cost |].
  intros evs' r' w' (_ & Hn & Hf' & _ & Hw' & Hr').
  specialize (Hn Hne). specialize (Hw' Hn).
  rewrite tried_app, attempts_app, fetches_app, waited_app, !length_app, Ht, Ha.
  cbn [length app]. split_and!; try lia.
  destruct r' as [[s |] | |]; try done.
  destruct Hr' as (Hall & Hatt & Hexact). specialize (Hexact Hn).
  split; [by rewrite Hatt, Hall | lia].
Qed.

Lemma none_available config :
  (forall a, a ∈ config -> APIManager.isAPIAvailable env a = false) ->
  List.filter (APIManager.isAPIAvailable env) (APIManager.sort_by_priority config) = [].
Proof.
  intros Hnone.
  destruct (List.filter _ _) as [| a rest] eqn:Hfilter; [done |].
  assert (Hin : a ∈ List.filter (APIManager.isAPIAvailable env)
                  (APIManager.sort_by_priority config))
    by (rewrite Hfilter; apply elem_of_cons; by left).
  apply elem_of_available in Hin as [Hin Hav].
  rewrite elem_of_sort_by_priority in Hin. rewrite (Hnone a Hin) in Hav. done.
Qed.

Lemma loadAPIConfig_fallback w :
  Unloadable env "data/apis.json" \/
  (forall config, Served env "data/apis.json" (DEndpoints config) ->
                  forall a, a ∈ config -> APIManager.isAPIAvailable env a = false) ->
  exists w1,
    APIManager.loadAPIConfig env w = (Ok (APIManager.getFallbackAPIConfig), w1).
Proof.
  intros Hcase.
  destruct (DataManager.loadWithFallback env "data/apis.json" DNull 2 w)
    as [r w1] eqn:Hrun.
  assert (Hwp := loadLoop_bound env "data/apis.json" DNull 2 3 1 w
                   ltac:(lia) ltac:(lia)).
  destruct (wp_appended _ _ _ _ _ Hwp Hrun)
    as (k & _ & _ & _ & _ & _ & _ & d & -> & Hd & Hun).
  exists w1. unfold APIManager.loadAPIConfig, Effects.try_catch, Effects.bind.
  rewrite Hrun.
  destruct d as [| config | entries | recipients | value]; try done.
  destruct Hcase as [H | Hnone]; [by destruct (Hun H) |].
  destruct Hd as [Hd | Hserved]; [done |].
  by rewrite (none_available config (Hnone config Hserved)).
Qed.

End BudgetFacts.

Section BudgetProperties.
Import EndpointConfig.

(** X9.  The budget of the orchestrator.  [tryAllLiveAPIs] always returns.
    It turns to at least one endpoint; with [n] the number of endpoints it
    turned to, it makes at most [2 + 3 * n] requests (two for the
    configuration, three for each endpoint) and spends at most
    [2500 * n - 500] milliseconds in timers. *)
Theorem orchestrator_budget env w :
  exists r w',
    APIManager.tryAllLiveAPIs env w = (Ok r, w') /\
    (1 <= length (Trace.tried (appended w w')))%nat /\
    (length (Trace.fetches (appended w w'))
     <= 2 + 3 * length (Trace.tried (appended w w')))%nat /\
    (Budget.waited (appended w w')
     <= 2500 * Z.of_nat (length (Trace.tried (appended w w'))) - 500)%Z.
Proof.
  destruct (APIManager.tryAllLiveAPIs env w) as [r w'] eqn:Hrun.
  destruct (wp_appended _ _ _ _ _ (tryAllLiveAPIs_cost env w) Hrun)
    as (Hn & Hf & Hw & Hr).
  destruct r as [o | |]; try done.
  exists o, w'. split_and!; try done. lia.
Qed.

(** X10.  The sample names the endpoint that was tried last.  When
    [tryAllLiveAPIs] returns a sample, its source is the name of the last
    endpoint that was turned to, which is available; every endpoint
    before it was given exactly three passes, and the last one at most
    three. *)
Theorem sample_names_last_endpoint_tried env w s w' :
  APIManager.tryAllLiveAPIs env w = (Ok (Some s), w') ->
  exists before api k,
    Trace.tried (appended w w') = before ++ [api] /\
    PriceSample.source s = name api /\
    APIManager.isAPIAvailable env api = true /\
    (1 <= k <= 3)%nat /\
    Trace.attempts (appended w w') = given_up before ++ passes api k.
Proof.
  intros Hrun.
  destruct (wp_appended _ _ _ _ _ (tryAllLiveAPIs_cost env w) Hrun)
    as (_ & _ & _ & before & api & k & Ht & Hk & Ha & Hs).
  destruct (wp_appended _ _ _ _ _ (tryAllLiveAPIs_wp env w) Hrun)
    as (_ & _ & (apis & [rest Hp] & _ & Hav & _) & _).
  exists before, api, k. split_and!; try done; try lia.
  apply Hav. rewrite Hp, Ht. apply elem_of_app. left. apply elem_of_app. right.
  apply elem_of_cons. by left.
Qed.

Lemma sample_names_last_endpoint_tried_witness :
  exists before api k,
    Trace.tried (appended Example.start
                   (snd (APIManager.tryAllLiveAPIs Example.example_online Example.start)))
    = before ++ [api] /\
    "metals" = name api /\
    APIManager.isAPIAvailable Example.example_online api = true /\
    (1 <= k <= 3)%nat /\
    Trace.attempts (appended Example.start
                      (snd (APIManager.tryAllLiveAPIs Example.example_online
                              Example.start)))
    = given_up before ++ passes api k.
Proof.
  apply (sample_names_last_endpoint_tried Example.example_online Example.start
           {| PriceSample.price := 32; PriceSample.source := "metals";
              PriceSample.timestamp := "1762041602500";
              PriceSample.isLive := true; PriceSample.isLastKnown := None;
              PriceSample.reliable := true |}
           (snd (APIManager.tryAllLiveAPIs Example.example_online Example.start))).
  vm_compute. reflexivity.
Defined.

(** X11.  What exhausting the endpoints costs.  When [tryAllLiveAPIs]
    returns no sample, every endpoint it turned to was given exactly three
    passes, and with [n] such endpoints the timers took between
    [2500 * n - 1000] and [2500 * n - 500] milliseconds. *)
Theorem exhausted_endpoints_cost env w w' :
  APIManager.tryAllLiveAPIs env w = (Ok None, w') ->
  Trace.attempts (appended w w') = given_up (Trace.tried (appended w w')) /\
  (2500 * Z.of_nat (length (Trace.tried (appended w w'))) - 1000
   <= Budget.waited (appended w w')
   <= 2500 * Z.of_nat (length (Trace.tried (appended w w'))) - 500)%Z.
Proof.
  intros Hrun.
  destruct (wp_appended _ _ _ _ _ (tryAllLiveAPIs_cost env w) Hrun)
    as (_ & _ & Hw & Ha & Hlow).
  split; [done | lia].
Qed.

Lemma exhausted_endpoints_cost_witness :
  Trace.attempts
    (appended Example.start
       (snd (APIManager.tryAllLiveAPIs Example.example_offline Example.start)))
  = given_up
      (Trace.tried
         (appended Example.start
            (snd (APIManager.tryAllLiveAPIs Example.example_offline Example.start)))) /\
  (2500 * Z.of_nat
            (length
               (Trace.tried
                  (appended Example.start
                     (snd (APIManager.tryAllLiveAPIs Example.example_offline
                             Example.start))))) - 1000
   <= Budget.waited
        (appended Example.start
           (snd (APIManager.tryAllLiveAPIs Example.example_offline Example.start)))
   <= 2500 * Z.of_nat
               (length
                  (Trace.tried
                     (appended Example.start
                        (snd (APIManager.tryAllLiveAPIs Example.example_offline
                                Example.start))))) - 500)%Z.
Proof.
  apply (exhausted_endpoints_cost Example.example_offline Example.start
           (snd (APIManager.tryAllLiveAPIs Example.example_offline Example.start))).
  vm_compute. reflexivity.
Defined.

(** X12.  The built-in endpoint.  When apis.json cannot be loaded, or no
    configuration that the server sends holds an available endpoint,
    [loadAPIConfig] returns the built-in configuration, and the only
    endpoint that [tryAllLiveAPIs] turns to is the built-in one. *)
Theorem builtin_endpoint_when_none_is_configured env w :
  Unloadable env "data/apis.json" \/
  (forall config, Served env "data/apis.json" (DEndpoints config) ->
                  forall a, a ∈ config -> APIManager.isAPIAvailable env a = false) ->
  (exists w1,
      APIManager.loadAPIConfig env w = (Ok (APIManager.getFallbackAPIConfig), w1)) /\
  (forall r w',
      APIManager.tryAllLiveAPIs env w = (r, w') ->
      Trace.tried (appended w w') = APIManager.getFallbackAPIConfig).
Proof.
  intros Hcase. destruct (loadAPIConfig_fallback env w Hcase) as [w1 Hload].
  split; [by exists w1 |].
  intros r w' Hrun.
  destruct (wp_appended _ _ _ _ _ (loadAPIConfig_cost env w) Hload)
    as ([Ht _] & _).
  unfold APIManager.tryAllLiveAPIs, Effects.bind in Hrun. rewrite Hload in Hrun.
  destruct (wp_run _ _ _ _ _ (tryAllLoop_cost env _ w1) Hrun)
    as (evs & He & [rest Hp] & Hn & _).
  specialize (Hn ltac:(done)).
  assert (Happ : appended w w' = appended w w1 ++ evs).
  { destruct (wp_run _ _ _ _ _ (loadAPIConfig_cost env w) Hload) as (evs0 & He0 & _).
    rewrite (appended_app _ _ _ He0). apply appended_app.
    by rewrite He, He0, app_assoc. }
  rewrite Happ, tried_app, Ht. simpl.
  destruct (Trace.tried evs) as [| a [| b l]]; simpl in Hn; [lia | |].
  - unfold APIManager.getFallbackAPIConfig in Hp |- *. simpl in Hp. congruence.
  - unfold APIManager.getFallbackAPIConfig in Hp. simpl in Hp.
    destruct rest; discriminate.
Qed.

Lemma builtin_endpoint_when_none_is_configured_witness :
  exists w1,
    APIManager.loadAPIConfig Scenario.unreachable Example.start
    = (Ok (APIManager.getFallbackAPIConfig), w1).
Proof.
  apply (builtin_endpoint_when_none_is_configured Scenario.unreachable Example.start).
  left. intros n. exact I.
Defined.

End BudgetProperties.

(** * Further properties: what the page shows of a sample *)

Section DisplayFacts.

(** A number that is at least 10 is neither NaN nor zero. *)
Lemma at_least_ten_truthy p : (10 <=? p)%float = true -> JSNumber.truthy p = true.
Proof.
  unfold JSNumber.truthy, is_nan, is_zero.
  rewrite FloatAxioms.leb_spec, !FloatAxioms.eqb_spec. unfold SFleb, SFeqb.
  replace (Prim2SF 10) with (S754_finite false 5629499534213120 (-49))
    by (vm_compute; reflexivity).
  replace (Prim2SF zero) with (S754_zero false) by (vm_compute; reflexivity).
  destruct (Prim2SF p) as [s | s | | s m e]; try done.
  - by destruct s.
  - intros _. cbn [SFcompare].
    destruct s; rewrite Z.compare_refl, Pos.compare_cont_refl; reflexivity.
Qed.

Lemma in_band_truthy p : InBand p -> JSNumber.truthy p = true.
Proof. intros [Hlow _]. by apply at_least_ten_truthy. Qed.

End DisplayFacts.

Section DisplayProperties.

(** X13.  A live price is always shown.  For a live sample that
    [getCurrentPrice] returns, [createStatusIcon] gives the icon of a live
    price with the source of the sample, and [createGiftContent] prints
    the price under the label "Current value", never the notice that the
    price is unavailable. *)
Theorem live_price_is_shown env w s w' now config timeDescription statusIcon :
  APIManager.getCurrentPrice env w = (Ok (Some s), w') ->
  PriceSample.isLive s = true ->
  UIRenderer.createStatusIcon env now (Some s) = IconReliable (PriceSample.source s) /\
  block (UIRenderer.createGiftContent config (Some s) timeDescription statusIcon)
  = PriceShown "Current value" "price" (PriceSample.price s)
      (PriceSample.price s
       * JSNumber.parseFloat_string (RecipientRecord.silverAmount config))%float
      ((PriceSample.price s - RecipientRecord.initialPrice config)
       / RecipientRecord.initialPrice config * 100)%float.
Proof.
  intros Hrun Hlive.
  destruct (wp_appended _ _ _ _ _ (getCurrentPrice_wp env w) Hrun)
    as (_ & o & [= <-] & Hshape).
  destruct (Hshape s eq_refl) as [[(_ & _ & Hmark) Hband] | (Hhist & _)];
    [| congruence].
  apply in_band_truthy in Hband.
  unfold UIRenderer.createStatusIcon, UIRenderer.createGiftContent,
    UIRenderer.has_price, UIRenderer.priceLabel, UIRenderer.priceClass,
    UIRenderer.lastKnown.
  by rewrite Hband, Hlive, Hmark.
Qed.

Lemma live_price_is_shown_witness :
  UIRenderer.createStatusIcon Example.example_online 1762041602500
    (Some {| PriceSample.price := 32; PriceSample.source := "metals";
             PriceSample.timestamp := "1762041602500";
             PriceSample.isLive := true; PriceSample.isLastKnown := None;
             PriceSample.reliable := true |})
  = IconReliable "metals".
Proof.
  apply (live_price_is_shown Example.example_online Example.start
           {| PriceSample.price := 32; PriceSample.source := "metals";
              PriceSample.timestamp := "1762041602500";
              PriceSample.isLive := true; PriceSample.isLastKnown := None;
              PriceSample.reliable := true |}
           (snd (APIManager.getCurrentPrice Example.example_online Example.start))
           1762041602500 Example.mary "1 year ago" IconError).
  - vm_compute. reflexivity.
  - reflexivity.
Defined.

(** X14.  The icon of a price that [getCurrentPrice] returns.  The icon
    of a live price stands for a live sample in the band; the icon of a
    last known price for a historical sample, with the age of its
    timestamp; the error icon appears only when there is no sample or the
    historical price is zero or not a number; the icon of a cached price
    never appears. *)
Theorem icon_of_current_price env w o w' now :
  APIManager.getCurrentPrice env w = (Ok o, w') ->
  match UIRenderer.createStatusIcon env now o with
  | IconReliable source =>
      exists s, o = Some s /\ LiveShape s /\ InBand (PriceSample.price s) /\
                source = PriceSample.source s
  | IconLastKnown source timeAgo =>
      exists s, o = Some s /\ HistoricalShape s /\ source = PriceSample.source s /\
                timeAgo = Utils.getTimeAgo env now (Some (PriceSample.timestamp s))
  | IconError =>
      o = None \/
      exists s, o = Some s /\ HistoricalShape s /\
                JSNumber.truthy (PriceSample.price s) = false
  | IconCached _ => False
  end.
Proof.
  intros Hrun.
  destruct (wp_appended _ _ _ _ _ (getCurrentPrice_wp env w) Hrun)
    as (_ & o' & [= <-] & Hshape).
  destruct o as [s |]; [| by left].
  unfold UIRenderer.createStatusIcon, UIRenderer.has_price, UIRenderer.lastKnown.
  destruct (Hshape s eq_refl) as [[Hlive Hband] | Hhist].
  - rewrite (in_band_truthy _ Hband). destruct Hlive as (Hl & Hr & Hm).
    rewrite Hl. simpl. exists s.
    split; [done |]. split; [by repeat split |]. by split.
  - destruct Hhist as (Hl & Hm & Hr). rewrite Hl, Hm.
    destruct (JSNumber.truthy (PriceSample.price s)) eqn:Hprice; simpl.
    + exists s. by repeat split.
    + right. exists s. by repeat split.
Qed.

Lemma icon_of_current_price_witness :
  exists s,
    Some {| PriceSample.price := 49.25; PriceSample.source := "historical";
            PriceSample.timestamp := "2025-10-31T12:00:00Z";
            PriceSample.isLive := false; PriceSample.isLastKnown := Some true;
            PriceSample.reliable := false |} = Some s /\
    HistoricalShape s /\ "historical" = PriceSample.source s /\
    "1 day ago"
    = Utils.getTimeAgo Example.example_offline 1762041600000
        (Some (PriceSample.timestamp s)).
Proof.
  apply (icon_of_current_price Example.example_offline Example.start
           (Some {| PriceSample.price := 49.25; PriceSample.source := "historical";
                    PriceSample.timestamp := "2025-10-31T12:00:00Z";
                    PriceSample.isLive := false; PriceSample.isLastKnown := Some true;
                    PriceSample.reliable := false |})
           (snd (APIManager.getCurrentPrice Example.example_offline Example.start))
           1762041600000).
  vm_compute. reflexivity.
Defined.

End DisplayProperties.

(** * Further properties: the page as a whole *)

Section PageFacts.
Context (env : Env).

(** The two loads of [loadAppData]: at most three requests each, and
    what they yield was served, or is empty. *)
Lemma loadAppData_cost w :
  wp (DataManager.loadAppData env)
    (fun evs r w' =>
       Trace.quiet evs /\
       (length (Trace.fetches evs) <= 6)%nat /\
       (forall url, url ∈ Trace.fetches evs ->
                    url = "data/recipients.json" \/ url = "data/daily-prices.json") /\
       (Budget.waited evs <= 3000)%Z /\
       exists recipients dailyPrices,
         r = Ok (recipients, dailyPrices) /\
         (recipients = ∅ \/ Served env "data/recipients.json" (DRecipients recipients)) /\
         (dailyPrices = [] \/ Served env "data/daily-prices.json" (DPrices dailyPrices))) w.
Proof.
  assert (Hload : forall url fallback w0,
            wp (DataManager.loadWithFallback env url fallback 3)
              (fun evs r w' =>
                 Trace.quiet evs /\ (length (Trace.fetches evs) <= 3)%nat /\
                 (forall u, u ∈ Trace.fetches evs -> u = url) /\
                 (Budget.waited evs <= 1500)%Z /\
                 exists d, r = Ok d /\ (d = fallback \/ Served env url d)) w0).
  { intros url fallback w0.
    eapply wp_mono;
      [exact (wp_and _ _ _ _ (loadWithFallback_wp env url fallback 3 w0)
                (loadLoop_bound env url fallback 3 4 1 w0 ltac:(lia) ltac:(lia))) |].
    intros evs r w' [(_ & Hq & _) (k & Hf & Hd & Hk & _ & _ & _ & d & -> & Hserved & _)].
    split; [done |]. rewrite Hf, length_replicate. unfold Budget.waited. rewrite Hd.
    split_and!.
    - lia.
    - intros u Hu. by apply elem_of_replicate in Hu as [-> _].
    - destruct k as [| [| [| [| k]]]]; simpl in *; lia.
    - by exists d. }
  unfold DataManager.loadAppData, DataManager.maxRetries.
  apply wp_bind. eapply wp_mono; [apply Hload |].
  intros evs r w1 (Hq & Hf & Hu & Hw & d & -> & Hd).
  apply wp_bind. eapply wp_mono; [apply Hload |].
  intros evs' r' w2 (Hq' & Hf' & Hu' & Hw' & d' & -> & Hd').
  apply wp_ret. rewrite app_nil_r, fetches_app, waited_app, length_app.
  split_and!; try lia.
  - by apply quiet_app.
  - intros url Hin. apply elem_of_app in Hin as [Hin | Hin]; [left | right]; auto.
  - eexists _, _. split; [reflexivity |]. split.
    + destruct Hd as [-> | Hserved]; [by left |].
      destruct d; try (by left). by right.
    + destruct Hd' as [-> | Hserved]; [by left |].
      destruct d'; try (by left). by right.
Qed.

End PageFacts.

Section PageProperties.

(** X15.  The data of the page.  [loadAppData] never fails.  The
    recipients it returns are those of a document that the server sent for
    recipients.json, or none; the prices are those of a document that the
    server sent for daily-prices.json, or none.  It asks for these two
    documents only, at most six times in all, and its timers take at most
    three seconds. *)
Theorem app_data_is_served_or_empty env w :
  exists recipients dailyPrices w',
    DataManager.loadAppData env w = (Ok (recipients, dailyPrices), w') /\
    (recipients = ∅ \/ Served env "data/recipients.json" (DRecipients recipients)) /\
    (dailyPrices = [] \/ Served env "data/daily-prices.json" (DPrices dailyPrices)) /\
    (length (Trace.fetches (appended w w')) <= 6)%nat /\
    (forall url, url ∈ Trace.fetches (appended w w') ->
                 url = "data/recipients.json" \/ url = "data/daily-prices.json") /\
    (Budget.waited (appended w w') <= 3000)%Z.
Proof.
  destruct (DataManager.loadAppData env w) as [r w'] eqn:Hrun.
  destruct (wp_appended _ _ _ _ _ (loadAppData_cost env w) Hrun)
    as (_ & Hf & Hu & Hw & recipients & dailyPrices & -> & Hr & Hp).
  exists recipients, dailyPrices, w'. by split_and!.
Qed.

(** X16.  A known recipient gets the gift page.  When the query string
    names a recipient of the map that was loaded, [init] returns with the
    gift page of that recipient on the page: its content and chart are
    those that [createGiftContent] and [createChart] make of the record,
    of the prices that were loaded and of what [getCurrentPrice] returns,
    read at the time [getCurrentPrice] ends. *)
Theorem known_recipient_gets_gift_page env w id recipients dailyPrices w1 config :
  Utils.getRecipientFromUrl env = Some id -> id <> "" ->
  DataManager.loadAppData env w = (Ok (recipients, dailyPrices), w1) ->
  recipients !! id = Some config ->
  exists o w2 w',
    APIManager.getCurrentPrice env w1 = (Ok o, w2) /\
    SilverGiftApp.init env w = (Ok tt, w') /\
    contentDiv w'
    = ViewGiftPage
        (UIRenderer.createGiftContent config o
           (Utils.getTimeDifference env (clock w2) (RecipientRecord.giftDate config))
           (UIRenderer.createStatusIcon env (clock w2) o))
        (UIRenderer.createChart env dailyPrices).
Proof.
  intros Hid Hne Hload Hconfig.
  destruct (APIManager.getCurrentPrice env w1) as [r w2] eqn:Hprice.
  destruct (wp_appended _ _ _ _ _ (getCurrentPrice_wp env w1) Hprice)
    as (_ & o & -> & _).
  exists o, w2. eexists. split; [reflexivity |].
  unfold SilverGiftApp.init, Effects.try_catch, SilverGiftApp.loadAndRender,
    Effects.bind.
  rewrite Hload, Hid. simpl. destruct id as [| c id]; [done |].
  rewrite Hconfig, Hprice. split; reflexivity.
Qed.

Lemma known_recipient_gets_gift_page_witness :
  exists o w2 w',
    APIManager.getCurrentPrice Scenario.mary_online
      (snd (DataManager.loadAppData Scenario.mary_online Example.start)) = (Ok o, w2) /\
    SilverGiftApp.init Scenario.mary_online Example.start = (Ok tt, w') /\
    contentDiv w'
    = ViewGiftPage
        (UIRenderer.createGiftContent Example.mary o
           (Utils.getTimeDifference Scenario.mary_online (clock w2) "2024-11-02")
           (UIRenderer.createStatusIcon Scenario.mary_online (clock w2) o))
        (UIRenderer.createChart Scenario.mary_online Example.history).
Proof.
  apply (known_recipient_gets_gift_page Scenario.mary_online Example.start "mary"
           {[ "mary" := Example.mary ]} Example.history
           (snd (DataManager.loadAppData Scenario.mary_online Example.start))
           Example.mary).
  - reflexivity.
  - discriminate.
  - vm_compute. reflexivity.
  - vm_compute. reflexivity.
Defined.

(** X17.  No endpoint is asked for an unknown recipient.  When the query
    string names no recipient of the map that was loaded, and no property
    that the map inherits from [Object.prototype], [init] turns to no
    endpoint and makes no pass of the retry loop: the only requests are
    those of [loadAppData] for recipients.json and daily-prices.json, at
    most six. *)
Theorem unknown_recipient_asks_no_endpoint env w recipients dailyPrices w1 r w' :
  DataManager.loadAppData env w = (Ok (recipients, dailyPrices), w1) ->
  (forall id, Utils.getRecipientFromUrl env = Some id ->
              recipients !! id = None /\ JSProto.in_object_prototype id = false) ->
  SilverGiftApp.init env w = (r, w') ->
  Trace.tried (appended w w') = [] /\
  Trace.attempts (appended w w') = [] /\
  (length (Trace.fetches (appended w w')) <= 6)%nat /\
  (forall url, url ∈ Trace.fetches (appended w w') ->
               url = "data/recipients.json" \/ url = "data/daily-prices.json").
Proof.
  intros Hload Hunknown Hrun.
  assert (Hsame : events w' = events w1).
  { unfold SilverGiftApp.init, Effects.try_catch, SilverGiftApp.loadAndRender,
      Effects.bind in Hrun.
    rewrite Hload in Hrun. simpl in Hrun.
    destruct (Utils.getRecipientFromUrl env) as [[| c id] |] eqn:Hid;
      try (by injection Hrun as _ <-).
    destruct (Hunknown _ eq_refl) as [Hnone Hplain].
    rewrite Hnone, Hplain in Hrun. by injection Hrun as _ <-. }
  unfold appended. rewrite Hsame.
  destruct (wp_appended _ _ _ _ _ (loadAppData_cost env w) Hload)
    as ([Ht Ha] & Hf & Hu & _).
  by split_and!.
Qed.

Lemma unknown_recipient_asks_no_endpoint_witness :
  Trace.tried
    (appended Example.start
       (snd (SilverGiftApp.init Example.example_online Example.start))) = [] /\
  Trace.attempts
    (appended Example.start
       (snd (SilverGiftApp.init Example.example_online Example.start))) = [] /\
  (length
     (Trace.fetches
        (appended Example.start
           (snd (SilverGiftApp.init Example.example_online Example.start)))) <= 6)%nat /\
  (forall url,
      url ∈ Trace.fetches
              (appended Example.start
                 (snd (SilverGiftApp.init Example.example_online Example.start))) ->
      url = "data/recipients.json" \/ url = "data/daily-prices.json").
Proof.
  apply (unknown_recipient_asks_no_endpoint Example.example_online Example.start
           {[ "mary" := Example.mary ]} Example.history
           (snd (DataManager.loadAppData Example.example_online Example.start))
           (fst (SilverGiftApp.init Example.example_online Example.start))).
  - vm_compute. reflexivity.
  - intros id [= <-]. split; vm_compute; reflexivity.
  - apply run_eq.
Defined.

(** X27.  A recipient that is unknown gets the selection list.  When the
    query string names no recipient, or one that is neither in the map
    that was loaded nor a property that the map inherits from
    [Object.prototype], [init] ends with the selection list of that map
    on the page, and not with the error view. *)
Theorem unlisted_recipient_gets_selector env w recipients dailyPrices w1 :
  DataManager.loadAppData env w = (Ok (recipients, dailyPrices), w1) ->
  (forall id, Utils.getRecipientFromUrl env = Some id ->
              recipients !! id = None /\ JSProto.in_object_prototype id = false) ->
  exists w',
    SilverGiftApp.init env w = (Ok tt, w') /\
    contentDiv w'
    = ViewRecipientSelector (RecipientRecord.recipientName <$> recipients) /\
    forall message, contentDiv w' <> ViewError message.
Proof.
  intros Hload Hunknown.
  unfold SilverGiftApp.init, Effects.try_catch, SilverGiftApp.loadAndRender,
    Effects.bind.
  rewrite Hload. simpl.
  destruct (Utils.getRecipientFromUrl env) as [[| c id] |] eqn:Hid;
    try (eexists; split_and!; [reflexivity | reflexivity | done]).
  destruct (Hunknown _ eq_refl) as [Hnone Hplain]. rewrite Hnone, Hplain.
  eexists. split_and!; [reflexivity | reflexivity | done].
Qed.

Lemma unlisted_recipient_gets_selector_witness :
  exists w',
    SilverGiftApp.init Example.example_online Example.start = (Ok tt, w') /\
    contentDiv w' = ViewRecipientSelector {[ "mary" := "Mary" ]}.
Proof.
  destruct (unlisted_recipient_gets_selector Example.example_online Example.start
              {[ "mary" := Example.mary ]} Example.history
              (snd (DataManager.loadAppData Example.example_online Example.start)))
    as (w' & Hinit & Hview & _).
  - vm_compute. reflexivity.
  - intros id [= <-]. split; vm_compute; reflexivity.
  - exists w'. split; [done |]. rewrite Hview. by rewrite map_fmap_singleton.
Defined.

End PageProperties.

(** * Further properties: the keys of a path *)

Section PathFacts.
Import EndpointConfig.

Lemma split_go_nonempty sep : forall s skip cur, JSString.split_go sep skip cur s <> [].
Proof.
  induction s as [| c s IH]; intros skip cur.
  - by destruct skip.
  - destruct skip as [| k]; simpl; [| apply IH].
    destruct (JSString.starts_with sep (String c s)); [done | apply IH].
Qed.

(** The entries of the table of [parseJSONPath]. *)
Lemma complexPaths_entries p path :
  APIManager.complexPaths !! p = Some path ->
  (p = "Global Quote.05. price" /\ path = ["Global Quote"; "05. price"]) \/
  (p = "Global Quote.07. latest trading day"
   /\ path = ["Global Quote"; "07. latest trading day"]) \/
  (p = "rates.XAG" /\ path = ["rates"; "XAG"]) \/
  (p = "rates.USDXAG" /\ path = ["rates"; "USDXAG"]).
Proof.
  intros Hlookup. unfold APIManager.complexPaths in Hlookup.
  apply elem_of_list_to_map_2 in Hlookup.
  repeat (apply elem_of_cons in Hlookup as [[= -> ->] | Hlookup]; [tauto |]).
  by apply elem_of_nil in Hlookup.
Qed.

Lemma parseJSONPath_nonempty p : APIManager.parseJSONPath p <> APIManager.PathKeys [].
Proof.
  assert (Hsplit : APIManager.PathKeys (JSString.split "." p) <> APIManager.PathKeys []).
  { intros [= Heq]. by apply split_go_nonempty in Heq. }
  unfold APIManager.parseJSONPath.
  destruct (APIManager.complexPaths !! p) as [path |] eqn:Hlookup.
  { apply complexPaths_entries in Hlookup as [[_ ->] | [[_ ->] | [[_ ->] | [_ ->]]]];
      done. }
  destruct (JSProto.in_object_prototype p); [done |].
  destruct (JSString.includes "Global Quote" p); [| done].
  by destruct (JSString.split "Global Quote." p) as [| a [| b [| c l]]].
Qed.

Lemma concat_cons sep x xs :
  xs <> [] -> String.concat sep (x :: xs) = (x +:+ sep +:+ String.concat sep xs).
Proof. by destruct xs. Qed.

(** Splitting at the dots and joining with dots gives the string back. *)
Lemma split_dot_join : forall s cur,
  String.concat "." (JSString.split_go "." 0 cur s)
  = (string_of_list_ascii (rev cur) +:+ s).
Proof.
  induction s as [| c s IH]; intros cur.
  - simpl. by rewrite append_empty_r.
  - cbn [JSString.split_go JSString.starts_with].
    destruct (Ascii.eqb_spec "." c) as [<- | Hc].
    + change (String.length "." - 1)%nat with 0%nat.
      rewrite concat_cons by apply split_go_nonempty. by rewrite IH.
    + rewrite IH. simpl rev. apply string_of_list_ascii_snoc.
Qed.

(** No piece holds a dot. *)
Lemma split_dot_pieces : forall s cur,
  ("."%char ∉ cur) ->
  Forall (fun key => "."%char ∉ list_ascii_of_string key) (JSString.split_go "." 0 cur s).
Proof.
  assert (Hpiece : forall cur, ("."%char ∉ cur) ->
            "."%char ∉ list_ascii_of_string (string_of_list_ascii (rev cur))).
  { intros cur Hcur. rewrite list_ascii_of_string_of_list_ascii.
    rewrite list_elem_of_In, <- in_rev, <- list_elem_of_In. done. }
  induction s as [| c s IH]; intros cur Hcur.
  - simpl. constructor; [by apply Hpiece | constructor].
  - cbn [JSString.split_go JSString.starts_with].
    destruct (Ascii.eqb_spec "." c) as [<- | Hc].
    + constructor; [by apply Hpiece |]. apply IH. apply not_elem_of_nil.
    + apply IH. rewrite elem_of_cons. intros [Heq | Hin]; done.
Qed.

(** Without an occurrence of the separator there is one piece. *)
Lemma split_go_absent sep : forall s cur,
  JSString.includes sep s = false ->
  JSString.split_go sep 0 cur s = [string_of_list_ascii (rev cur) +:+ s].
Proof.
  induction s as [| c s IH]; intros cur Habsent.
  - simpl. by rewrite append_empty_r.
  - cbn [JSString.includes] in Habsent. cbn [JSString.split_go].
    destruct (JSString.starts_with sep (String c s)); [done |].
    rewrite IH by done. simpl rev. by rewrite string_of_list_ascii_snoc.
Qed.

(** A number that equals zero is a zero. *)
Lemma is_zero_inv p : is_zero p = true -> exists s, Prim2SF p = S754_zero s.
Proof.
  unfold is_zero. rewrite FloatAxioms.eqb_spec. unfold SFeqb.
  replace (Prim2SF zero) with (S754_zero false) by (vm_compute; reflexivity).
  destruct (Prim2SF p) as [s | s | | s m e]; try done; [by exists s | by destruct s | by destruct s].
Qed.

End PathFacts.

Section PathProperties.
Import EndpointConfig.

(** X18.  An answer that is not an object yields no price.  The keys of
    a path are never empty, so for an answer that is [null], a boolean, a
    number or a string, [extractPrice] returns nothing, whatever the
    configured path. *)
Theorem primitive_answer_yields_no_price data api :
  (forall items, data <> JArr items) -> (forall fields, data <> JObj fields) ->
  APIManager.parseJSONPath (price_path api) <> APIManager.PathKeys [] /\
  APIManager.extractPrice data api = None.
Proof.
  intros Harr Hobj. split; [apply parseJSONPath_nonempty |].
  unfold APIManager.extractPrice.
  destruct (APIManager.parseJSONPath (price_path api)) as [[| key rest] | name] eqn:Hpath;
    [| | done].
  { by destruct (parseJSONPath_nonempty (price_path api)). }
  destruct data as [| b | x | s | items | fields]; try done.
  - by destruct (Harr items).
  - by destruct (Hobj fields).
Qed.

Lemma primitive_answer_yields_no_price_witness :
  APIManager.parseJSONPath "price" <> APIManager.PathKeys [] /\
  APIManager.extractPrice (JNum 42.5) Example.premium = None.
Proof.
  apply (primitive_answer_yields_no_price (JNum 42.5) Example.premium); discriminate.
Defined.

(** X19.  The keys of a dotted path.  For a path that does not mention
    "Global Quote" and is not the name of a property of
    [Object.prototype], [parseJSONPath] returns the pieces between the
    dots: joined with dots they give the path back, and no key holds a
    dot. *)
Theorem dotted_path_keys p :
  JSString.includes "Global Quote" p = false ->
  JSProto.in_object_prototype p = false ->
  APIManager.parseJSONPath p = APIManager.PathKeys (JSString.split "." p) /\
  String.concat "." (JSString.split "." p) = p /\
  Forall (fun key => "."%char ∉ list_ascii_of_string key) (JSString.split "." p).
Proof.
  intros Hplain Hmember. split_and!.
  - unfold APIManager.parseJSONPath. rewrite Hplain, Hmember.
    destruct (APIManager.complexPaths !! p) as [path |] eqn:Hlookup; [| done].
    apply complexPaths_entries in Hlookup
        as [[-> ->] | [[-> ->] | [[-> ->] | [-> ->]]]];
      first [reflexivity | by vm_compute in Hplain].
  - apply (split_dot_join p []).
  - apply split_dot_pieces, not_elem_of_nil.
Qed.

Lemma dotted_path_keys_witness :
  APIManager.parseJSONPath "data.rates.XAG"
  = APIManager.PathKeys (JSString.split "." "data.rates.XAG") /\
  String.concat "." (JSString.split "." "data.rates.XAG") = "data.rates.XAG" /\
  Forall (fun key => "."%char ∉ list_ascii_of_string key)
    (JSString.split "." "data.rates.XAG").
Proof.
  apply (dotted_path_keys "data.rates.XAG"); vm_compute; reflexivity.
Defined.

(** X20.  A key of a quote keeps its dots.  For a path that starts with
    "Global Quote." and has no other occurrence of it, [parseJSONPath]
    returns two keys: "Global Quote" and all that follows, dots
    included. *)
Theorem global_quote_key_keeps_dots rest :
  JSString.includes "Global Quote." rest = false ->
  APIManager.parseJSONPath ("Global Quote." +:+ rest)
  = APIManager.PathKeys ["Global Quote"; rest].
Proof.
  intros Habsent. unfold APIManager.parseJSONPath.
  destruct (APIManager.complexPaths !! ("Global Quote." +:+ rest)) as [path |] eqn:Hlookup.
  { apply complexPaths_entries in Hlookup
        as [[Hp ->] | [[Hp ->] | [[Hp ->] | [Hp ->]]]];
      simpl in Hp; by injection Hp as <-. }
  assert (Hsplit : JSString.split "Global Quote." ("Global Quote." +:+ rest) = [""; rest]).
  { unfold JSString.split. simpl. change ("" +:+ rest) with rest.
    by rewrite (split_go_absent _ rest [] Habsent). }
  rewrite Hsplit. reflexivity.
Qed.

Lemma global_quote_key_keeps_dots_witness :
  APIManager.parseJSONPath "Global Quote.10. change percent"
  = APIManager.PathKeys ["Global Quote"; "10. change percent"].
Proof.
  apply (global_quote_key_keeps_dots "10. change percent"). vm_compute. reflexivity.
Defined.

(** X21.  A rate of zero is never accepted.  When the configured path
    leads to a value that reads as zero, the price that [extractPrice]
    returns (zero, or its reciprocal, an infinity, when the endpoint asks
    for the inversion) is refused by the test of [tryIndividualAPI]. *)
Theorem zero_rate_is_never_accepted data api keys value :
  APIManager.parseJSONPath (price_path api) = APIManager.PathKeys keys ->
  APIManager.walkPath keys (JSObject.Data data) = Some value ->
  is_zero (JSObject.parseFloat value) = true ->
  APIManager.acceptable (APIManager.extractPrice data api) = false.
Proof.
  intros Hpath Hwalk Hzero. unfold APIManager.extractPrice. rewrite Hpath, Hwalk.
  destruct (is_zero_inv _ Hzero) as [s Hs].
  assert (Hnan : is_nan (JSObject.parseFloat value) = false).
  { unfold is_nan. rewrite FloatAxioms.eqb_spec, Hs. reflexivity. }
  rewrite Hnan. destruct (APIManager.inverts api).
  - unfold APIManager.acceptable.
    rewrite !FloatAxioms.leb_spec, FloatAxioms.div_spec, Hs.
    replace (Prim2SF 1) with (S754_finite false 4503599627370496 (-52))
      by (vm_compute; reflexivity).
    replace (Prim2SF 10) with (S754_finite false 5629499534213120 (-49))
      by (vm_compute; reflexivity).
    replace (Prim2SF 200) with (S754_finite false 7036874417766400 (-45))
      by (vm_compute; reflexivity).
    destruct s; vm_compute SF64div; simpl;
      [by rewrite andb_false_r | by rewrite andb_false_r].
  - unfold APIManager.acceptable, JSNumber.truthy. rewrite Hzero, Hnan. reflexivity.
Qed.

Lemma zero_rate_is_never_accepted_witness :
  APIManager.acceptable
    (APIManager.extractPrice (JObj [("rates", JObj [("XAG", JNum 0)])]) Example.metals)
  = false.
Proof.
  apply (zero_rate_is_never_accepted (JObj [("rates", JObj [("XAG", JNum 0)])])
           Example.metals ["rates"; "XAG"] (JSObject.Data (JNum 0))).
  - vm_compute. reflexivity.
  - vm_compute. reflexivity.
  - vm_compute. reflexivity.
Defined.

(** X28.  Path extraction along own keys.  Let [keys] be the keys that
    [parseJSONPath] returns for the configured path (it returns keys
    unless the path is the name of a property of [Object.prototype]).
    [extractPrice] returns nothing when the walk ends on a value that
    [parseFloat] does not read as a number, and when a key is absent
    along the walk, provided that [__proto__] is not among the keys;
    otherwise it returns the number read, replaced by its reciprocal
    exactly when the [rate_conversion] field of the endpoint is
    'invert'.  One of the three cases always applies. *)
Theorem extract_price_follows_own_keys data api keys :
  APIManager.parseJSONPath (price_path api) = APIManager.PathKeys keys ->
  ((KeyAbsent data keys /\ ("__proto__" ∉ keys)) ->
   APIManager.extractPrice data api = None) /\
  (forall value,
      Resolves data keys value -> is_nan (JSNumber.parseFloat value) = true ->
      APIManager.extractPrice data api = None) /\
  (forall value,
      Resolves data keys value -> is_nan (JSNumber.parseFloat value) = false ->
      (rate_conversion api = Some "invert" ->
       APIManager.extractPrice data api = Some (1 / JSNumber.parseFloat value)%float) /\
      (rate_conversion api <> Some "invert" ->
       APIManager.extractPrice data api = Some (JSNumber.parseFloat value))) /\
  (KeyAbsent data keys \/ exists value, Resolves data keys value) /\
  (JSProto.in_object_prototype (price_path api) = false).
Proof.
  intros Hpath. unfold APIManager.extractPrice. rewrite Hpath. split_and!.
  - intros [Habsent Hproto].
    destruct (walkPath_absent _ _ Hproto Habsent) as [-> | [name ->]]; [done |].
    reflexivity.
  - intros value Hres Hnan. rewrite (walkPath_resolves _ _ _ Hres).
    cbn [JSObject.parseFloat]. by rewrite Hnan.
  - intros value Hres Hnum. rewrite (walkPath_resolves _ _ _ Hres).
    cbn [JSObject.parseFloat]. rewrite Hnum.
    unfold APIManager.inverts. split.
    + by intros ->.
    + intros Hno. destruct (rate_conversion api) as [s |]; [| done].
      destruct (String.eqb_spec s "invert"); [congruence | done].
  - apply own_walk_cases.
  - unfold APIManager.parseJSONPath in Hpath.
    destruct (APIManager.complexPaths !! price_path api) as [path |] eqn:Hlookup.
    + apply complexPaths_entries in Hlookup
          as [[-> _] | [[-> _] | [[-> _] | [-> _]]]]; reflexivity.
    + by destruct (JSProto.in_object_prototype (price_path api)).
Qed.

Lemma extract_price_follows_own_keys_witness :
  APIManager.extractPrice (JObj [("rates", JObj [("XAG", JNum 0.03125)])]) Example.metals
  = Some 32%float.
Proof.
  destruct (extract_price_follows_own_keys
              (JObj [("rates", JObj [("XAG", JNum 0.03125)])]) Example.metals
              ["rates"; "XAG"])
    as (_ & _ & Hnumber & _).
  - vm_compute. reflexivity.
  - destruct (Hnumber (JNum 0.03125)) as [Hinvert _].
    + eapply Resolves_cons; [vm_compute; reflexivity |].
      eapply Resolves_cons; [vm_compute; reflexivity |].
      apply Resolves_nil.
    + vm_compute. reflexivity.
    + rewrite Hinvert; [| reflexivity]. vm_compute. reflexivity.
Defined.

End PathProperties.

(** * Further properties: the wording of dates and ages *)

Section WordingFacts.

Lemma length_append (a b : string) :
  String.length (a +:+ b) = (String.length a + String.length b)%nat.
Proof.
  induction a as [| c a IH]; [done |].
  change (S (String.length (a +:+ b)) = S (String.length a + String.length b)).
  by rewrite IH.
Qed.

End WordingFacts.

Section WordingProperties.

(** The unit is the one that was printed, and the count lies in its range. *)
Ltac in_range := split; [reflexivity | Z.to_euclidean_division_equations; lia].

(** X22.  The count that [getTimeAgo] prints.  For a timestamp at least
    one minute in the past, the description is a count with its unit, and
    the count is never zero: 1 to 59 minutes, 1 to 23 hours, 1 to 6 days,
    1 to 4 weeks, 1 to 12 months, or at least 1 year. *)
Theorem time_ago_count_is_in_range env now ts t :
  ts <> "" -> date_parse env ts = Some t -> (t + 60000 <= now)%Z ->
  exists n unit,
    Utils.getTimeAgo env now (Some ts) = Utils.ago (Some n) unit /\
    ((unit = "minute" /\ 1 <= n <= 59) \/ (unit = "hour" /\ 1 <= n <= 23) \/
     (unit = "day" /\ 1 <= n <= 6) \/ (unit = "week" /\ 1 <= n <= 4) \/
     (unit = "month" /\ 1 <= n <= 12) \/ (unit = "year" /\ 1 <= n))%Z.
Proof.
  intros Hts Hparse Hpast. unfold Utils.getTimeAgo.
  destruct ts as [| c s]; [done |]. rewrite Hparse.
  unfold JSInt.sub, JSInt.ltb, JSInt.floor_div. cbn [fmap option_fmap option_map].
  change (1000 * 60 * 60 * 24)%Z with 86400000%Z.
  change (1000 * 60 * 60)%Z with 3600000%Z.
  change (1000 * 60)%Z with 60000%Z.
  repeat match goal with
         | |- context [if (?a <? ?b)%Z then _ else _] => destruct (Z.ltb_spec a b)
         end;
    try (exfalso; Z.to_euclidean_division_equations; lia);
    eexists _, _; (split; [reflexivity |]);
    first [ left; in_range
          | right; left; in_range
          | do 2 right; left; in_range
          | do 3 right; left; in_range
          | do 4 right; left; in_range
          | do 5 right; in_range ].
Qed.

Lemma time_ago_count_is_in_range_witness :
  exists n unit,
    Utils.getTimeAgo Example.example_online 1762041600000 (Some "2025-10-31T12:00:00Z")
    = Utils.ago (Some n) unit /\
    ((unit = "minute" /\ 1 <= n <= 59) \/ (unit = "hour" /\ 1 <= n <= 23) \/
     (unit = "day" /\ 1 <= n <= 6) \/ (unit = "week" /\ 1 <= n <= 4) \/
     (unit = "month" /\ 1 <= n <= 12) \/ (unit = "year" /\ 1 <= n))%Z.
Proof.
  apply (time_ago_count_is_in_range Example.example_online 1762041600000
           "2025-10-31T12:00:00Z" 1761912000000).
  - discriminate.
  - reflexivity.
  - lia.
Defined.

(** X23.  When [getTimeDifference] says "today".  The description is
    "today" exactly when the gift date is not a date, or lies less than
    one day from now, before or after it. *)
Theorem today_means_less_than_a_day env today giftDate :
  Utils.getTimeDifference env today giftDate = "today" <->
  date_parse env giftDate = None \/
  exists t, date_parse env giftDate = Some t /\ (Z.abs (today - t) < 86400000)%Z.
Proof.
  unfold Utils.getTimeDifference.
  destruct (date_parse env giftDate) as [t |].
  2: { split; [by left | done]. }
  unfold JSInt.sub, JSInt.abs, JSInt.floor_div, JSInt.rem, JSInt.gtb, JSInt.eqb,
    JSInt.to_string.
  cbn [fmap option_fmap option_map].
  change (1000 * 60 * 60 * 24)%Z with 86400000%Z.
  assert (Hlong : forall a b c : string,
             (3 <= String.length b)%nat -> (2 <= String.length c)%nat ->
             (a +:+ " " +:+ b +:+ c) <> "today").
  { intros a b c Hb Hc Heq. apply (f_equal String.length) in Heq.
    rewrite !length_append in Heq. simpl in Heq. lia. }
  assert (Hnot : forall (a : string) (x : bool) (one many c : string),
             (3 <= String.length one)%nat -> (3 <= String.length many)%nat ->
             (2 <= String.length c)%nat ->
             (a +:+ " " +:+ (if x then one else many) +:+ c) = "today" -> False).
  { intros a x one many c H1 H2 Hc. apply Hlong; [by destruct x | done]. }
  destruct (Z.ltb_spec 0 (Z.abs (today - t) / 86400000 / 365));
    destruct (Z.ltb_spec 0 (Z.rem (Z.abs (today - t) / 86400000) 365));
    cbn [andb].
  - split.
    + intros Heq. exfalso. revert Heq.
      apply Hnot; rewrite ?length_append; simpl; lia.
    + intros [Hnone | (t' & [= <-] & Hnear)]; [done |].
      exfalso. Z.to_euclidean_division_equations. lia.
  - split.
    + intros Heq. exfalso. revert Heq. apply Hnot; simpl; lia.
    + intros [Hnone | (t' & [= <-] & Hnear)]; [done |].
      exfalso. Z.to_euclidean_division_equations. lia.
  - split.
    + intros Heq. exfalso. revert Heq. apply Hnot; simpl; lia.
    + intros [Hnone | (t' & [= <-] & Hnear)]; [done |].
      exfalso. Z.to_euclidean_division_equations. lia.
  - split; [| done]. intros _. right. exists t. split; [done |].
    Z.to_euclidean_division_equations. lia.
Qed.

(** X24.  The ordinal of a day of the month.  For every day from 1 to
    31, [getOrdinalSuffix] appends the English suffix to the number: "st"
    for 1, 21 and 31, "nd" for 2 and 22, "rd" for 3 and 23, "th" for the
    others, 11, 12 and 13 included. *)
Theorem ordinal_of_a_day_of_the_month day :
  (1 <= day <= 31)%Z ->
  UtilsFormat.getOrdinalSuffix day
  = (pretty day +:+
     (if ((day =? 1) || (day =? 21) || (day =? 31))%Z then "st"
      else if ((day =? 2) || (day =? 22))%Z then "nd"
      else if ((day =? 3) || (day =? 23))%Z then "rd"
      else "th")).
Proof.
  intros Hday.
  assert (Hcases : (day = 1 \/ day = 2 \/ day = 3 \/ day = 4 \/ day = 5 \/ day = 6 \/ day = 7 \/ day
             = 8 \/ day = 9 \/ day = 10 \/ day = 11 \/ day = 12 \/ day = 13 \/ day = 14 \/
             day = 15 \/ day = 16 \/ day = 17 \/ day = 18 \/ day = 19 \/ day = 20 \/ day = 21
             \/ day = 22 \/ day = 23 \/ day = 24 \/ day = 25 \/ day = 26 \/ day = 27 \/ day =
             28 \/ day = 29 \/ day = 30 \/ day = 31)%Z)
    by lia.
  repeat (destruct Hcases as [-> | Hcases]; [vm_compute; reflexivity |]).
  subst day. vm_compute. reflexivity.
Qed.

Lemma ordinal_of_a_day_of_the_month_witness :
  UtilsFormat.getOrdinalSuffix 22 = "22nd".
Proof. apply (ordinal_of_a_day_of_the_month 22). lia. Defined.

End WordingProperties.

(** * Further properties: the cost of showing the page *)

Section PageBudgetFacts.
Context (env : Env).

Lemma getLastKnownPrice_cost w :
  wp (DataManager.getLastKnownPrice env)
    (fun evs r w' =>
       Trace.quiet evs /\ (length (Trace.fetches evs) <= 2)%nat /\
       (0 <= Budget.waited evs <= 500)%Z /\ exists o, r = Ok o) w.
Proof.
  assert (Hcost : wp (DataManager.getLastKnownPrice env)
                    (fun evs _ _ =>
                       (length (Trace.fetches evs) <= 2)%nat /\
                       (0 <= Budget.waited evs <= 500)%Z) w).
  { unfold DataManager.getLastKnownPrice. apply wp_try_catch, wp_bind.
    eapply wp_mono;
      [apply (loadLoop_bound env "data/daily-prices.json" (DPrices []) 2 3 1); lia |].
    intros evs r w1 (k & Hf & Hd & Hk & _ & _ & _ & d & -> & _).
    assert (Hevs : (length (Trace.fetches (evs ++ [])) <= 2)%nat /\
                   (0 <= Budget.waited (evs ++ []) <= 500)%Z).
    { rewrite app_nil_r. unfold Budget.waited. rewrite Hf, Hd, length_replicate.
      destruct k as [| [| [| k]]]; simpl in *; lia. }
    destruct d as [| config | entries | recipients | value]; try by apply wp_ret.
    destruct (last entries); by apply wp_ret. }
  eapply wp_mono; [exact (wp_and _ _ _ _ (getLastKnownPrice_wp env w) Hcost) |].
  intros evs r w' [(Hq & _ & o & -> & _) (Hf & Hw)].
  split; [done |]. split; [done |]. split; [done |]. by exists o.
Qed.

Lemma getCurrentPrice_cost w :
  wp (APIManager.getCurrentPrice env)
    (fun evs r w' =>
       let n := length (Trace.tried evs) in
       (1 <= n)%nat /\ (length (Trace.fetches evs) <= 4 + 3 * n)%nat /\
       (Budget.waited evs <= 2500 * Z.of_nat n)%Z /\ exists o, r = Ok o) w.
Proof.
  unfold APIManager.getCurrentPrice. apply wp_bind.
  eapply wp_mono; [apply tryAllLiveAPIs_cost |].
  intros evs r w1 (Hn & Hf & Hw & Hr). destruct r as [[s |] | |]; try done.
  - apply wp_ret. rewrite app_nil_r. split_and!; try lia. by eexists.
  - eapply wp_mono; [apply getLastKnownPrice_cost |].
    intros evs' r' w' ([Ht _] & Hf' & Hw' & o & ->).
    rewrite tried_app, fetches_app, waited_app, !length_app, Ht. cbn [length].
    split_and!; try lia. by eexists.
Qed.

Lemma loadAndRender_cost w :
  wp (SilverGiftApp.loadAndRender env)
    (fun evs r w' =>
       let n := length (Trace.tried evs) in
       (length (Trace.fetches evs) <= 10 + 3 * n)%nat /\
       (Budget.waited evs <= 3000 + 2500 * Z.of_nat n)%Z) w.
Proof.
  assert (Hselect : forall recipients evs w1,
            Trace.quiet evs -> (length (Trace.fetches evs) <= 6)%nat ->
            (Budget.waited evs <= 3000)%Z ->
            wp (UIRenderer.showRecipientSelector recipients)
              (fun evs' _ _ =>
                 (length (Trace.fetches (evs ++ evs'))
                  <= 10 + 3 * length (Trace.tried (evs ++ evs')))%nat /\
                 (Budget.waited (evs ++ evs')
                  <= 3000 + 2500 * Z.of_nat (length (Trace.tried (evs ++ evs'))))%Z) w1).
  { intros recipients evs w1 [Ht _] Hf Hw. apply wp_set_content.
    rewrite app_nil_r, Ht. simpl. lia. }
  unfold SilverGiftApp.loadAndRender. apply wp_bind.
  eapply wp_mono; [apply loadAppData_cost |].
  intros evs r w1 (Hq & Hf & _ & Hw & recipients & dailyPrices & -> & _).
  cbn [fst snd].
  destruct (Utils.getRecipientFromUrl env) as [[| c id] |]; try by apply Hselect.
  destruct (recipients !! String c id) as [config |].
  - apply wp_bind. eapply wp_mono; [apply getCurrentPrice_cost |].
    intros evs' r' w2 (Hn & Hf' & Hw' & o & ->).
    unfold UIRenderer.renderGiftPage. apply wp_bind, wp_now, wp_set_content.
    destruct Hq as [Ht _].
    rewrite !app_nil_r, tried_app, fetches_app, waited_app, !length_app, Ht.
    simpl. lia.
  - destruct (JSProto.in_object_prototype (String c id)); [| by apply Hselect].
    apply wp_bind. eapply wp_mono; [apply getCurrentPrice_cost |].
    intros evs' r' w2 (Hn & Hf' & Hw' & o & ->).
    unfold UIRenderer.renderGiftPage_member. apply wp_bind, wp_now, wp_set_content.
    destruct Hq as [Ht _].
    rewrite !app_nil_r, tried_app, fetches_app, waited_app, !length_app, Ht.
    simpl. lia.
Qed.

End PageBudgetFacts.

Section PageBudgetProperties.

(** X25.  The budget of [getCurrentPrice].  It always returns.  With [n]
    the number of endpoints it turned to, at least one, it makes at most
    [4 + 3 * n] requests (two for the configuration, three for each
    endpoint, two for the history) and spends at most [2500 * n]
    milliseconds in timers. *)
Theorem current_price_budget env w :
  exists o w',
    APIManager.getCurrentPrice env w = (Ok o, w') /\
    (1 <= length (Trace.tried (appended w w')))%nat /\
    (length (Trace.fetches (appended w w'))
     <= 4 + 3 * length (Trace.tried (appended w w')))%nat /\
    (Budget.waited (appended w w')
     <= 2500 * Z.of_nat (length (Trace.tried (appended w w'))))%Z.
Proof.
  destruct (APIManager.getCurrentPrice env w) as [r w'] eqn:Hrun.
  destruct (wp_appended _ _ _ _ _ (getCurrentPrice_cost env w) Hrun)
    as (Hn & Hf & Hw & o & ->).
  exists o, w'. by split_and!.
Qed.

(** X26.  The budget of the page.  [init] always returns, with the
    selection list or a gift page in place of the loading notice.  With
    [n] the number of endpoints it turned to, it makes at most
    [10 + 3 * n] requests and spends at most [3000 + 2500 * n]
    milliseconds in timers. *)
Theorem page_load_budget env w :
  exists w',
    SilverGiftApp.init env w = (Ok tt, w') /\
    ((exists options, contentDiv w' = ViewRecipientSelector options) \/
     (exists content chart, contentDiv w' = ViewGiftPage content chart)) /\
    (length (Trace.fetches (appended w w'))
     <= 10 + 3 * length (Trace.tried (appended w w')))%nat /\
    (Budget.waited (appended w w')
     <= 3000 + 2500 * Z.of_nat (length (Trace.tried (appended w w'))))%Z.
Proof.
  destruct (SilverGiftApp.loadAndRender env w) as [r w'] eqn:Hrun.
  destruct (wp_appended _ _ _ _ _ (loadAndRender_wp env w) Hrun) as [-> Hview].
  destruct (wp_appended _ _ _ _ _ (loadAndRender_cost env w) Hrun) as [Hf Hw].
  exists w'. unfold SilverGiftApp.init, Effects.try_catch. rewrite Hrun.
  by split_and!.
Qed.

End PageBudgetProperties.
